(** * hsk_quiz: the adaptive question bank and the quiz session

    A shallow embedding of [question_bank.py] and [session.py].

    Conventions of the embedding.
    - Python [int] is [Z]; Python [float] is idealised as a real number [R]
      (no rounding, no NaN, no infinities); [str] is [string]. Results on
      floats are stated with the expressions of the code and with bounds
      that rounding respects.
    - A [dict] is an association list in insertion order: Python dicts keep
      that order, and [select_questions] depends on it through the stable
      sort of the scores.
    - Reading the clock is an input: every operation that calls
      [datetime.now()] or [time.time()] takes the value read as an argument.
    - The [random] module is an explicit stream of draws that the sampling
      functions consume; theorems quantify over every stream.
    - An exception is a result [Raise e]; an operation that mutates an
      object in place before raising returns the partially mutated object
      together with the exception. *)

From Stdlib Require Import ZArith List String Ascii Bool Arith Lia.
From Stdlib Require Import Reals Lra.
From Equations Require Import Equations.
Import ListNotations.

(* ------------------------------------------------------------------ *)
(** ** Exceptions and the state-and-exception monad *)

Inductive exn : Type :=
| KeyError
| ValueError
| ZeroDivisionError.

Inductive res (A : Type) : Type :=
| Ok (a : A)
| Raise (e : exn).

Arguments Ok {A} a.
Arguments Raise {A} e.

(** A computation over a mutable object of type [S]: it returns the object
    as it is when the computation ends, normally or by an exception. *)
Definition M (S A : Type) : Type := S -> res A * S.

Definition ret {S A} (a : A) : M S A := fun s => (Ok a, s).

Definition bind {S A B} (m : M S A) (k : A -> M S B) : M S B :=
  fun s =>
    match m s with
    | (Ok a, s') => k a s'
    | (Raise e, s') => (Raise e, s')
    end.

Definition raise {S A} (e : exn) : M S A := fun s => (Raise e, s).
Definition get {S} : M S S := fun s => (Ok s, s).
Definition put {S} (s : S) : M S unit := fun _ => (Ok tt, s).

(** [d[k]] on an optional lookup result: a missing key is a [KeyError]. *)
Definition subscript {S A} (o : option A) : M S A :=
  match o with
  | Some a => ret a
  | None => raise KeyError
  end.

Declare Scope monad_scope.
Delimit Scope monad_scope with monad.
Notation "x <- m ;; k" := (bind m (fun x => k))
  (at level 61, m at next level, right associativity) : monad_scope.
Notation "m ;;; k" := (bind m (fun _ => k))
  (at level 61, right associativity) : monad_scope.

(* ------------------------------------------------------------------ *)
(** ** Dictionaries in insertion order *)

Class Key (K : Type) : Type := {
  key_eqb : K -> K -> bool;
  key_eqb_eq : forall a b, key_eqb a b = true <-> a = b
}.

#[export] Instance Key_Z : Key Z :=
  {| key_eqb := Z.eqb; key_eqb_eq := Z.eqb_eq |}.

#[export] Instance Key_string : Key string :=
  {| key_eqb := String.eqb; key_eqb_eq := String.eqb_eq |}.

Section Dict.
Context {K V : Type} `{Key K}.

Definition dict : Type := list (K * V).

(** [d.get(k)] *)
Fixpoint dict_get (k : K) (d : dict) : option V :=
  match d with
  | [] => None
  | (k', v) :: d' => if key_eqb k k' then Some v else dict_get k d'
  end.

(** [d[k] = v]: an existing key keeps its position, a new one goes last. *)
Fixpoint dict_set (k : K) (v : V) (d : dict) : dict :=
  match d with
  | [] => [(k, v)]
  | (k', v') :: d' =>
      if key_eqb k k' then (k', v) :: d' else (k', v') :: dict_set k v d'
  end.

Definition dict_keys (d : dict) : list K := map fst d.
Definition dict_values (d : dict) : list V := map snd d.

Definition mem (k : K) (l : list K) : bool := existsb (key_eqb k) l.

End Dict.

Arguments dict K V : clear implicits.

(* ------------------------------------------------------------------ *)
(** ** Naive [datetime] values

    The fields Python stores; subtraction goes through the proleptic
    Gregorian ordinal exactly as [datetime.__sub__] does. A value is a
    naive one, as [datetime.now()] returns it. An aware value, which
    only a hand-written snapshot can bring into a bank, has no
    counterpart here: subtracting it from [datetime.now()] raises
    [TypeError]. *)

Record datetime : Type := {
  year : Z; month : Z; day : Z;
  hour : Z; minute : Z; second : Z; microsecond : Z
}.

Open Scope Z_scope.

Definition is_leap (y : Z) : bool :=
  (y mod 4 =? 0) && (negb (y mod 100 =? 0) || (y mod 400 =? 0)).

Definition days_in_month (y m : Z) : Z :=
  match m with
  | 1 => 31 | 2 => if is_leap y then 29 else 28 | 3 => 31 | 4 => 30
  | 5 => 31 | 6 => 30 | 7 => 31 | 8 => 31 | 9 => 30 | 10 => 31
  | 11 => 30 | 12 => 31 | _ => 0
  end.

Definition days_before_year (y : Z) : Z :=
  let p := y - 1 in p * 365 + p / 4 - p / 100 + p / 400.

(** Days of the year before the first of month [m]. *)
Definition days_before_month (y m : Z) : Z :=
  fold_right Z.add 0
    (map (days_in_month y) (map Z.of_nat (seq 1 (Z.to_nat (m - 1))))).

Definition toordinal (d : datetime) : Z :=
  days_before_year (year d) + days_before_month (year d) (month d) + day d.

Definition valid_datetimeb (d : datetime) : bool :=
  (1 <=? year d) && (year d <=? 9999) && (1 <=? month d) && (month d <=? 12)
  && (1 <=? day d) && (day d <=? days_in_month (year d) (month d))
  && (0 <=? hour d) && (hour d <? 24) && (0 <=? minute d) && (minute d <? 60)
  && (0 <=? second d) && (second d <? 60)
  && (0 <=? microsecond d) && (microsecond d <? 1000000).

Definition valid_datetime (d : datetime) : Prop := valid_datetimeb d = true.

Definition microseconds_per_day : Z := 86400000000.

(** [(a - b).days]: a [timedelta] is normalised so that its seconds and
    microseconds are non-negative, hence the floor division. *)
Definition sub_days (a b : datetime) : Z :=
  let secs (d : datetime) := second d + minute d * 60 + hour d * 3600 in
  ((toordinal a - toordinal b) * microseconds_per_day
   + (secs a - secs b) * 1000000
   + (microsecond a - microsecond b))
  / microseconds_per_day.

Close Scope Z_scope.

(* ------------------------------------------------------------------ *)
(** ** question_bank.py: the data *)

(** One entry of [questions_data['questions']]. *)
Record Question : Type := {
  q_id : Z;
  q_category : string;
  q_question : string;
  q_options : list (string * string);
  q_correct_answer : string
}.

Record QuestionState : Type := {
  difficulty : R;
  times_shown : Z;
  times_correct : Z;
  consecutive_wrong : Z;
  last_5_attempts : list bool;
  time_to_answer : list R;
  last_seen : option datetime;
  mastery_level : R;
  category : string
}.

(** [QuestionState(category=c)] *)
Definition new_state (c : string) : QuestionState :=
  {| difficulty := 1; times_shown := 0; times_correct := 0;
     consecutive_wrong := 0; last_5_attempts := []; time_to_answer := [];
     last_seen := None; mastery_level := 0; category := c |}.

Record CategoryStats : Type := {
  total_attempts : Z;
  correct_attempts : Z
}.

Record QuestionBank : Type := {
  questions : dict Z Question;
  states : dict Z QuestionState;
  category_stats : dict string CategoryStats
}.

(** [{q['id']: q for q in questions_data['questions']}] *)
Definition build_questions (data : list Question) : dict Z Question :=
  fold_left (fun d q => dict_set (q_id q) q d) data [].

(** [_initialize_category_stats]: one zeroed entry per distinct category.
    Python iterates a [set] here, in an order the language leaves open;
    the model keeps first occurrences, and nothing below depends on the
    order. *)
Definition _initialize_category_stats (qs : dict Z Question)
  : dict string CategoryStats :=
  fold_left
    (fun d kq =>
       dict_set (q_category (snd kq))
                {| total_attempts := 0; correct_attempts := 0 |} d)
    qs [].

(** [QuestionBank.__init__] *)
Definition __init__ (data : list Question) : QuestionBank :=
  let qs := build_questions data in
  {| questions := qs;
     states := map (fun kq => (fst kq, new_state (q_category (snd kq)))) qs;
     category_stats := _initialize_category_stats qs |}.

(* ------------------------------------------------------------------ *)
(** ** update_question_state *)

Open Scope monad_scope.

Definition set_states (f : dict Z QuestionState -> dict Z QuestionState)
  : M QuestionBank unit :=
  fun b => (Ok tt, {| questions := questions b; states := f (states b);
                      category_stats := category_stats b |}).

Definition set_category_stats
  (f : dict string CategoryStats -> dict string CategoryStats)
  : M QuestionBank unit :=
  fun b => (Ok tt, {| questions := questions b; states := states b;
                      category_stats := f (category_stats b) |}).

(** Lines 121-126: the basic statistics. *)
Definition record_attempt (state : QuestionState) (correct : bool)
  (time_taken : R) (now : datetime) : QuestionState :=
  let attempts := (last_5_attempts state ++ [correct])%list in
  {| difficulty := difficulty state;
     times_shown := times_shown state + 1;
     times_correct := times_correct state;
     consecutive_wrong := consecutive_wrong state;
     last_5_attempts :=
       if (5 <? List.length attempts)%nat then tl attempts else attempts;
     time_to_answer := (time_to_answer state ++ [time_taken])%list;
     last_seen := Some now;
     mastery_level := mastery_level state;
     category := category state |}.

(** Lines 134-143: mastery and difficulty. *)
Definition adjust_mastery (state : QuestionState) (correct : bool)
  : QuestionState :=
  if correct then
    {| difficulty := Rmax 1 (difficulty state * 0.8);
       times_shown := times_shown state;
       times_correct := times_correct state + 1;
       consecutive_wrong := 0;
       last_5_attempts := last_5_attempts state;
       time_to_answer := time_to_answer state;
       last_seen := last_seen state;
       mastery_level := Rmin 1 (mastery_level state + 0.1);
       category := category state |}
  else
    let cw := (consecutive_wrong state + 1)%Z in
    {| difficulty := difficulty state + 2 * (1 + IZR cw * 0.5);
       times_shown := times_shown state;
       times_correct := times_correct state;
       consecutive_wrong := cw;
       last_5_attempts := last_5_attempts state;
       time_to_answer := time_to_answer state;
       last_seen := last_seen state;
       mastery_level := Rmax 0 (mastery_level state - 0.2);
       category := category state |}.

(** Lines 129-131. *)
Definition count_attempt (cs : CategoryStats) (correct : bool) : CategoryStats :=
  {| total_attempts := total_attempts cs + 1;
     correct_attempts :=
       if correct then correct_attempts cs + 1 else correct_attempts cs |}.

Definition update_question_state (qid : Z) (correct : bool) (time_taken : R)
  (now : datetime) : M QuestionBank unit :=
  b <- get ;;
  state <- subscript (dict_get qid (states b)) ;;
  q <- subscript (dict_get qid (questions b)) ;;
  let category := q_category q in
  let state := record_attempt state correct time_taken now in
  set_states (dict_set qid state) ;;;
  b <- get ;;
  cs <- subscript (dict_get category (category_stats b)) ;;
  set_category_stats (dict_set category (count_attempt cs correct)) ;;;
  set_states (dict_set qid (adjust_mastery state correct)).

Close Scope monad_scope.

(* ------------------------------------------------------------------ *)
(** ** Computations that only read the bank *)

Definition res_bind {A B} (r : res A) (k : A -> res B) : res B :=
  match r with
  | Ok a => k a
  | Raise e => Raise e
  end.

Declare Scope res_scope.
Delimit Scope res_scope with res.
Notation "x <- m ;; k" := (res_bind m (fun x => k))
  (at level 61, m at next level, right associativity) : res_scope.

Definition index {A} (o : option A) : res A :=
  match o with
  | Some a => Ok a
  | None => Raise KeyError
  end.

Fixpoint mapM {A B} (f : A -> res B) (l : list A) : res (list B) :=
  match l with
  | [] => Ok []
  | x :: l' =>
      res_bind (f x) (fun y => res_bind (mapM f l') (fun ys => Ok (y :: ys)))
  end.

Definition lift {S A} (r : res A) : M S A := fun s => (r, s).

(** Python list and number helpers. *)

(** [l[-n:]] for [n > 0] *)
Definition last_n {A} (n : nat) (l : list A) : list A :=
  skipn (List.length l - n) l.

(** [l[:k]]: a negative [k] counts from the end. *)
Definition slice_to {A} (k : Z) (l : list A) : list A :=
  if (0 <=? k)%Z then firstn (Z.to_nat k) l
  else firstn (List.length l - Z.to_nat (- k)) l.

(** [sum] of a list of booleans *)
Definition count_true (l : list bool) : Z :=
  fold_left (fun acc (x : bool) => if x then (acc + 1)%Z else acc) l 0%Z.

(** [sum] of a list of floats *)
Definition sum_R (l : list R) : R := fold_left Rplus l 0%R.

Definition len {A} (l : list A) : Z := Z.of_nat (List.length l).

(** [x / n] with an integer divisor *)
Definition truediv (x : R) (n : Z) : res R :=
  if (n =? 0)%Z then Raise ZeroDivisionError else Ok (x / IZR n)%R.

(** [int(x)]: truncation towards zero *)
Definition int_of_float (x : R) : Z :=
  if Rle_dec 0 x then Int_part x else (- Int_part (- x))%Z.

Open Scope res_scope.

(** [calculate_decay]. The exponential is the one of the reals.
    [math.exp] raises [OverflowError] for an argument above [709.78],
    that is for a [last_seen] 21294 days or more ahead of the clock,
    which only a snapshot can bring into a bank. The statements that say
    the decay has a value are made for [last_seen] values short of
    that. *)
Definition calculate_decay (b : QuestionBank) (qid : Z) (now : datetime)
  : res R :=
  state <- index (dict_get qid (states b)) ;;
  match last_seen state with
  | None => Ok 1%R
  | Some seen =>
      let days_passed := sub_days now seen in
      Ok (1 - mastery_level state * (1 - exp (IZR (- days_passed) / 30)))%R
  end.

Definition calculate_pattern_score (b : QuestionBank) (qid : Z)
  (now : datetime) : res R :=
  state <- index (dict_get qid (states b)) ;;
  let score := difficulty state in
  let score :=
    if (5 <=? List.length (last_5_attempts state))%nat then
      let recent_performance := last_n 5 (last_5_attempts state) in
      let early_correct := count_true (firstn 3 recent_performance) in
      let late_correct := count_true (skipn 3 recent_performance) in
      if (late_correct <? early_correct)%Z then (score * 1.5)%R
      else if (early_correct <? late_correct)%Z then (score * 0.8)%R
      else score
    else score in
  let score :=
    match time_to_answer state with
    | [] => score
    | _ :: _ =>
        let recent_times := last_n 5 (time_to_answer state) in
        let avg_time := (sum_R recent_times / IZR (len recent_times))%R in
        let speed_factor := Rmin 2 (avg_time / 5) in
        (score * speed_factor)%R
    end in
  decay <- calculate_decay b qid now ;;
  Ok (score * decay)%R.

Definition calculate_category_difficulty (b : QuestionBank)
  (category : string) : res R :=
  let cat_questions :=
    map fst (filter (fun kq => String.eqb (q_category (snd kq)) category)
                    (questions b)) in
  match cat_questions with
  | [] => Ok 1%R
  | _ :: _ =>
      ds <- mapM (fun qid => state <- index (dict_get qid (states b)) ;;
                             Ok (difficulty state)) cat_questions ;;
      Ok (sum_R ds / IZR (len cat_questions))%R
  end.

(** [get_category_stats]: one report line per category. *)
Record CategoryReport : Type := {
  r_total_attempts : Z;
  r_correct_attempts : Z;
  r_accuracy : R;
  r_avg_difficulty : R
}.

Definition get_category_stats (b : QuestionBank)
  : res (dict string CategoryReport) :=
  mapM (fun ce : string * CategoryStats =>
          let (cat, base_stats) := ce in
          avg <- calculate_category_difficulty b cat ;;
          Ok (cat,
              {| r_total_attempts := total_attempts base_stats;
                 r_correct_attempts := correct_attempts base_stats;
                 r_accuracy :=
                   if (0 <? total_attempts base_stats)%Z
                   then (IZR (correct_attempts base_stats)
                         / IZR (total_attempts base_stats))%R
                   else 0%R;
                 r_avg_difficulty := avg |}))
       (category_stats b).

Close Scope res_scope.

(* ------------------------------------------------------------------ *)
(** ** The [random] module

    The generator is a stream of draws; an exhausted stream keeps
    answering 0. Each function below reaches every result the Python
    function can return, for a suitable stream. *)

Definition rng : Type := list nat.

Definition next (s : rng) : nat * rng :=
  match s with
  | [] => (0%nat, [])
  | r :: s' => (r, s')
  end.

Definition draw : M rng nat := fun s => (Ok (fst (next s)), snd (next s)).

Definition remove_nth {A} (i : nat) (l : list A) : list A :=
  (firstn i l ++ skipn (S i) l)%list.

Open Scope monad_scope.

(** [k] positions of [pop], drawn one after the other without
    replacement. *)
Fixpoint sample_aux {A} (pop : list A) (k : nat) : M rng (list A) :=
  match k, pop with
  | O, _ => ret []
  | S _, [] => ret []
  | S k', x0 :: _ =>
      r <- draw ;;
      let i := (r mod List.length pop)%nat in
      rest <- sample_aux (remove_nth i pop) k' ;;
      ret (nth i pop x0 :: rest)
  end.

(** [random.sample(pop, k)] *)
Definition sample {A} (pop : list A) (k : Z) : M rng (list A) :=
  if ((k <? 0) || (len pop <? k))%Z then raise ValueError
  else sample_aux pop (Z.to_nat k).

(** [random.shuffle(l)], returning the shuffled list *)
Definition shuffle {A} (l : list A) : M rng (list A) :=
  sample_aux l (List.length l).

Close Scope monad_scope.

(* ------------------------------------------------------------------ *)
(** ** select_questions *)

(** [question_scores.sort(key=lambda x: x[1], reverse=True)]: a stable
    sort, so entries of equal score keep their order. *)
Fixpoint insert_desc (x : Z * R) (l : list (Z * R)) : list (Z * R) :=
  match l with
  | [] => [x]
  | y :: l' =>
      if Rlt_dec (snd x) (snd y) then y :: insert_desc x l' else x :: l
  end.

Definition sort_desc (l : list (Z * R)) : list (Z * R) :=
  fold_right insert_desc [] l.

(** [list(set(keys) - set(selected))]; the order of the result is left
    open by Python and is only ever sampled from. *)
Definition remaining (keys selected : list Z) : list Z :=
  filter (fun k => negb (mem k selected)) keys.

Lemma filter_length_lt {A} (p q : A -> bool) (l : list A) (c : A) :
  (forall x, q x = true -> p x = true) ->
  In c l -> p c = true -> q c = false ->
  (List.length (filter q l) < List.length (filter p l))%nat.
Proof.
  intros Hqp. induction l as [|a l IH]; simpl; intros Hin Hp Hq.
  - contradiction.
  - assert (Hle : forall l',
             (List.length (filter q l') <= List.length (filter p l'))%nat).
    { induction l' as [|b l' IH']; simpl; [lia|].
      destruct (q b) eqn:Eq.
      - rewrite (Hqp _ Eq). simpl. lia.
      - destruct (p b); simpl; lia. }
    destruct Hin as [->|Hin].
    + rewrite Hp, Hq. simpl. specialize (Hle l). lia.
    + specialize (IH Hin Hp Hq).
      destruct (q a) eqn:Eq.
      * rewrite (Hqp _ Eq). simpl. lia.
      * destruct (p a); simpl; lia.
Qed.

Lemma mem_app_r (k c : Z) (l : list Z) :
  mem k (l ++ [c]) = mem k l || (k =? c)%Z.
Proof.
  unfold mem. rewrite existsb_app. simpl. rewrite orb_false_r. reflexivity.
Qed.

Lemma remaining_shrinks (keys selected : list Z) (c : Z) :
  In c (remaining keys selected) ->
  (List.length (remaining keys (selected ++ [c]))
   < List.length (remaining keys selected))%nat.
Proof.
  intros Hin. unfold remaining in *.
  apply filter_In in Hin. destruct Hin as [Hin Hc].
  apply filter_length_lt with (c := c); auto.
  - intros x. rewrite mem_app_r, negb_orb, andb_true_iff. tauto.
  - rewrite mem_app_r, Z.eqb_refl, orb_true_r. reflexivity.
Qed.

Definition inspect {A} (a : A) : {b : A | a = b} := exist _ a eq_refl.

(** [random.choice] on the non-empty list [x0 :: l], from the draw [r] *)
Definition choice {A} (r : nat) (x0 : A) (l : list A) : A :=
  nth (r mod List.length (x0 :: l)) (x0 :: l) x0.

Lemma choice_In {A} (r : nat) (x0 : A) (l : list A) :
  In (choice r x0 l) (x0 :: l).
Proof.
  unfold choice. apply nth_In. apply Nat.mod_upper_bound. discriminate.
Qed.

(** The top-up loop of lines 107-111, with [random.choice] drawing the
    position. Each round adds an id that was not selected yet, so the ids
    still missing shrink. *)
Equations? fill (keys : list Z) (adjusted_n : Z) (selected : list Z)
  (s : rng) : list Z * rng
  by wf (List.length (remaining keys selected)) lt :=
  fill keys adjusted_n selected s with (len selected <? adjusted_n)%Z => {
    | false := (selected, s)
    | true with inspect (remaining keys selected) => {
        | exist _ [] _ := (selected, s)
        | exist _ (k0 :: ks) Hrem :=
            fill keys adjusted_n (selected ++ [choice (fst (next s)) k0 ks])
                 (snd (next s)) } }.
Proof.
  apply remaining_shrinks. rewrite Hrem. apply choice_In.
Qed.

Definition gt_3 (s : QuestionState) : bool :=
  if Rlt_dec 3 (difficulty s) then true else false.

(** Lines 79-81; [avg_difficulty] is computed first and never used. The
    product is the one of the reals. Rounding can leave the code just
    below an integer that the reals reach ([n = 90] with every state
    above 3: [62.99999999999999], hence 62 where this gives 63), so the
    count of the code can be one less; what is proved of the count below
    holds for either. *)
Definition adjusted_count (b : QuestionBank) (n : Z) : res Z :=
  res_bind (truediv (sum_R (map difficulty (dict_values (states b))))
                    (len (states b))) (fun avg_difficulty =>
  res_bind (truediv (IZR (len (filter gt_3 (dict_values (states b)))))
                    (len (states b))) (fun fatigue_factor =>
  Ok (int_of_float (IZR n * (1 - fatigue_factor * 0.3))))).

(** Lines 84-93. Every [calculate_decay] of one call reads the clock
    anew; the readings of one call are taken to agree, as [now]. *)
Definition question_scores (b : QuestionBank) (now : datetime)
  : res (list (Z * R)) :=
  res_bind
    (mapM (fun qid =>
             res_bind (calculate_pattern_score b qid now) (fun pattern_score =>
             res_bind (index (dict_get qid (questions b))) (fun q =>
             res_bind (calculate_category_difficulty b (q_category q))
               (fun cat_difficulty =>
             Ok (qid, (pattern_score * 0.7 + cat_difficulty * 0.3)%R)))))
          (dict_keys (questions b)))
    (fun scores => Ok (sort_desc scores)).

(** Line 97 *)
Definition untested_ids (b : QuestionBank) : res (list Z) :=
  res_bind
    (mapM (fun qid =>
             res_bind (index (dict_get qid (states b))) (fun state =>
             Ok (qid, (times_shown state =? 0)%Z)))
          (dict_keys (questions b)))
    (fun flagged => Ok (map fst (filter snd flagged))).

Open Scope monad_scope.

Definition select_questions (b : QuestionBank) (n : Z) (now : datetime)
  : M rng (list Z) :=
  adjusted_n <- lift (adjusted_count b n) ;;
  scores <- lift (question_scores b now) ;;
  let keys := dict_keys (questions b) in
  let quota (share : R) := int_of_float (IZR adjusted_n * share) in
  let high_priority := map fst (slice_to (quota 0.6%R) scores) in
  untested <- lift (untested_ids b) ;;
  let random_pool :=
    filter (fun k => negb (mem k high_priority) && negb (mem k untested))
           keys in
  s1 <- sample high_priority (Z.min (len high_priority) (quota 0.6%R)) ;;
  s2 <- sample untested (Z.min (len untested) (quota 0.3%R)) ;;
  s3 <- sample random_pool (Z.min (len random_pool) (quota 0.1%R)) ;;
  selected <- (fun s => let (l, s') := fill keys adjusted_n (s1 ++ s2 ++ s3) s
                        in (Ok l, s')) ;;
  selected <- shuffle selected ;;
  ret (slice_to adjusted_n selected).

Close Scope monad_scope.

(* ------------------------------------------------------------------ *)
(** ** Snapshots: export_state and import_state *)

Open Scope Z_scope.

Definition digit_char (d : Z) : ascii := ascii_of_nat (48 + Z.to_nat d).

(** [n] as [w] decimal digits, zero padded, in front of [rest] *)
Fixpoint put_digits (w : nat) (n : Z) (rest : string) : string :=
  match w with
  | O => rest
  | S w' =>
      String (digit_char ((n / 10 ^ Z.of_nat w') mod 10)) (put_digits w' n rest)
  end.

(** [datetime.isoformat()] of a naive datetime:
    [YYYY-MM-DDTHH:MM:SS], then [.ffffff] when the microseconds are not 0. *)
Definition isoformat (d : datetime) : string :=
  put_digits 4 (year d) (String "-"
  (put_digits 2 (month d) (String "-"
  (put_digits 2 (day d) (String "T"
  (put_digits 2 (hour d) (String ":"
  (put_digits 2 (minute d) (String ":"
  (put_digits 2 (second d)
     (if microsecond d =? 0 then EmptyString
      else String "." (put_digits 6 (microsecond d) EmptyString)))))))))))).

Close Scope Z_scope.

(** A key of a snapshot dictionary: an [int] straight out of
    [export_state], a [str] after a trip through JSON. *)
Inductive pykey : Type :=
| KInt (z : Z)
| KStr (s : string).

(** The per-question dictionary of a snapshot. [sd_last_seen] is [None]
    for JSON [null]. The values are taken to have the types that
    [export_state] writes. *)
Record StateDict : Type := {
  sd_difficulty : R;
  sd_times_shown : Z;
  sd_times_correct : Z;
  sd_consecutive_wrong : Z;
  sd_last_5_attempts : list bool;
  sd_mastery_level : R;
  sd_last_seen : option string
}.

(** The snapshot dictionary; a field is [None] when its key is missing. *)
Record Snapshot : Type := {
  snap_states : option (list (pykey * StateDict));
  snap_category_stats : option (dict string CategoryStats);
  snap_timestamp : option string
}.

Definition export_entry (state : QuestionState) : StateDict :=
  {| sd_difficulty := difficulty state;
     sd_times_shown := times_shown state;
     sd_times_correct := times_correct state;
     sd_consecutive_wrong := consecutive_wrong state;
     sd_last_5_attempts := last_5_attempts state;
     sd_mastery_level := mastery_level state;
     sd_last_seen :=
       match last_seen state with
       | Some seen => Some (isoformat seen)
       | None => None
       end |}.

Definition export_state (b : QuestionBank) (now : datetime) : Snapshot :=
  {| snap_states :=
       Some (map (fun ks => (KInt (fst ks), export_entry (snd ks))) (states b));
     snap_category_stats := Some (category_stats b);
     snap_timestamp := Some (isoformat now) |}.

Fixpoint foldM {A B} (f : A -> B -> res A) (l : list B) (a : A) : res A :=
  match l with
  | [] => Ok a
  | x :: l' => res_bind (f a x) (foldM f l')
  end.

Section ImportState.

(** The two library parsers [import_state] calls: [int] on a string and
    [datetime.fromisoformat]. [None] stands for their [ValueError]. *)
Variable int_of_str : string -> option Z.
Variable fromisoformat : string -> option datetime.

Open Scope res_scope.

(** [int(qid)] *)
Definition py_int (k : pykey) : res Z :=
  match k with
  | KInt z => Ok z
  | KStr s =>
      match int_of_str s with
      | Some z => Ok z
      | None => Raise ValueError
      end
  end.

(** One round of the loop of lines 178-187. [None] and the empty string
    are the false values [state_dict['last_seen']] can take. *)
Definition import_entry (bank : QuestionBank) (entry : pykey * StateDict)
  : res QuestionBank :=
  let (key, state_dict) := entry in
  qid <- py_int key ;;
  state <- index (dict_get qid (states bank)) ;;
  seen <-
    match sd_last_seen state_dict with
    | None => Ok (last_seen state)
    | Some s =>
        if String.eqb s EmptyString then Ok (last_seen state)
        else match fromisoformat s with
             | Some d => Ok (Some d)
             | None => Raise ValueError
             end
    end ;;
  let state :=
    {| difficulty := sd_difficulty state_dict;
       times_shown := sd_times_shown state_dict;
       times_correct := sd_times_correct state_dict;
       consecutive_wrong := sd_consecutive_wrong state_dict;
       last_5_attempts := sd_last_5_attempts state_dict;
       time_to_answer := time_to_answer state;
       last_seen := seen;
       mastery_level := sd_mastery_level state_dict;
       category := category state |} in
  Ok {| questions := questions bank;
        states := dict_set qid state (states bank);
        category_stats := category_stats bank |}.

Definition import_state (questions_data : list Question)
  (state_data : Snapshot) : res QuestionBank :=
  let bank := __init__ questions_data in
  entries <- index (snap_states state_data) ;;
  bank <- foldM import_entry entries bank ;;
  Ok {| questions := questions bank;
        states := states bank;
        category_stats :=
          match snap_category_stats state_data with
          | Some stats => stats
          | None => _initialize_category_stats (questions bank)
          end |}.

Close Scope res_scope.

End ImportState.

(* ------------------------------------------------------------------ *)
(** ** session.py

    The counters of [SessionStats] carry the prefix [n_], since Rocq
    does not let two records share the field name [skipped]. *)

Record SessionStats : Type := {
  n_correct : Z;
  n_wrong : Z;
  n_skipped : Z;
  streak : Z;
  best_streak : Z;
  start_time : R;
  question_start_time : R;
  times_per_category : dict string (list R)
}.

(** [SessionStats()]: the two default factories read the clock as [t0]
    and [tq]. *)
Definition new_stats (t0 tq : R) : SessionStats :=
  {| n_correct := 0; n_wrong := 0; n_skipped := 0; streak := 0;
     best_streak := 0; start_time := t0; question_start_time := tq;
     times_per_category := [] |}.

Record QuizSession : Type := {
  bank : QuestionBank;
  current_round : list Z;
  skipped : list Z;
  stats : SessionStats
}.

(** [QuizSession(bank)] *)
Definition new_session (b : QuestionBank) (t0 tq : R) : QuizSession :=
  {| bank := b; current_round := []; skipped := []; stats := new_stats t0 tq |}.

Definition with_question_start_time (st : SessionStats) (t : R)
  : SessionStats :=
  {| n_correct := n_correct st; n_wrong := n_wrong st;
     n_skipped := n_skipped st; streak := streak st;
     best_streak := best_streak st; start_time := start_time st;
     question_start_time := t;
     times_per_category := times_per_category st |}.

Open Scope monad_scope.

(** [start_round]: [t0] is the clock read by [SessionStats()], [tq] the
    reading that restarts the question timer. When [select_questions]
    raises, nothing has been assigned yet. *)
Definition start_round (n : Z) (now : datetime) (t0 tq : R) (s : rng)
  : M QuizSession rng :=
  fun session =>
    match select_questions (bank session) n now s with
    | (Ok ids, s') =>
        (Ok s', {| bank := bank session; current_round := ids;
                   skipped := []; stats := new_stats t0 tq |})
    | (Raise e, _) => (Raise e, session)
    end.

(** Run a method of the bank on [self.bank]. *)
Definition on_bank {A} (m : M QuestionBank A) : M QuizSession A :=
  fun session =>
    let (r, b) := m (bank session) in
    (r, {| bank := b; current_round := current_round session;
           skipped := skipped session; stats := stats session |}).

Definition set_current_round (l : list Z) : M QuizSession unit :=
  fun session =>
    (Ok tt, {| bank := bank session; current_round := l;
               skipped := skipped session; stats := stats session |}).

Definition set_skipped (l : list Z) : M QuizSession unit :=
  fun session =>
    (Ok tt, {| bank := bank session; current_round := current_round session;
               skipped := l; stats := stats session |}).

Definition set_stats (f : SessionStats -> SessionStats) : M QuizSession unit :=
  fun session =>
    (Ok tt, {| bank := bank session; current_round := current_round session;
               skipped := skipped session; stats := f (stats session) |}).

(** Lines 42-44 of session.py *)
Definition record_time (category : string) (time_taken : R)
  (st : SessionStats) : SessionStats :=
  let times :=
    match dict_get category (times_per_category st) with
    | Some l => l
    | None => []
    end in
  {| n_correct := n_correct st; n_wrong := n_wrong st;
     n_skipped := n_skipped st; streak := streak st;
     best_streak := best_streak st; start_time := start_time st;
     question_start_time := question_start_time st;
     times_per_category :=
       dict_set category (times ++ [time_taken])%list (times_per_category st) |}.

(** Lines 46-52 of session.py *)
Definition tally (correct : bool) (st : SessionStats) : SessionStats :=
  if correct then
    {| n_correct := n_correct st + 1; n_wrong := n_wrong st;
       n_skipped := n_skipped st; streak := streak st + 1;
       best_streak := Z.max (best_streak st) (streak st + 1);
       start_time := start_time st;
       question_start_time := question_start_time st;
       times_per_category := times_per_category st |}
  else
    {| n_correct := n_correct st; n_wrong := n_wrong st + 1;
       n_skipped := n_skipped st; streak := 0;
       best_streak := best_streak st;
       start_time := start_time st;
       question_start_time := question_start_time st;
       times_per_category := times_per_category st |}.

(** [handle_answer]: [t1] and [t2] are the two readings of [time.time()],
    [now] the reading of [datetime.now()] inside the bank. *)
Definition handle_answer (correct : bool) (t1 t2 : R) (now : datetime)
  : M QuizSession unit :=
  session <- get ;;
  match current_round session with
  | [] => ret tt
  | qid :: rest =>
      set_current_round rest ;;;
      let time_taken := (t1 - question_start_time (stats session))%R in
      on_bank (update_question_state qid correct time_taken now) ;;;
      session <- get ;;
      q <- subscript (dict_get qid (questions (bank session))) ;;
      set_stats (record_time (q_category q) time_taken) ;;;
      set_stats (tally correct) ;;;
      set_stats (fun st => with_question_start_time st t2)
  end.

(** [handle_skip]: [t] is the reading of [time.time()]. *)
Definition handle_skip (t : R) : M QuizSession unit :=
  session <- get ;;
  match current_round session with
  | [] => ret tt
  | qid :: rest =>
      set_current_round rest ;;;
      set_skipped (skipped session ++ [qid])%list ;;;
      set_stats (fun st =>
        {| n_correct := n_correct st; n_wrong := n_wrong st;
           n_skipped := n_skipped st + 1; streak := streak st;
           best_streak := best_streak st; start_time := start_time st;
           question_start_time := t;
           times_per_category := times_per_category st |})
  end.

Definition is_round_complete (session : QuizSession) : bool :=
  match current_round session, skipped session with
  | [], [] => true
  | _, _ => false
  end.

Close Scope monad_scope.

(* ------------------------------------------------------------------ *)
(** ** Reference parsers

    [import_state] is stated over any [int] and [fromisoformat]. The two
    parsers below read what [export_state] and JSON write (decimal keys,
    the two shapes of [isoformat]); they stand for the library in the
    examples. *)

Open Scope Z_scope.

Definition digit_val (c : ascii) : option Z :=
  let n := Z.of_nat (nat_of_ascii c) in
  if (48 <=? n) && (n <=? 57) then Some (n - 48) else None.

Fixpoint parse_digits (w : nat) (acc : Z) (s : string) : option (Z * string) :=
  match w with
  | O => Some (acc, s)
  | S w' =>
      match s with
      | EmptyString => None
      | String c s' =>
          match digit_val c with
          | Some d => parse_digits w' (acc * 10 + d) s'
          | None => None
          end
      end
  end.

Definition expect (c : ascii) (s : string) : option string :=
  match s with
  | EmptyString => None
  | String c' s' => if Ascii.eqb c c' then Some s' else None
  end.

Definition obind {A B} (o : option A) (k : A -> option B) : option B :=
  match o with
  | Some a => k a
  | None => None
  end.

Definition parse_fraction (s : string) : option Z :=
  match s with
  | EmptyString => Some 0
  | String c s' =>
      if Ascii.eqb c "." then
        obind (parse_digits 6 0 s') (fun r =>
          match snd r with
          | EmptyString => Some (fst r)
          | String _ _ => None
          end)
      else None
  end.

Definition parse_isoformat (s : string) : option datetime :=
  obind (parse_digits 4 0 s) (fun y =>
  obind (expect "-" (snd y)) (fun s =>
  obind (parse_digits 2 0 s) (fun mo =>
  obind (expect "-" (snd mo)) (fun s =>
  obind (parse_digits 2 0 s) (fun d =>
  obind (expect "T" (snd d)) (fun s =>
  obind (parse_digits 2 0 s) (fun h =>
  obind (expect ":" (snd h)) (fun s =>
  obind (parse_digits 2 0 s) (fun mi =>
  obind (expect ":" (snd mi)) (fun s =>
  obind (parse_digits 2 0 s) (fun se =>
  obind (parse_fraction (snd se)) (fun us =>
  let dt := {| year := fst y; month := fst mo; day := fst d;
               hour := fst h; minute := fst mi; second := fst se;
               microsecond := us |} in
  if valid_datetimeb dt then Some dt else None)))))))))))).

Fixpoint parse_all_digits (acc : Z) (s : string) : option Z :=
  match s with
  | EmptyString => Some acc
  | String c s' =>
      match digit_val c with
      | Some d => parse_all_digits (acc * 10 + d) s'
      | None => None
      end
  end.

Definition parse_int (s : string) : option Z :=
  match s with
  | EmptyString => None
  | String c s' =>
      if Ascii.eqb c "-" then
        match s' with
        | EmptyString => None
        | String _ _ => option_map Z.opp (parse_all_digits 0 s')
        end
      else parse_all_digits 0 s
  end.

Close Scope Z_scope.

(* ------------------------------------------------------------------ *)
(** ** Notions the statements use *)

(** What [__init__] establishes and [update_question_state] keeps: the
    states follow the questions id by id, each state carries the category
    of its question, and every [last_seen] is a clock reading. *)
Definition consistent (data : list Question) (b : QuestionBank) : Prop :=
  questions b = build_questions data /\
  dict_keys (states b) = dict_keys (questions b) /\
  (forall qid state q,
      In (qid, state) (states b) -> dict_get qid (questions b) = Some q ->
      category state = q_category q) /\
  (forall qid state seen,
      In (qid, state) (states b) -> last_seen state = Some seen ->
      valid_datetime seen).

(** Every category of a question has its statistics. *)
Definition stats_complete (b : QuestionBank) : Prop :=
  forall qid q,
    dict_get qid (questions b) = Some q ->
    exists cs, dict_get (q_category q) (category_stats b) = Some cs.

(** A state as [import_state] rebuilds it from its exported fields: the
    response times are not part of a snapshot and start empty again. *)
Definition reimported (state : QuestionState) : QuestionState :=
  {| difficulty := difficulty state;
     times_shown := times_shown state;
     times_correct := times_correct state;
     consecutive_wrong := consecutive_wrong state;
     last_5_attempts := last_5_attempts state;
     time_to_answer := [];
     last_seen := last_seen state;
     mastery_level := mastery_level state;
     category := category state |}.

(** The bank a successful update leaves behind. *)
Definition updated_bank (b : QuestionBank) (qid : Z) (correct : bool)
  (t : R) (now : datetime) (state : QuestionState) (q : Question)
  (cs : CategoryStats) : QuestionBank :=
  {| questions := questions b;
     states :=
       dict_set qid (adjust_mastery (record_attempt state correct t now) correct)
         (dict_set qid (record_attempt state correct t now) (states b));
     category_stats :=
       dict_set (q_category q) (count_attempt cs correct) (category_stats b) |}.

(* ------------------------------------------------------------------ *)
(** ** Example data *)

Open Scope string_scope.

Definition q1 : Question :=
  {| q_id := 1; q_category := "tones"; q_question := "ma1";
     q_options := [("A", "mother"); ("B", "horse")];
     q_correct_answer := "A" |}.

Definition q2 : Question :=
  {| q_id := 2; q_category := "radicals"; q_question := "kou3";
     q_options := [("A", "mouth"); ("B", "door")];
     q_correct_answer := "A" |}.

Definition q3 : Question :=
  {| q_id := 3; q_category := "tones"; q_question := "ma3";
     q_options := [("A", "mother"); ("B", "horse")];
     q_correct_answer := "B" |}.

Definition q4 : Question :=
  {| q_id := 4; q_category := "radicals"; q_question := "men2";
     q_options := [("A", "mouth"); ("B", "door")];
     q_correct_answer := "B" |}.

Definition q5 : Question :=
  {| q_id := 5; q_category := "numbers"; q_question := "san1";
     q_options := [("A", "three"); ("B", "four")];
     q_correct_answer := "A" |}.

Close Scope string_scope.

Definition noon : datetime :=
  {| year := 2024; month := 3; day := 10; hour := 12; minute := 0;
     second := 0; microsecond := 0 |}.

Definition next_noon : datetime :=
  {| year := 2024; month := 3; day := 11; hour := 12; minute := 0;
     second := 0; microsecond := 250000 |}.

Definition bank1 : QuestionBank := __init__ [q1].
Definition bank2 : QuestionBank := __init__ [q1; q2].
Definition bank5 : QuestionBank := __init__ [q1; q2; q3; q4; q5].

Definition one_pm : datetime :=
  {| year := 2024; month := 3; day := 10; hour := 13; minute := 0;
     second := 0; microsecond := 0 |}.

Definition next_month : datetime :=
  {| year := 2024; month := 4; day := 15; hour := 9; minute := 30;
     second := 0; microsecond := 0 |}.

(** The bank after one correct answer to question 1 at one o'clock. *)
Definition answered_at_one : QuestionBank :=
  updated_bank bank1 1 true 2 one_pm (new_state "tones") q1
    {| total_attempts := 0; correct_attempts := 0 |}.

(** The bank after one miss on question 1 recorded with an elapsed time of
    -5 seconds: [time.time()] follows the wall clock, which can be set
    back while a question is on display. *)
Definition clock_set_back : QuestionBank :=
  updated_bank bank1 1 false (-5) noon (new_state "tones") q1
    {| total_attempts := 0; correct_attempts := 0 |}.

(** The bank over an empty question set. *)
Definition empty_bank : QuestionBank := __init__ [].

(** A session in the middle of a round of five, and one in review mode. *)
Definition session5 : QuizSession :=
  {| bank := bank5; current_round := [3; 1; 5; 2; 4]%Z; skipped := [];
     stats := new_stats 0 0 |}.

Definition reviewing : QuizSession :=
  {| bank := bank5; current_round := []; skipped := [3; 1]%Z;
     stats := new_stats 0 0 |}.

(** A snapshot with its [states] but without [category_stats]. *)
Definition no_category_stats : Snapshot :=
  {| snap_states := Some []; snap_category_stats := None;
     snap_timestamp := Some (isoformat noon) |}.

Definition no_states : Snapshot :=
  {| snap_states := None; snap_category_stats := Some [];
     snap_timestamp := Some (isoformat noon) |}.

(** A snapshot as JSON gives it back, with an id that is no number, and
    one with a timestamp that is none. *)
Definition bad_id : Snapshot :=
  {| snap_states :=
       Some [(KStr "one", export_entry (new_state "tones"))];
     snap_category_stats := Some [];
     snap_timestamp := Some (isoformat noon) |}.

Definition bad_timestamp : Snapshot :=
  {| snap_states :=
       Some [(KStr "1",
              {| sd_difficulty := 1; sd_times_shown := 1;
                 sd_times_correct := 0; sd_consecutive_wrong := 1;
                 sd_last_5_attempts := [false]; sd_mastery_level := 0;
                 sd_last_seen := Some "yesterday"%string |})];
     snap_category_stats := Some [];
     snap_timestamp := Some (isoformat noon) |}.

(* ================================================================== *)
(** * Properties *)

(** ** Dictionaries *)

Section DictFacts.
Context {K V : Type} `{Key K}.

Lemma key_eqb_refl (k : K) : key_eqb k k = true.
Proof. apply key_eqb_eq. reflexivity. Qed.

Lemma key_eqb_neq (a b : K) : a <> b -> key_eqb a b = false.
Proof.
  intros Hne. destruct (key_eqb a b) eqn:E; [|reflexivity].
  apply key_eqb_eq in E. contradiction.
Qed.

Lemma dict_get_set_same (k : K) (v : V) (d : dict K V) :
  dict_get k (dict_set k v d) = Some v.
Proof.
  induction d as [|[k' v'] d IH]; simpl.
  - rewrite key_eqb_refl. reflexivity.
  - destruct (key_eqb k k') eqn:E; simpl; rewrite E; auto.
Qed.

Lemma dict_get_set_other (k k' : K) (v : V) (d : dict K V) :
  k' <> k -> dict_get k' (dict_set k v d) = dict_get k' d.
Proof.
  intros Hne. induction d as [|[k0 v0] d IH]; simpl.
  - rewrite (key_eqb_neq _ _ Hne). reflexivity.
  - destruct (key_eqb k k0) eqn:E; simpl.
    + apply key_eqb_eq in E. subst k0.
      rewrite (key_eqb_neq _ _ Hne). reflexivity.
    + destruct (key_eqb k' k0); auto.
Qed.

Lemma dict_get_In (k : K) (v : V) (d : dict K V) :
  dict_get k d = Some v -> In k (dict_keys d).
Proof.
  induction d as [|[k0 v0] d IH]; simpl; [discriminate|].
  destruct (key_eqb k k0) eqn:E.
  - apply key_eqb_eq in E. auto.
  - auto.
Qed.

Lemma dict_keys_set_present (k : K) (v v0 : V) (d : dict K V) :
  dict_get k d = Some v0 -> dict_keys (dict_set k v d) = dict_keys d.
Proof.
  induction d as [|[k1 v1] d IH]; simpl; [discriminate|].
  destruct (key_eqb k k1) eqn:E; simpl.
  - reflexivity.
  - intros Hg. rewrite (IH Hg). reflexivity.
Qed.

End DictFacts.

(** ** update_question_state *)

Ltac run_update :=
  unfold update_question_state, bind, get, subscript, set_states,
    set_category_stats, ret, raise; simpl.

Lemma update_question_state_ok b qid correct t now state q cs :
  dict_get qid (states b) = Some state ->
  dict_get qid (questions b) = Some q ->
  dict_get (q_category q) (category_stats b) = Some cs ->
  update_question_state qid correct t now b
  = (Ok tt, updated_bank b qid correct t now state q cs).
Proof.
  intros Hs Hq Hc. run_update.
  rewrite Hs, Hq. simpl. rewrite Hc. reflexivity.
Qed.

Lemma evict_oldest (l : list bool) (c : bool) :
  (if (5 <? List.length (l ++ [c]))%nat then tl (l ++ [c]) else l ++ [c])
  = if (List.length l <? 5)%nat then l ++ [c] else tl l ++ [c].
Proof.
  rewrite length_app. simpl.
  destruct (Nat.ltb_spec (List.length l) 5) as [Hlt|Hge].
  - destruct (Nat.ltb_spec 5 (List.length l + 1)); [lia|reflexivity].
  - destruct (Nat.ltb_spec 5 (List.length l + 1)); [|lia].
    destruct l; simpl in *; [lia|reflexivity].
Qed.

Lemma three_misses b0 qid q cs0 s0 t1 t2 t3 now1 now2 now3 :
  dict_get qid (states b0) = Some s0 ->
  dict_get qid (questions b0) = Some q ->
  dict_get (q_category q) (category_stats b0) = Some cs0 ->
  difficulty s0 = 1%R -> consecutive_wrong s0 = 0%Z ->
  exists b1 b2 b3 s3,
    update_question_state qid false t1 now1 b0 = (Ok tt, b1) /\
    update_question_state qid false t2 now2 b1 = (Ok tt, b2) /\
    update_question_state qid false t3 now3 b2 = (Ok tt, b3) /\
    dict_get qid (states b3) = Some s3 /\
    consecutive_wrong s3 = 3%Z /\
    difficulty s3 = (1 + 2 * (1 + 0.5) + 2 * (1 + 1) + 2 * (1 + 1.5))%R /\
    difficulty s3 = 13%R.
Proof.
  intros Hs Hq Hc Hd Hw.
  pose (b1 := updated_bank b0 qid false t1 now1 s0 q cs0).
  pose (s1 := adjust_mastery (record_attempt s0 false t1 now1) false).
  pose (c1 := count_attempt cs0 false).
  pose (b2 := updated_bank b1 qid false t2 now2 s1 q c1).
  pose (s2 := adjust_mastery (record_attempt s1 false t2 now2) false).
  pose (c2 := count_attempt c1 false).
  pose (b3 := updated_bank b2 qid false t3 now3 s2 q c2).
  pose (s3 := adjust_mastery (record_attempt s2 false t3 now3) false).
  exists b1, b2, b3, s3.
  assert (H1 : dict_get qid (states b1) = Some s1) by apply dict_get_set_same.
  assert (H2 : dict_get qid (states b2) = Some s2) by apply dict_get_set_same.
  assert (G1 : dict_get (q_category q) (category_stats b1) = Some c1)
    by apply dict_get_set_same.
  assert (G2 : dict_get (q_category q) (category_stats b2) = Some c2)
    by apply dict_get_set_same.
  repeat split.
  - apply update_question_state_ok; assumption.
  - apply update_question_state_ok; assumption.
  - apply update_question_state_ok; assumption.
  - apply dict_get_set_same.
  - simpl. rewrite Hw. reflexivity.
  - simpl. rewrite Hw, Hd. simpl. lra.
  - simpl. rewrite Hw, Hd. simpl. lra.
Qed.

(** C6. A successful [update_question_state qid correct t] adds one to
    [times_shown], sets [last_seen] to the clock, appends [t] to the
    response times, appends [correct] to the last attempts and drops the
    oldest one once five are there, and adds one to the category's
    [total_attempts] (and to [correct_attempts] when correct). A correct
    answer adds one to [times_correct], zeroes [consecutive_wrong], moves
    the mastery to [min 1 (m + 0.1)] and the difficulty to
    [max 1 (d * 0.8)]; a wrong one adds one to [consecutive_wrong], moves
    the mastery to [max 0 (m - 0.2)] and adds
    [2 * (1 + consecutive_wrong * 0.5)] to the difficulty, with the
    incremented counter. Three misses in a row on a fresh question leave
    the difficulty at 13. *)
Theorem update_question_state_effect :
  (forall b qid correct t now state q cs,
      dict_get qid (states b) = Some state ->
      dict_get qid (questions b) = Some q ->
      dict_get (q_category q) (category_stats b) = Some cs ->
      exists b' state' cs',
        update_question_state qid correct t now b = (Ok tt, b') /\
        dict_get qid (states b') = Some state' /\
        dict_get (q_category q) (category_stats b') = Some cs' /\
        times_shown state' = (times_shown state + 1)%Z /\
        last_seen state' = Some now /\
        time_to_answer state' = time_to_answer state ++ [t] /\
        last_5_attempts state' =
          (if (List.length (last_5_attempts state) <? 5)%nat
           then last_5_attempts state ++ [correct]
           else tl (last_5_attempts state) ++ [correct]) /\
        category state' = category state /\
        total_attempts cs' = (total_attempts cs + 1)%Z /\
        correct_attempts cs' =
          (if correct then correct_attempts cs + 1 else correct_attempts cs)%Z /\
        if correct then
          times_correct state' = (times_correct state + 1)%Z /\
          consecutive_wrong state' = 0%Z /\
          mastery_level state' = Rmin 1 (mastery_level state + 0.1) /\
          difficulty state' = Rmax 1 (difficulty state * 0.8)
        else
          times_correct state' = times_correct state /\
          consecutive_wrong state' = (consecutive_wrong state + 1)%Z /\
          mastery_level state' = Rmax 0 (mastery_level state - 0.2) /\
          difficulty state' =
            (difficulty state + 2 * (1 + IZR (consecutive_wrong state') * 0.5))%R)
  /\
  (forall b0 qid q cs0 s0 t1 t2 t3 now1 now2 now3,
      dict_get qid (states b0) = Some s0 ->
      dict_get qid (questions b0) = Some q ->
      dict_get (q_category q) (category_stats b0) = Some cs0 ->
      difficulty s0 = 1%R -> consecutive_wrong s0 = 0%Z ->
      exists b1 b2 b3 s3,
        update_question_state qid false t1 now1 b0 = (Ok tt, b1) /\
        update_question_state qid false t2 now2 b1 = (Ok tt, b2) /\
        update_question_state qid false t3 now3 b2 = (Ok tt, b3) /\
        dict_get qid (states b3) = Some s3 /\
        consecutive_wrong s3 = 3%Z /\
        difficulty s3 = (1 + 2 * (1 + 0.5) + 2 * (1 + 1) + 2 * (1 + 1.5))%R /\
        difficulty s3 = 13%R).
Proof.
  split.
  - intros b qid correct t now state q cs Hs Hq Hc.
    exists (updated_bank b qid correct t now state q cs),
      (adjust_mastery (record_attempt state correct t now) correct),
      (count_attempt cs correct).
    split; [apply update_question_state_ok; assumption|].
    split; [apply dict_get_set_same|].
    split; [apply dict_get_set_same|].
    destruct correct; simpl; rewrite evict_oldest; repeat split; reflexivity.
  - intros b0 qid q cs0 s0 t1 t2 t3 now1 now2 now3 Hs Hq Hc Hd Hw.
    eapply three_misses; eassumption.
Qed.

Lemma update_question_state_effect_witness :
  exists b' state' cs',
    update_question_state 1 false 2 noon bank1 = (Ok tt, b') /\
    dict_get 1%Z (states b') = Some state' /\
    dict_get "tones"%string (category_stats b') = Some cs' /\
    times_shown state' = 1%Z /\
    consecutive_wrong state' = 1%Z /\
    total_attempts cs' = 1%Z /\
    correct_attempts cs' = 0%Z.
Proof.
  destruct (proj1 update_question_state_effect bank1 1%Z false 2%R noon
              (new_state "tones") q1
              {| total_attempts := 0; correct_attempts := 0 |}
              eq_refl eq_refl eq_refl)
    as (b' & state' & cs' & H1 & H2 & H3 & H4 & _ & _ & _ & _ & H5 & H6 & _ & H7 & _).
  exists b', state', cs'. repeat split; assumption.
Defined.

(** C10. Whatever its outcome, a call [update_question_state qid ...]
    leaves the question definitions, the state of every other question
    and the statistics of every category but the question's own as they
    were; no key is added to or removed from either dictionary. *)
Theorem update_question_state_frame (b : QuestionBank) (qid : Z)
  (correct : bool) (t : R) (now : datetime) :
  let b' := snd (update_question_state qid correct t now b) in
  questions b' = questions b /\
  dict_keys (states b') = dict_keys (states b) /\
  dict_keys (category_stats b') = dict_keys (category_stats b) /\
  (forall other, other <> qid ->
     dict_get other (states b') = dict_get other (states b)) /\
  (forall cat,
     (forall q, dict_get qid (questions b) = Some q -> cat <> q_category q) ->
     dict_get cat (category_stats b') = dict_get cat (category_stats b)).
Proof.
  run_update.
  destruct (dict_get qid (states b)) as [state|] eqn:Hs; simpl;
    [|repeat split; reflexivity].
  destruct (dict_get qid (questions b)) as [q|] eqn:Hq; simpl;
    [|repeat split; reflexivity].
  destruct (dict_get (q_category q) (category_stats b)) as [cs|] eqn:Hc; simpl.
  - split; [reflexivity|]. split.
    { erewrite !dict_keys_set_present; eauto using dict_get_set_same. }
    split.
    { erewrite dict_keys_set_present; eauto. }
    split.
    + intros other Hne. rewrite !dict_get_set_other by assumption. reflexivity.
    + intros cat Hcat. apply dict_get_set_other. apply Hcat. reflexivity.
  - split; [reflexivity|]. split.
    { erewrite dict_keys_set_present; eauto. }
    split; [reflexivity|]. split.
    + intros other Hne. rewrite dict_get_set_other by assumption. reflexivity.
    + reflexivity.
Qed.

Lemma update_question_state_frame_witness :
  dict_get 2%Z (states (snd (update_question_state 1 true 2 noon bank2)))
  = dict_get 2%Z (states bank2).
Proof.
  apply (update_question_state_frame bank2 1 true 2 noon). discriminate.
Defined.

(** ** The round state machine *)

(** C7. With a question pending, [handle_skip] returns normally, takes the
    head off [current_round] and puts it at the end of [skipped], adds one
    to the skip counter and restarts the question timer; the bank (every
    learning state and every category's statistics) and all other
    statistics of the session stay as they were. Five pending ids and no
    skipped one become four and one. *)
Theorem handle_skip_effect (session : QuizSession) (t : R) (qid : Z)
  (rest : list Z) :
  current_round session = qid :: rest ->
  let (r, session') := handle_skip t session in
  r = Ok tt /\
  current_round session' = rest /\
  skipped session' = skipped session ++ [qid] /\
  bank session' = bank session /\
  n_skipped (stats session') = (n_skipped (stats session) + 1)%Z /\
  question_start_time (stats session') = t /\
  n_correct (stats session') = n_correct (stats session) /\
  n_wrong (stats session') = n_wrong (stats session) /\
  streak (stats session') = streak (stats session) /\
  best_streak (stats session') = best_streak (stats session) /\
  start_time (stats session') = start_time (stats session) /\
  times_per_category (stats session') = times_per_category (stats session) /\
  (List.length (current_round session) = 5%nat ->
   List.length (current_round session') = 4%nat) /\
  (List.length (skipped session) = 0%nat ->
   List.length (skipped session') = 1%nat).
Proof.
  intros Hcur.
  unfold handle_skip, bind, get, set_current_round, set_skipped, set_stats, ret.
  simpl. rewrite Hcur. simpl.
  repeat split; try reflexivity.
  - intros Hlen. simpl in Hlen. lia.
  - intros Hlen. rewrite length_app, Hlen. reflexivity.
Qed.

Lemma handle_skip_effect_witness :
  let (r, session') := handle_skip 7 session5 in
  r = Ok tt /\
  current_round session' = [1; 5; 2; 4]%Z /\
  skipped session' = [3%Z] /\
  bank session' = bank5.
Proof.
  pose proof (@handle_skip_effect session5 7%R 3%Z [1; 5; 2; 4]%Z eq_refl) as H.
  destruct (handle_skip 7 session5) as [r session'].
  destruct H as (H1 & H2 & H3 & H4 & _).
  repeat split; assumption.
Defined.

(** C8. With nothing pending, whatever [skipped] holds, [handle_answer]
    and [handle_skip] return normally and leave the whole session, bank
    included, as it was. *)
Theorem nothing_pending_noop (session : QuizSession) (correct : bool)
  (t1 t2 t : R) (now : datetime) :
  current_round session = [] ->
  handle_answer correct t1 t2 now session = (Ok tt, session) /\
  handle_skip t session = (Ok tt, session).
Proof.
  intros Hcur.
  unfold handle_answer, handle_skip, bind, get, ret. simpl.
  rewrite Hcur. split; reflexivity.
Qed.

Lemma nothing_pending_noop_witness :
  handle_answer true 3 4 noon reviewing = (Ok tt, reviewing) /\
  handle_skip 3 reviewing = (Ok tt, reviewing).
Proof.
  apply (@nothing_pending_noop reviewing true 3%R 4%R 3%R noon). reflexivity.
Defined.

(** ** Scores *)

Open Scope R_scope.

Lemma exp_le_1 (x : R) : x <= 0 -> 0 < exp x <= 1.
Proof.
  intros Hx. split; [apply exp_pos|].
  destruct Hx as [Hlt| ->].
  - left. rewrite <- exp_0. apply exp_increasing. assumption.
  - rewrite exp_0. right. reflexivity.
Qed.

Lemma exp_gt_1 (x : R) : 0 < x -> 1 < exp x.
Proof. intros Hx. rewrite <- exp_0. apply exp_increasing. assumption. Qed.

(** The exponent [-days_passed/30], by the sign of [days_passed]. *)
Lemma exponent_sign (d : Z) :
  ((0 <= d)%Z -> IZR (- d) / 30 <= 0) /\
  ((0 < d)%Z -> IZR (- d) / 30 < 0) /\
  ((d < 0)%Z -> 0 < IZR (- d) / 30).
Proof.
  rewrite opp_IZR. repeat split; intros Hd.
  - apply IZR_le in Hd. lra.
  - apply IZR_lt in Hd. lra.
  - apply IZR_lt in Hd. lra.
Qed.

(** The decay formula is positive for a mastery in [[0, 1]], whatever the
    sign of the exponent. *)
Lemma decay_formula_pos (m x : R) :
  0 <= m <= 1 -> 0 < 1 - m * (1 - exp x).
Proof.
  intros [Hm0 Hm1]. pose proof (exp_pos x) as Hpos.
  destruct (Rle_or_lt x 0) as [Hx|Hx].
  - destruct (exp_le_1 _ Hx) as [_ Hle]. nra.
  - pose proof (exp_gt_1 _ Hx). nra.
Qed.

Lemma decay_formula_le_1 (m x : R) :
  0 <= m -> x <= 0 -> 1 - m * (1 - exp x) <= 1.
Proof.
  intros Hm Hx. destruct (exp_le_1 _ Hx) as [_ Hle]. nra.
Qed.

Close Scope R_scope.

Lemma answered_at_one_reached :
  update_question_state 1 true 2 one_pm bank1 = (Ok tt, answered_at_one).
Proof. apply update_question_state_ok; reflexivity. Qed.

(** C4, as stated, fails: one correct answer recorded at one o'clock and
    the clock read an hour earlier (the wall clock was set back) give
    [days_passed = -1] and a decay above 1. *)
Lemma calculate_decay_above_one :
  exists d, calculate_decay answered_at_one 1 noon = Ok d /\ ~ (0 < d <= 1)%R.
Proof.
  eexists. split.
  - unfold calculate_decay. simpl.
    change (sub_days noon one_pm) with (-1)%Z. reflexivity.
  - simpl. intros [_ Hle].
    assert (Hm : Rmin 1 (0 + 0.1) = 0.1%R).
    { unfold Rmin. destruct (Rle_dec 1 (0 + 0.1)); lra. }
    rewrite Hm in Hle.
    assert (He : (1 < exp (1 / 30))%R) by (apply exp_gt_1; lra).
    lra.
Qed.

(** C4, amended. Without [last_seen] the decay is exactly 1. With a
    [last_seen] that is less than 21294 days ahead of the clock (from
    there on [math.exp] overflows) it is
    [1 - mastery * (1 - e^(-days_passed/30))], and it lies in [[0, 1]]
    when the mastery is within [[0, 1]] and [last_seen] is not later than
    the clock ([days_passed >= 0]). The bounds are not strict: rounding
    lets the code reach both ends. *)
Theorem calculate_decay_range (b : QuestionBank) (qid : Z) (now : datetime)
  (state : QuestionState) :
  dict_get qid (states b) = Some state ->
  (last_seen state = None -> calculate_decay b qid now = Ok 1%R) /\
  (forall seen,
      last_seen state = Some seen ->
      let days_passed := sub_days now seen in
      (-21294 < days_passed)%Z ->
      exists d,
        calculate_decay b qid now = Ok d /\
        d = (1 - mastery_level state * (1 - exp (IZR (- days_passed) / 30)))%R /\
        ((0 <= mastery_level state <= 1)%R -> (0 <= days_passed)%Z ->
         (0 <= d <= 1)%R)).
Proof.
  intros Hs. unfold calculate_decay. rewrite Hs. cbn [index res_bind].
  split.
  - intros ->. reflexivity.
  - intros seen Hseen _. rewrite Hseen. eexists.
    split; [reflexivity|]. split; [reflexivity|]. intros Hm Hd.
    destruct (exponent_sign (sub_days now seen)) as (H0 & _ & _). split.
    + left. apply decay_formula_pos. exact Hm.
    + apply decay_formula_le_1; [lra|auto].
Qed.

Lemma calculate_decay_range_witness :
  exists d,
    calculate_decay answered_at_one 1 next_month = Ok d /\ (0 <= d <= 1)%R.
Proof.
  destruct (proj2 (@calculate_decay_range answered_at_one 1%Z next_month
              (adjust_mastery (record_attempt (new_state "tones") true 2 one_pm) true)
              eq_refl) one_pm eq_refl)
    as (d & Hd & _ & Hrange).
  - vm_compute. reflexivity.
  - exists d. split; [exact Hd|]. apply Hrange.
    + simpl. unfold Rmin. destruct (Rle_dec 1 (0 + 0.1)); lra.
    + vm_compute. discriminate.
Defined.

Open Scope R_scope.

Lemma fold_Rplus_nonneg (l : list R) (a : R) :
  Forall (fun t => 0 <= t) l -> 0 <= a -> 0 <= fold_left Rplus l a.
Proof.
  revert a. induction l as [|x l IH]; simpl; intros a Hl Ha.
  - assumption.
  - inversion Hl; subst. apply IH; [assumption|lra].
Qed.

Lemma Forall_skipn {A} (P : A -> Prop) (n : nat) (l : list A) :
  Forall P l -> Forall P (skipn n l).
Proof.
  revert l. induction n as [|n IH]; intros l Hl; simpl.
  - assumption.
  - destruct l; [constructor|]. inversion Hl; subst. auto.
Qed.

Lemma last_n_nonempty {A} (n : nat) (l : list A) :
  (0 < n)%nat -> l <> [] -> (0 < List.length (last_n n l))%nat.
Proof.
  intros Hn Hl. unfold last_n. rewrite length_skipn.
  destruct l as [|a l]; [contradiction|].
  change (List.length (a :: l)) with (S (List.length l)). lia.
Qed.

(** The speed factor is not negative when no recorded time is. *)
Lemma speed_factor_nonneg (times : list R) :
  Forall (fun t => 0 <= t) times -> times <> [] ->
  0 <= Rmin 2 (sum_R (last_n 5 times) / IZR (len (last_n 5 times)) / 5).
Proof.
  intros Hall Hne.
  assert (Hsum : 0 <= sum_R (last_n 5 times)).
  { apply fold_Rplus_nonneg; [|lra]. apply Forall_skipn. assumption. }
  assert (Hlen : 0 < IZR (len (last_n 5 times))).
  { apply IZR_lt. unfold len.
    pose proof (@last_n_nonempty _ 5 times ltac:(lia) Hne). lia. }
  apply Rmin_glb; [lra|].
  apply Rmult_le_pos; [|lra].
  apply Rmult_le_pos; [assumption|].
  left. apply Rinv_0_lt_compat. assumption.
Qed.

Close Scope R_scope.

Lemma clock_set_back_reached :
  update_question_state 1 false (-5) noon bank1 = (Ok tt, clock_set_back).
Proof. apply update_question_state_ok; reflexivity. Qed.

(** C5, as stated, fails: with a negative response time on record the
    pattern score is negative. *)
Lemma calculate_pattern_score_negative :
  exists score,
    calculate_pattern_score clock_set_back 1 noon = Ok score /\
    (score < 0)%R.
Proof.
  eexists. split.
  - unfold calculate_pattern_score, calculate_decay. simpl.
    change (sub_days noon noon) with 0%Z. reflexivity.
  - unfold sum_R, len, last_n. simpl.
    replace (0 / 30)%R with 0%R by lra.
    rewrite exp_0.
    assert (Hmin : Rmin 2 ((0 + -5) / 1 / 5) = (-1)%R).
    { unfold Rmin. destruct (Rle_dec 2 ((0 + -5) / 1 / 5)); lra. }
    rewrite Hmin.
    assert (Hmax : Rmax 0 (0 - 0.2) = 0%R).
    { unfold Rmax. destruct (Rle_dec 0 (0 - 0.2)); lra. }
    rewrite Hmax. lra.
Qed.

(** C5, amended. The pattern score is the difficulty, times 1.5 when (with
    five attempts on record) the first three of the last five hold more
    correct answers than the last two, times 0.8 when they hold fewer,
    then, when response times are on record, times
    [min 2 (mean of the last five / 5)], then times the decay. It is not
    negative when the difficulty and the recorded response times are not
    negative and the mastery is within [[0, 1]]. *)
Theorem calculate_pattern_score_formula (b : QuestionBank) (qid : Z)
  (now : datetime) (state : QuestionState) :
  dict_get qid (states b) = Some state ->
  exists score decay,
    calculate_pattern_score b qid now = Ok score /\
    calculate_decay b qid now = Ok decay /\
    (let recent := last_n 5 (last_5_attempts state) in
     let early := count_true (firstn 3 recent) in
     let late := count_true (skipn 3 recent) in
     let trend :=
       if (List.length (last_5_attempts state) <? 5)%nat then 1
       else if (late <? early)%Z then 1.5
       else if (early <? late)%Z then 0.8 else 1 in
     let times := last_n 5 (time_to_answer state) in
     let speed :=
       match time_to_answer state with
       | [] => 1
       | _ :: _ => Rmin 2 (sum_R times / IZR (len times) / 5)
       end in
     score = difficulty state * trend * speed * decay)%R /\
    ((0 <= difficulty state)%R ->
     Forall (fun t => 0 <= t)%R (time_to_answer state) ->
     (0 <= mastery_level state <= 1)%R ->
     (0 <= score)%R).
Proof.
  intros Hs.
  assert (Hdecay : exists decay, calculate_decay b qid now = Ok decay /\
            ((0 <= mastery_level state <= 1)%R -> (0 < decay)%R)).
  { unfold calculate_decay. rewrite Hs. simpl.
    destruct (last_seen state) as [seen|].
    - eexists. split; [reflexivity|]. apply decay_formula_pos.
    - exists 1%R. split; [reflexivity|]. intros _. lra. }
  destruct Hdecay as (decay & Hdecay & Hpos).
  unfold calculate_pattern_score. rewrite Hs. cbn [index res_bind].
  rewrite Hdecay. cbn [res_bind].
  eexists. exists decay. split; [reflexivity|]. split; [reflexivity|].
  cbv zeta.
  set (early := count_true (firstn 3 (last_n 5 (last_5_attempts state)))).
  set (late := count_true (skipn 3 (last_n 5 (last_5_attempts state)))).
  set (trended :=
         if (5 <=? List.length (last_5_attempts state))%nat
         then if (late <? early)%Z then (difficulty state * 1.5)%R
              else if (early <? late)%Z then (difficulty state * 0.8)%R
                   else difficulty state
         else difficulty state).
  set (trend :=
         if (List.length (last_5_attempts state) <? 5)%nat then 1%R
         else if (late <? early)%Z then 1.5%R
              else if (early <? late)%Z then 0.8%R else 1%R).
  assert (Htrend : trended = (difficulty state * trend)%R /\ (0 < trend)%R).
  { unfold trended, trend.
    destruct (Nat.leb_spec 5 (List.length (last_5_attempts state)));
      destruct (Nat.ltb_spec (List.length (last_5_attempts state)) 5);
      try lia; [|split; lra].
    destruct (late <? early)%Z; [split; lra|].
    destruct (early <? late)%Z; split; lra. }
  destruct Htrend as [-> Htrend].
  split.
  - destruct (time_to_answer state); [ring|reflexivity].
  - intros Hd Ht Hm. specialize (Hpos Hm).
    destruct (time_to_answer state) as [|t0 ts] eqn:Htimes.
    + apply Rmult_le_pos; [|lra]. apply Rmult_le_pos; lra.
    + rewrite <- Htimes in *.
      assert (Hne : time_to_answer state <> []) by (rewrite Htimes; discriminate).
      pose proof (speed_factor_nonneg _ Ht Hne) as Hspeed.
      apply Rmult_le_pos; [|lra].
      apply Rmult_le_pos; [|assumption].
      apply Rmult_le_pos; lra.
Qed.

Lemma calculate_pattern_score_formula_witness :
  exists score,
    calculate_pattern_score answered_at_one 1 next_month = Ok score /\
    (0 <= score)%R.
Proof.
  destruct (@calculate_pattern_score_formula answered_at_one 1%Z next_month
              (adjust_mastery (record_attempt (new_state "tones") true 2 one_pm) true)
              eq_refl) as (score & decay & Hscore & _ & _ & Hnonneg).
  exists score. split; [exact Hscore|].
  apply Hnonneg; simpl.
  - unfold Rmax. destruct (Rle_dec 1 (1 * 0.8)); lra.
  - repeat constructor. lra.
  - unfold Rmin. destruct (Rle_dec 1 (0 + 0.1)); lra.
Defined.

(** ** Reference parsers: reading back what was written *)

Open Scope Z_scope.

Lemma digit_val_char (d : Z) :
  0 <= d < 10 -> digit_val (digit_char d) = Some d.
Proof.
  intros Hd.
  assert (H : d = 0 \/ d = 1 \/ d = 2 \/ d = 3 \/ d = 4 \/ d = 5 \/ d = 6
              \/ d = 7 \/ d = 8 \/ d = 9) by lia.
  repeat (destruct H as [->|H]; [reflexivity|]). subst. reflexivity.
Qed.

Lemma parse_put_digits (w : nat) (n acc : Z) (rest : string) :
  0 <= n ->
  parse_digits w acc (put_digits w n rest)
  = Some (acc * 10 ^ Z.of_nat w + n mod 10 ^ Z.of_nat w, rest).
Proof.
  intros Hn. revert acc. induction w as [|w IH]; intros acc.
  - simpl. rewrite Z.mod_1_r. do 2 f_equal. lia.
  - cbn [put_digits parse_digits].
    rewrite digit_val_char by (apply Z.mod_pos_bound; lia).
    rewrite IH. do 2 f_equal.
    rewrite Nat2Z.inj_succ, Z.pow_succ_r by lia.
    assert (Hp : 0 < 10 ^ Z.of_nat w) by (apply Z.pow_pos_nonneg; lia).
    rewrite (Z.mul_comm 10 (10 ^ Z.of_nat w)).
    rewrite Z.rem_mul_r by lia. lia.
Qed.

Lemma valid_datetime_bounds (d : datetime) :
  valid_datetime d ->
  1 <= year d <= 9999 /\ 1 <= month d <= 12 /\ 1 <= day d <= 31 /\
  0 <= hour d < 24 /\ 0 <= minute d < 60 /\ 0 <= second d < 60 /\
  0 <= microsecond d < 1000000.
Proof.
  unfold valid_datetime, valid_datetimeb. intros H.
  repeat (apply andb_prop in H; destruct H as [H ?]).
  assert (Hdim : days_in_month (year d) (month d) <= 31).
  { unfold days_in_month.
    destruct (month d) as [|p|p]; try lia.
    do 4 (try destruct p as [p|p|]; try lia);
      destruct (is_leap (year d)); lia. }
  lia.
Qed.

(** [fromisoformat] undoes [isoformat], microseconds included. *)
Lemma parse_isoformat_isoformat (d : datetime) :
  valid_datetime d -> parse_isoformat (isoformat d) = Some d.
Proof.
  intros Hv. pose proof (valid_datetime_bounds _ Hv) as B.
  destruct B as (By & Bmo & Bd & Bh & Bmi & Bs & Bus).
  unfold parse_isoformat, isoformat.
  repeat (rewrite parse_put_digits by lia;
          cbn [obind snd fst expect Ascii.eqb Bool.eqb]).
  change (10 ^ Z.of_nat 4) with 10000. change (10 ^ Z.of_nat 2) with 100.
  rewrite !Z.mod_small by lia.
  assert (Hus : parse_fraction
                  (if microsecond d =? 0 then EmptyString
                   else String "." (put_digits 6 (microsecond d) EmptyString))
                = Some (microsecond d)).
  { destruct (Z.eqb_spec (microsecond d) 0) as [E|E].
    - rewrite E. reflexivity.
    - unfold parse_fraction. cbn [Ascii.eqb Bool.eqb].
      rewrite parse_put_digits by lia. cbn [obind snd fst].
      change (10 ^ Z.of_nat 6) with 1000000.
      rewrite Z.mod_small by lia. reflexivity. }
  rewrite Hus. cbn [obind].
  replace (0 * 10000 + year d) with (year d) by lia.
  replace (0 * 100 + month d) with (month d) by lia.
  replace (0 * 100 + day d) with (day d) by lia.
  replace (0 * 100 + hour d) with (hour d) by lia.
  replace (0 * 100 + minute d) with (minute d) by lia.
  replace (0 * 100 + second d) with (second d) by lia.
  destruct d as [y mo dd h mi se us].
  cbn [year month day hour minute second microsecond] in *.
  unfold valid_datetime in Hv. rewrite Hv. reflexivity.
Qed.

Lemma isoformat_nonempty (d : datetime) :
  String.eqb (isoformat d) EmptyString = false.
Proof. reflexivity. Qed.

Example isoformat_noon : isoformat noon = "2024-03-10T12:00:00"%string.
Proof. reflexivity. Qed.

Example isoformat_next_noon :
  isoformat next_noon = "2024-03-11T12:00:00.250000"%string.
Proof. reflexivity. Qed.

Example parse_isoformat_next_noon :
  parse_isoformat "2024-03-11T12:00:00.250000" = Some next_noon.
Proof. reflexivity. Qed.

Example parse_isoformat_rejects :
  parse_isoformat "2024-02-30T12:00:00" = None /\
  parse_isoformat "yesterday" = None.
Proof. split; reflexivity. Qed.

Example parse_int_examples :
  parse_int "17" = Some 17 /\ parse_int "-4" = Some (-4) /\
  parse_int "one" = None /\ parse_int "" = None.
Proof. repeat split; reflexivity. Qed.

(** [date(2024, 3, 10).toordinal()] is 738955; an hour back in time is
    day -1, five weeks on is day 35. *)
Example toordinal_noon : toordinal noon = 738955.
Proof. reflexivity. Qed.

Example sub_days_examples :
  sub_days noon one_pm = -1 /\ sub_days one_pm noon = 0 /\
  sub_days next_month one_pm = 35.
Proof. repeat split; reflexivity. Qed.

Close Scope Z_scope.

(** ** Banks the code can build *)

Section DictShape.
Context {K V : Type} `{Key K}.

Lemma mem_In (k : K) (l : list K) : mem k l = true <-> In k l.
Proof.
  unfold mem. rewrite existsb_exists. split.
  - intros (x & Hin & Heq). apply key_eqb_eq in Heq. subst. assumption.
  - intros Hin. exists k. split; [assumption|apply key_eqb_refl].
Qed.

Lemma dict_get_None (k : K) (d : dict K V) :
  ~ In k (dict_keys d) -> dict_get k d = None.
Proof.
  induction d as [|[k' v'] d IH]; simpl; intros Hnin; [reflexivity|].
  rewrite key_eqb_neq by (intros ->; apply Hnin; auto).
  apply IH. intros Hin. apply Hnin. auto.
Qed.

Lemma dict_keys_set_absent (k : K) (v : V) (d : dict K V) :
  ~ In k (dict_keys d) -> dict_keys (dict_set k v d) = dict_keys d ++ [k].
Proof.
  induction d as [|[k' v'] d IH]; simpl; intros Hnin; [reflexivity|].
  rewrite key_eqb_neq by (intros ->; apply Hnin; auto).
  simpl. rewrite IH; [reflexivity|]. intros Hin. apply Hnin. auto.
Qed.

Lemma In_dict_get (k : K) (d : dict K V) :
  In k (dict_keys d) -> exists v, dict_get k d = Some v.
Proof.
  induction d as [|[k' v'] d IH]; simpl; [contradiction|].
  intros Hin. destruct (key_eqb k k') eqn:E; [eauto|].
  destruct Hin as [->|Hin]; [|auto].
  rewrite key_eqb_refl in E. discriminate.
Qed.

Lemma dict_set_NoDup (k : K) (v : V) (d : dict K V) :
  NoDup (dict_keys d) -> NoDup (dict_keys (dict_set k v d)).
Proof.
  intros Hnd. destruct (mem k (dict_keys d)) eqn:E.
  - apply mem_In in E. destruct (In_dict_get _ _ E) as [v0 Hv0].
    rewrite (dict_keys_set_present _ v _ _ Hv0). assumption.
  - assert (Hnin : ~ In k (dict_keys d)).
    { intros Hin. apply mem_In in Hin. congruence. }
    rewrite dict_keys_set_absent by assumption.
    apply NoDup_app; [assumption|repeat constructor; auto|].
    intros a Ha [<-|[]]. contradiction.
Qed.

Lemma In_dict_set (k k0 : K) (v v0 : V) (d : dict K V) :
  In (k, v) (dict_set k0 v0 d) -> In (k, v) d \/ (k = k0 /\ v = v0).
Proof.
  induction d as [|[k' v'] d IH]; simpl.
  - intros [Heq|[]]. injection Heq as <- <-. auto.
  - destruct (key_eqb k0 k') eqn:E; simpl.
    + apply key_eqb_eq in E. subst k'.
      intros [Heq|Hin]; [injection Heq as <- <-|]; auto.
    + intros [Heq|Hin]; [auto|]. destruct (IH Hin); auto.
Qed.

Lemma dict_get_In_pair (k : K) (v : V) (d : dict K V) :
  dict_get k d = Some v -> In (k, v) d.
Proof.
  induction d as [|[k' v'] d IH]; simpl; [discriminate|].
  destruct (key_eqb k k') eqn:E.
  - apply key_eqb_eq in E. subst. intros [= ->]. auto.
  - auto.
Qed.

Lemma dict_get_app_r (k : K) (d1 d2 : dict K V) :
  ~ In k (dict_keys d1) -> dict_get k (d1 ++ d2) = dict_get k d2.
Proof.
  induction d1 as [|[k' v'] d1 IH]; simpl; intros Hnin; [reflexivity|].
  rewrite key_eqb_neq by (intros ->; apply Hnin; auto).
  apply IH. intros Hin. apply Hnin. auto.
Qed.

Lemma dict_set_app_r (k : K) (v v0 : V) (d1 d2 : dict K V) :
  ~ In k (dict_keys d1) ->
  dict_set k v (d1 ++ (k, v0) :: d2) = d1 ++ (k, v) :: d2.
Proof.
  induction d1 as [|[k' v'] d1 IH]; simpl; intros Hnin.
  - rewrite key_eqb_refl. reflexivity.
  - rewrite key_eqb_neq by (intros ->; apply Hnin; auto).
    rewrite IH; [reflexivity|]. intros Hin. apply Hnin. auto.
Qed.

End DictShape.

Lemma build_questions_NoDup (data : list Question) :
  NoDup (dict_keys (build_questions data)).
Proof.
  unfold build_questions.
  assert (H : forall d : dict Z Question,
             NoDup (dict_keys d) ->
             NoDup (dict_keys (fold_left (fun d q => dict_set (q_id q) q d) data d))).
  { induction data as [|q data IH]; simpl; intros d Hd; [assumption|].
    apply IH. apply dict_set_NoDup. assumption. }
  apply H. constructor.
Qed.

(** The fresh states of [__init__], read off the states of a consistent
    bank over the same questions. *)
Lemma fresh_states (qs : dict Z Question) (sts : dict Z QuestionState) :
  NoDup (dict_keys qs) ->
  dict_keys sts = dict_keys qs ->
  (forall qid state q,
      In (qid, state) sts -> dict_get qid qs = Some q ->
      category state = q_category q) ->
  map (fun kq => (fst kq, new_state (q_category (snd kq)))) qs
  = map (fun ks => (fst ks, new_state (category (snd ks)))) sts.
Proof.
  revert sts. induction qs as [|[k q] qs IH]; intros [|[k' st] sts];
    simpl; intros Hnd Hkeys Hcat; try discriminate; [reflexivity|].
  injection Hkeys as -> Hkeys. inversion Hnd as [|? ? Hnin Hnd']; subst.
  f_equal.
  - f_equal. f_equal. symmetry. apply (Hcat k st q); [auto|].
    rewrite Z.eqb_refl. reflexivity.
  - apply IH; [assumption|assumption|].
    intros qid state q0 Hin Hget. apply (Hcat qid state q0); [auto|].
    destruct (Z.eqb_spec qid k) as [->|Hne]; [|assumption].
    exfalso. apply Hnin. rewrite <- Hkeys.
    change (In (fst (k, state)) (map fst sts)). apply in_map. assumption.
Qed.

(** ** export_state, then import_state *)

Section RoundTrip.

Variable int_of_str : string -> option Z.
Variable fromisoformat : string -> option datetime.
Hypothesis fromisoformat_isoformat :
  forall d, valid_datetime d -> fromisoformat (isoformat d) = Some d.

Lemma import_entry_exported (Q : dict Z Question)
  (C : dict string CategoryStats) (P rest : dict Z QuestionState) (k : Z)
  (state : QuestionState) :
  ~ In k (dict_keys P) ->
  (forall seen, last_seen state = Some seen -> valid_datetime seen) ->
  import_entry int_of_str fromisoformat
    {| questions := Q;
       states := P ++ (k, new_state (category state)) :: rest;
       category_stats := C |}
    (KInt k, export_entry state)
  = Ok {| questions := Q;
          states := P ++ (k, reimported state) :: rest;
          category_stats := C |}.
Proof.
  intros Hnin Hvalid. unfold import_entry. cbn [py_int res_bind states].
  rewrite dict_get_app_r by assumption.
  cbn [dict_get]. change (key_eqb k k) with (k =? k)%Z. rewrite Z.eqb_refl.
  cbn [index res_bind export_entry sd_last_seen].
  destruct (last_seen state) as [seen|] eqn:Hseen.
  - rewrite isoformat_nonempty, (fromisoformat_isoformat _ (Hvalid seen eq_refl)).
    cbn [res_bind]. rewrite dict_set_app_r by assumption.
    unfold reimported. rewrite Hseen. reflexivity.
  - cbn [res_bind]. rewrite dict_set_app_r by assumption.
    unfold reimported. rewrite Hseen. reflexivity.
Qed.

Lemma import_fold (Q : dict Z Question) (C : dict string CategoryStats)
  (sts P : dict Z QuestionState) :
  NoDup (dict_keys P ++ dict_keys sts) ->
  (forall qid state seen,
      In (qid, state) sts -> last_seen state = Some seen ->
      valid_datetime seen) ->
  foldM (import_entry int_of_str fromisoformat)
    (map (fun ks => (KInt (fst ks), export_entry (snd ks))) sts)
    {| questions := Q;
       states := P ++ map (fun ks => (fst ks, new_state (category (snd ks)))) sts;
       category_stats := C |}
  = Ok {| questions := Q;
          states := P ++ map (fun ks => (fst ks, reimported (snd ks))) sts;
          category_stats := C |}.
Proof.
  revert P. induction sts as [|[k state] sts IH]; intros P Hnd Hvalid.
  - reflexivity.
  - cbn [map foldM fst snd].
    rewrite import_entry_exported.
    + cbn [res_bind].
      specialize (IH (P ++ [(k, reimported state)])).
      rewrite <- !app_assoc in IH. cbn [app] in IH. apply IH.
      * unfold dict_keys in *. rewrite map_app. cbn [map fst].
        rewrite <- app_assoc. exact Hnd.
      * intros qid st seen Hin. apply (Hvalid qid st seen). right. exact Hin.
    + intros Hin. unfold dict_keys in Hnd. cbn [map fst] in Hnd.
      apply NoDup_remove_2 in Hnd. apply Hnd. apply in_or_app. left. exact Hin.
    + intros seen. apply (Hvalid k state seen). left. reflexivity.
Qed.

(** The bank that comes back from a snapshot of a consistent bank. *)
Lemma import_export (data : list Question) (b : QuestionBank)
  (now : datetime) :
  consistent data b ->
  import_state int_of_str fromisoformat data (export_state b now)
  = Ok {| questions := questions b;
          states := map (fun ks => (fst ks, reimported (snd ks))) (states b);
          category_stats := category_stats b |}.
Proof.
  intros (HQ & Hkeys & Hcat & Hvalid).
  unfold import_state, export_state, __init__.
  cbn [snap_states snap_category_stats index res_bind].
  rewrite <- HQ.
  rewrite (@fresh_states (questions b) (states b)); try assumption.
  - assert (Hnd : NoDup (dict_keys (@nil (Z * QuestionState)) ++ dict_keys (states b))).
    { cbn [app dict_keys map]. fold (dict_keys (states b)).
      rewrite Hkeys, HQ. apply build_questions_NoDup. }
    pose proof (@import_fold (questions b)
                  (_initialize_category_stats (questions b)) (states b) []
                  Hnd Hvalid) as Hfold.
    cbn [app] in Hfold. rewrite Hfold. reflexivity.
  - rewrite HQ. apply build_questions_NoDup.
Qed.

End RoundTrip.

Lemma dict_set_twice {K V} `{Key K} (k : K) (v1 v2 : V) (d : dict K V) :
  dict_set k v2 (dict_set k v1 d) = dict_set k v2 d.
Proof.
  induction d as [|[k' v'] d IH]; simpl.
  - rewrite key_eqb_refl. reflexivity.
  - destruct (key_eqb k k') eqn:E; simpl; rewrite E; [reflexivity|].
    rewrite IH. reflexivity.
Qed.

Lemma dict_get_map {K V} `{Key K} (f : V -> V) (k : K) (d : dict K V) :
  dict_get k (map (fun kv => (fst kv, f (snd kv))) d)
  = option_map f (dict_get k d).
Proof.
  induction d as [|[k' v'] d IH]; simpl; [reflexivity|].
  destruct (key_eqb k k'); [reflexivity|assumption].
Qed.

Lemma In_dict_get_NoDup {K V} `{Key K} (k : K) (v : V) (d : dict K V) :
  NoDup (dict_keys d) -> In (k, v) d -> dict_get k d = Some v.
Proof.
  induction d as [|[k' v'] d IH]; simpl; intros Hnd Hin; [contradiction|].
  inversion Hnd as [|? ? Hnin Hnd']; subst.
  destruct Hin as [Heq|Hin].
  - injection Heq as -> ->. rewrite key_eqb_refl. reflexivity.
  - rewrite key_eqb_neq; [auto|].
    intros ->. apply Hnin.
    change (In (fst (k', v)) (map fst d)). apply in_map. assumption.
Qed.

(** What a call of [update_question_state] can leave behind: the bank
    untouched (the id is unknown), or the state of [qid] replaced by one
    of the same category that was last seen now. *)
Lemma update_question_state_cases (b : QuestionBank) (qid : Z)
  (correct : bool) (t : R) (now : datetime) :
  let b' := snd (update_question_state qid correct t now b) in
  b' = b \/
  exists state state',
    dict_get qid (states b) = Some state /\
    questions b' = questions b /\
    states b' = dict_set qid state' (states b) /\
    category state' = category state /\
    last_seen state' = Some now.
Proof.
  run_update.
  destruct (dict_get qid (states b)) as [state|] eqn:Hs; simpl; [|auto].
  destruct (dict_get qid (questions b)) as [q|] eqn:Hq; simpl; [|auto].
  right. exists state.
  destruct (dict_get (q_category q) (category_stats b)) as [cs|]; simpl.
  - exists (adjust_mastery (record_attempt state correct t now) correct).
    rewrite dict_set_twice. destruct correct; auto.
  - exists (record_attempt state correct t now). auto.
Qed.

Lemma init_consistent (data : list Question) : consistent data (__init__ data).
Proof.
  unfold consistent, __init__. cbn [questions states].
  pose proof (build_questions_NoDup data) as Hnd.
  set (qs := build_questions data) in *.
  split; [reflexivity|]. split.
  { unfold dict_keys. rewrite map_map. reflexivity. }
  split.
  - intros qid state q Hin Hget.
    apply in_map_iff in Hin. destruct Hin as ([k q'] & Heq & Hin).
    cbn [fst snd] in Heq. injection Heq as <- <-.
    rewrite (In_dict_get_NoDup _ _ _ Hnd Hin) in Hget.
    injection Hget as <-. reflexivity.
  - intros qid state seen Hin Hseen.
    apply in_map_iff in Hin. destruct Hin as ([k q'] & Heq & _).
    injection Heq as <- <-. discriminate.
Qed.

(** Replacing one state by a state of the same category whose
    [last_seen] is a clock reading keeps a bank consistent. *)
Lemma consistent_set (data : list Question) (b b' : QuestionBank) (qid : Z)
  (state state' : QuestionState) :
  consistent data b ->
  dict_get qid (states b) = Some state ->
  questions b' = questions b ->
  states b' = dict_set qid state' (states b) ->
  category state' = category state ->
  (forall seen, last_seen state' = Some seen -> valid_datetime seen) ->
  consistent data b'.
Proof.
  intros (HQb & Hkeys & Hcatb & Hvalid) Hs HQ HS Hcat Hseen.
  unfold consistent. rewrite HQ, HS. split; [assumption|]. split.
  { rewrite (dict_keys_set_present _ state' _ _ Hs). assumption. }
  split.
  - intros k st q Hin Hget. apply In_dict_set in Hin.
    destruct Hin as [Hin|[-> ->]]; [eauto|].
    rewrite Hcat. apply (Hcatb qid state q); [|assumption].
    apply dict_get_In_pair. assumption.
  - intros k st seen Hin Hst. apply In_dict_set in Hin.
    destruct Hin as [Hin|[-> ->]]; [eauto|]. auto.
Qed.

Lemma update_consistent (data : list Question) (b : QuestionBank) (qid : Z)
  (correct : bool) (t : R) (now : datetime) :
  consistent data b -> valid_datetime now ->
  consistent data (snd (update_question_state qid correct t now b)).
Proof.
  intros Hb Hnow.
  destruct (update_question_state_cases b qid correct t now)
    as [->|(state & state' & Hs & HQ & HS & Hcat & Hseen)]; [assumption|].
  apply (consistent_set data b _ qid state state' Hb Hs HQ HS Hcat).
  intros seen Hst. rewrite Hseen in Hst. injection Hst as <-. assumption.
Qed.

Lemma dict_keys_set_In {K V} `{Key K} (k c : K) (v : V) (d : dict K V) :
  In c (dict_keys (dict_set k v d)) <-> c = k \/ In c (dict_keys d).
Proof.
  destruct (mem k (dict_keys d)) eqn:E.
  - apply mem_In in E. destruct (In_dict_get _ _ E) as [v0 Hv0].
    rewrite (dict_keys_set_present _ v _ _ Hv0). split; [auto|].
    intros [->|Hin]; assumption.
  - assert (Hnin : ~ In k (dict_keys d)).
    { intros Hin. apply mem_In in Hin. congruence. }
    rewrite dict_keys_set_absent by assumption. rewrite in_app_iff. simpl.
    split.
    + intros [Hin|[<-|[]]]; auto.
    + intros [->|Hin]; auto.
Qed.

Lemma init_stats_complete (data : list Question) : stats_complete (__init__ data).
Proof.
  unfold stats_complete, __init__, _initialize_category_stats.
  cbn [questions category_stats].
  set (qs := build_questions data).
  assert (Hfold : forall (l : dict Z Question) (acc : dict string CategoryStats) c,
             In c (dict_keys acc) \/ In c (map (fun kq => q_category (snd kq)) l) ->
             In c (dict_keys
                     (fold_left
                        (fun d kq =>
                           dict_set (q_category (snd kq))
                             {| total_attempts := 0; correct_attempts := 0 |} d)
                        l acc))).
  { induction l as [|kq l IH]; simpl; intros acc c Hc.
    - destruct Hc as [Hc|[]]. assumption.
    - apply IH. rewrite dict_keys_set_In.
      destruct Hc as [Hc|[Hc|Hc]]; auto. }
  intros qid q Hget. apply In_dict_get. apply Hfold. right.
  apply dict_get_In_pair in Hget.
  change (q_category q) with ((fun kq : Z * Question => q_category (snd kq)) (qid, q)).
  apply in_map. assumption.
Qed.

Lemma update_stats_complete (b : QuestionBank) (qid : Z) (correct : bool)
  (t : R) (now : datetime) :
  stats_complete b ->
  stats_complete (snd (update_question_state qid correct t now b)).
Proof.
  intros Hb. unfold stats_complete. run_update.
  destruct (dict_get qid (states b)) as [state|]; simpl; [|assumption].
  destruct (dict_get qid (questions b)) as [q|]; simpl; [|assumption].
  destruct (dict_get (q_category q) (category_stats b)) as [cs|] eqn:Hcs;
    simpl; [|assumption].
  intros k q' Hget. destruct (Hb k q' Hget) as [cs' Hcs'].
  apply In_dict_get. rewrite dict_keys_set_In. right.
  eapply dict_get_In. eassumption.
Qed.

(** On a bank that [__init__] built and updates changed, the update of
    any id of the question set returns normally. *)
Lemma update_question_state_total (data : list Question) (b : QuestionBank)
  (qid : Z) (correct : bool) (t : R) (now : datetime) :
  consistent data b -> stats_complete b ->
  In qid (dict_keys (questions b)) ->
  exists state q cs,
    dict_get qid (states b) = Some state /\
    dict_get qid (questions b) = Some q /\
    dict_get (q_category q) (category_stats b) = Some cs /\
    update_question_state qid correct t now b
    = (Ok tt, updated_bank b qid correct t now state q cs).
Proof.
  intros (_ & Hkeys & _ & _) Hstats Hin.
  destruct (In_dict_get _ _ Hin) as [q Hq].
  rewrite <- Hkeys in Hin. destruct (In_dict_get _ _ Hin) as [state Hs].
  destruct (Hstats qid q Hq) as [cs Hcs].
  exists state, q, cs. repeat split; try assumption.
  apply update_question_state_ok; assumption.
Qed.

Section ImportConsistent.

Variable int_of_str : string -> option Z.
Variable fromisoformat : string -> option datetime.
Hypothesis fromisoformat_valid :
  forall s d, fromisoformat s = Some d -> valid_datetime d.

Lemma import_entry_consistent (data : list Question) (b b' : QuestionBank)
  (entry : pykey * StateDict) :
  consistent data b ->
  import_entry int_of_str fromisoformat b entry = Ok b' ->
  consistent data b'.
Proof.
  intros Hb. destruct entry as [key state_dict]. unfold import_entry.
  destruct (py_int int_of_str key) as [qid|e]; cbn [res_bind]; [|discriminate].
  destruct (dict_get qid (states b)) as [state|] eqn:Hs;
    cbn [index res_bind]; [|discriminate].
  match goal with |- res_bind ?m _ = _ -> _ =>
    destruct m as [seen|e] eqn:Hseen end; cbn [res_bind]; [|discriminate].
  intros [= <-].
  eapply (consistent_set data b _ qid state _ Hb Hs);
    [reflexivity|reflexivity|reflexivity|].
  cbn [last_seen]. intros d ->.
  destruct (sd_last_seen state_dict) as [str|].
  - destruct (String.eqb str EmptyString).
    + injection Hseen as Hseen. destruct Hb as (_ & _ & _ & Hvalid).
      apply (Hvalid qid state d); [|assumption].
      apply dict_get_In_pair. assumption.
    + destruct (fromisoformat str) as [d'|] eqn:Hparse; [|discriminate].
      injection Hseen as <-. eapply fromisoformat_valid. eassumption.
  - injection Hseen as Hseen. destruct Hb as (_ & _ & _ & Hvalid).
    apply (Hvalid qid state d); [|assumption].
    apply dict_get_In_pair. assumption.
Qed.

(** A bank that [import_state] returns is consistent as well. *)
Lemma import_state_consistent (data : list Question) (snapshot : Snapshot)
  (b : QuestionBank) :
  import_state int_of_str fromisoformat data snapshot = Ok b ->
  consistent data b.
Proof.
  unfold import_state.
  destruct (snap_states snapshot) as [entries|]; cbn [index res_bind];
    [|discriminate].
  assert (Hfold : forall b0 b1,
             consistent data b0 ->
             foldM (import_entry int_of_str fromisoformat) entries b0 = Ok b1 ->
             consistent data b1).
  { induction entries as [|entry entries IH]; cbn [foldM]; intros b0 b1 H0.
    - intros [= <-]. assumption.
    - destruct (import_entry int_of_str fromisoformat b0 entry) as [b0'|e]
        eqn:He; cbn [res_bind]; [|discriminate].
      apply IH. eapply import_entry_consistent; eassumption. }
  destruct (foldM (import_entry int_of_str fromisoformat) entries (__init__ data))
    as [b1|e] eqn:Hb1; cbn [res_bind]; [|discriminate].
  intros [= <-].
  destruct (Hfold _ _ (init_consistent data) Hb1) as (HQ & Hkeys & Hcat & Hvalid).
  unfold consistent. cbn [questions states]. auto.
Qed.

End ImportConsistent.

Lemma answered_at_one_consistent : consistent [q1] answered_at_one.
Proof.
  change answered_at_one
    with (snd (update_question_state 1 true 2 one_pm bank1)).
  apply update_consistent; [apply init_consistent|reflexivity].
Qed.

(** C1, as stated, fails: after one answer the response times of question
    1 are [[2]]; in the bank rebuilt from the snapshot they are empty. *)
Lemma export_import_drops_response_times :
  exists b' state state',
    import_state parse_int parse_isoformat [q1]
      (export_state answered_at_one noon) = Ok b' /\
    dict_get 1%Z (states answered_at_one) = Some state /\
    dict_get 1%Z (states b') = Some state' /\
    time_to_answer state = [2%R] /\
    time_to_answer state' = [] /\
    state' <> state.
Proof.
  eexists. eexists. eexists.
  split.
  { apply (@import_export parse_int parse_isoformat
             parse_isoformat_isoformat [q1] answered_at_one noon
             answered_at_one_consistent). }
  split; [reflexivity|]. split; [reflexivity|].
  split; [reflexivity|]. split; [reflexivity|].
  intros Heq. apply (f_equal time_to_answer) in Heq. discriminate.
Qed.

(** C1, amended. For a bank built by the code over a question set, and
    library parsers that read back what [isoformat] writes,
    [export_state] then [import_state] over the same question set
    succeeds and gives a bank with the same questions, the same category
    statistics and, id by id, the same difficulty, counters, last
    attempts, mastery, category and [last_seen] (microseconds included);
    the response times are not in the snapshot and come back empty. *)
Theorem export_import_round_trip (int_of_str : string -> option Z)
  (fromisoformat : string -> option datetime) (data : list Question)
  (b : QuestionBank) (now : datetime) :
  (forall d, valid_datetime d -> fromisoformat (isoformat d) = Some d) ->
  consistent data b ->
  exists b',
    import_state int_of_str fromisoformat data (export_state b now) = Ok b' /\
    questions b' = questions b /\
    category_stats b' = category_stats b /\
    dict_keys (states b') = dict_keys (states b) /\
    forall qid state,
      dict_get qid (states b) = Some state ->
      exists state',
        dict_get qid (states b') = Some state' /\
        difficulty state' = difficulty state /\
        times_shown state' = times_shown state /\
        times_correct state' = times_correct state /\
        consecutive_wrong state' = consecutive_wrong state /\
        last_5_attempts state' = last_5_attempts state /\
        mastery_level state' = mastery_level state /\
        category state' = category state /\
        last_seen state' = last_seen state /\
        time_to_answer state' = [].
Proof.
  intros Hparse Hb. eexists. split.
  { apply (@import_export int_of_str fromisoformat Hparse data b now Hb). }
  cbn [questions states category_stats].
  split; [reflexivity|]. split; [reflexivity|]. split.
  { unfold dict_keys. rewrite map_map. reflexivity. }
  intros qid state Hget. exists (reimported state). split.
  - rewrite (dict_get_map reimported), Hget. reflexivity.
  - repeat split; reflexivity.
Qed.

Lemma export_import_round_trip_witness :
  exists b',
    import_state parse_int parse_isoformat [q1]
      (export_state answered_at_one noon) = Ok b' /\
    category_stats b' = category_stats answered_at_one /\
    exists state',
      dict_get 1%Z (states b') = Some state' /\
      last_seen state' = Some one_pm /\
      times_shown state' = 1%Z.
Proof.
  destruct (@export_import_round_trip parse_int parse_isoformat [q1]
              answered_at_one noon parse_isoformat_isoformat
              answered_at_one_consistent)
    as (b' & Himp & _ & Hstats & _ & Hstates).
  exists b'. split; [exact Himp|]. split; [exact Hstats|].
  destruct (Hstates 1%Z _ eq_refl)
    as (state' & Hget & _ & Hshown & _ & _ & _ & _ & _ & Hseen & _).
  exists state'. split; [exact Hget|]. split; [exact Hseen|exact Hshown].
Defined.

(** ** Malformed snapshots *)

Lemma foldM_raises {A B} (f : A -> B -> res A) (l : list B) (x : B) (a : A) :
  In x l -> (forall a', exists e, f a' x = Raise e) ->
  exists e, foldM f l a = Raise e.
Proof.
  intros Hin Hx. revert a. induction l as [|y l IH]; intros a.
  - contradiction.
  - cbn [foldM]. destruct Hin as [->|Hin].
    + destruct (Hx a) as [e He]. rewrite He. exists e. reflexivity.
    + destruct (f a y) as [a'|e]; cbn [res_bind]; [auto|eauto].
Qed.

(** C9, as stated, fails: a snapshot without the [category_stats] key is
    imported, and the bank gets freshly initialised statistics. *)
Lemma import_state_without_category_stats :
  import_state parse_int parse_isoformat [q1] no_category_stats = Ok bank1.
Proof. reflexivity. Qed.

(** ** select_questions *)

Lemma fill_exhausted (keys : list Z) (adjusted_n : Z) (selected : list Z)
  (s : rng) :
  remaining keys selected = [] ->
  fill keys adjusted_n selected s = (selected, s).
Proof.
  intros Hrem. funelim (fill keys adjusted_n selected s); try reflexivity.
  congruence.
Qed.

Lemma fill_enough (keys : list Z) (adjusted_n : Z) (selected : list Z)
  (s : rng) :
  (adjusted_n <= len selected)%Z ->
  fill keys adjusted_n selected s = (selected, s).
Proof.
  intros Hlen. funelim (fill keys adjusted_n selected s); try reflexivity;
    apply Z.ltb_lt in Heq; lia.
Qed.

Lemma int_of_float_floor (x : R) (k : Z) :
  (0 <= x)%R -> (IZR k <= x < IZR k + 1)%R -> int_of_float x = k.
Proof.
  intros Hx [Hlo Hhi]. unfold int_of_float.
  destruct (Rle_dec 0 x) as [_|Hn]; [|contradiction].
  symmetry. apply Int_part_spec. lra.
Qed.

Lemma sample_zero {A} (pop : list A) (s : rng) :
  sample pop (Z.min (len pop) 0) s = (Ok [], s).
Proof.
  assert (Hmin : Z.min (len pop) 0 = 0%Z) by (unfold len; lia).
  rewrite Hmin. unfold sample.
  replace ((0 <? 0)%Z || (len pop <? 0)%Z) with false.
  - reflexivity.
  - symmetry. apply orb_false_iff. split; [reflexivity|].
    apply Z.ltb_ge. unfold len. lia.
Qed.

(** The half of C3 that holds: when the adjusted count is 0 and scoring
    raises nothing, the selection is empty and no draw is consumed. *)
Lemma select_questions_adjusted_zero (b : QuestionBank) (n : Z)
  (now : datetime) (s : rng) (scores : list (Z * R)) (untested : list Z) :
  adjusted_count b n = Ok 0%Z ->
  question_scores b now = Ok scores ->
  untested_ids b = Ok untested ->
  select_questions b n now s = (Ok [], s).
Proof.
  intros Hadj Hscores Huntested.
  unfold select_questions, bind, lift, ret.
  rewrite Hadj, Hscores, Huntested.
  assert (Hq : forall share, int_of_float (IZR 0 * share) = 0%Z).
  { intros share. apply int_of_float_floor; lra. }
  rewrite !Hq, !sample_zero. cbn [app].
  rewrite fill_enough by (unfold len; simpl; lia).
  reflexivity.
Qed.

(** C3. On a bank without questions [select_questions] does not return
    the empty selection: line 79 divides by [len(self.states)] and raises
    [ZeroDivisionError], whatever [n], the clock and the draws are.
    [start_round] passes the exception on and leaves the session as it
    was. The statistics of the same bank are computed without error. *)
Theorem select_questions_empty_bank (n : Z) (now : datetime) (s : rng)
  (t0 tq : R) :
  select_questions empty_bank n now s = (Raise ZeroDivisionError, s) /\
  start_round n now t0 tq s (new_session empty_bank t0 tq)
  = (Raise ZeroDivisionError, new_session empty_bank t0 tq) /\
  get_category_stats empty_bank = Ok [].
Proof.
  assert (Hsel : select_questions empty_bank n now s
                 = (Raise ZeroDivisionError, s)).
  { unfold select_questions, bind, lift.
    change (adjusted_count empty_bank n) with (@Raise Z ZeroDivisionError).
    reflexivity. }
  split; [exact Hsel|]. split.
  - unfold start_round. cbn [bank new_session]. rewrite Hsel. reflexivity.
  - reflexivity.
Qed.

Lemma adjusted_count_bank1 : adjusted_count bank1 4 = Ok 4%Z.
Proof.
  unfold adjusted_count, truediv, gt_3, sum_R, len. simpl.
  destruct (Rlt_dec 3 1) as [Hlt|_]; [lra|]. simpl.
  f_equal. apply int_of_float_floor; lra.
Qed.

Lemma question_scores_bank1 (now : datetime) :
  exists score, question_scores bank1 now = Ok [(1%Z, score)].
Proof.
  eexists. unfold question_scores, calculate_pattern_score, calculate_decay,
    calculate_category_difficulty. simpl. reflexivity.
Qed.

Lemma sample_singleton (x : Z) (s : rng) :
  sample [x] 1 s = (Ok [x], snd (next s)).
Proof.
  unfold sample.
  change ((1 <? 0)%Z || (len [x] <? 1)%Z) with false. cbv iota.
  change (Z.to_nat 1) with 1%nat.
  unfold sample_aux, bind, draw, ret. cbn [fst snd List.length].
  rewrite Nat.mod_1_r. reflexivity.
Qed.

Lemma shuffle_pair_same (x : Z) (s : rng) :
  fst (shuffle [x; x] s) = Ok [x; x].
Proof.
  unfold shuffle, sample_aux, bind, draw, ret. cbn [List.length fst snd].
  set (r := fst (next s)).
  assert (Hr : (r mod 2 = 0 \/ r mod 2 = 1)%nat).
  { pose proof (Nat.mod_upper_bound r 2). lia. }
  destruct Hr as [-> | ->]; cbn [remove_nth firstn skipn app nth List.length];
    rewrite Nat.mod_1_r; reflexivity.
Qed.

(** C2. On a bank with one question that was never shown,
    [select_questions 4] returns that question twice, whatever the draws:
    the id is both the high-priority candidate and an untested one, and
    the two samples are concatenated as they are. *)
Theorem select_questions_duplicate (now : datetime) (s : rng) :
  fst (select_questions bank1 4 now s) = Ok [1%Z; 1%Z] /\
  ~ NoDup [1%Z; 1%Z].
Proof.
  split.
  - destruct (question_scores_bank1 now) as [score Hscore].
    unfold select_questions, bind, lift, ret.
    rewrite adjusted_count_bank1, Hscore.
    assert (H6 : int_of_float (IZR 4 * 0.6) = 2%Z)
      by (apply int_of_float_floor; lra).
    assert (H3 : int_of_float (IZR 4 * 0.3) = 1%Z)
      by (apply int_of_float_floor; lra).
    assert (H1 : int_of_float (IZR 4 * 0.1) = 0%Z)
      by (apply int_of_float_floor; lra).
    rewrite H6, H3, H1.
    change (untested_ids bank1) with (Ok (A := list Z) [1%Z]).
    change (slice_to 2 [(1%Z, score)]) with [(1%Z, score)].
    change (slice_to 4) with (@firstn Z 4).
    cbn [map fst].
    change (Z.min (len [1%Z]) 2) with 1%Z.
    change (Z.min (len [1%Z]) 1) with 1%Z.
    rewrite !sample_singleton.
    change (dict_keys (questions bank1)) with [1%Z].
    cbn [filter mem existsb key_eqb Key_Z Z.eqb Pos.eqb negb andb orb].
    rewrite sample_zero. cbn [app].
    rewrite fill_exhausted by reflexivity.
    destruct (shuffle [1%Z; 1%Z] (snd (next (snd (next s))))) as [r s'] eqn:E.
    pose proof (shuffle_pair_same 1%Z (snd (next (snd (next s))))) as Hsh.
    rewrite E in Hsh. cbn [fst] in Hsh. subst r. reflexivity.
  - intros Hnd. inversion Hnd as [|? ? Hnin _]. apply Hnin. left. reflexivity.
Qed.

(** *** What [select_questions] does guarantee *)

Lemma firstn_In {A} (n : nat) (l : list A) (x : A) :
  In x (firstn n l) -> In x l.
Proof.
  intros Hin. rewrite <- (firstn_skipn n l). apply in_or_app. auto.
Qed.

Lemma skipn_In {A} (n : nat) (l : list A) (x : A) :
  In x (skipn n l) -> In x l.
Proof.
  intros Hin. rewrite <- (firstn_skipn n l). apply in_or_app. auto.
Qed.

Lemma remove_nth_incl {A} (i : nat) (l : list A) : incl (remove_nth i l) l.
Proof.
  unfold remove_nth. intros x Hin. apply in_app_or in Hin.
  destruct Hin as [Hin|Hin].
  - apply (firstn_In _ _ _ Hin).
  - apply (skipn_In _ _ _ Hin).
Qed.

Lemma sample_aux_incl {A} (k : nat) :
  forall (pop : list A) (s : rng),
  exists l s', sample_aux pop k s = (Ok l, s') /\ incl l pop.
Proof.
  induction k as [|k IH]; intros pop s.
  - exists [], s. split; [destruct pop; reflexivity|]. intros x [].
  - destruct pop as [|x0 pop].
    + exists [], s. split; [reflexivity|]. intros x [].
    + cbn [sample_aux]. unfold bind, draw, ret.
      set (i := (fst (next s) mod List.length (x0 :: pop))%nat).
      destruct (IH (remove_nth i (x0 :: pop)) (snd (next s)))
        as (rest & s' & Hrest & Hincl).
      rewrite Hrest. eexists. eexists. split; [reflexivity|].
      intros x [<-|Hin].
      * apply nth_In. apply Nat.mod_upper_bound. discriminate.
      * apply (remove_nth_incl i). apply Hincl. assumption.
Qed.

Lemma sample_incl {A} (pop : list A) (k : Z) (s s' : rng) (l : list A) :
  sample pop k s = (Ok l, s') -> incl l pop.
Proof.
  unfold sample. destruct ((k <? 0)%Z || (len pop <? k)%Z).
  - discriminate.
  - destruct (sample_aux_incl (Z.to_nat k) pop s) as (l0 & s0 & H0 & Hincl).
    rewrite H0. intros [= <- _]. assumption.
Qed.

Lemma fill_incl (keys : list Z) (adjusted_n : Z) (selected : list Z)
  (s : rng) (x : Z) :
  In x (fst (fill keys adjusted_n selected s)) ->
  In x selected \/ In x keys.
Proof.
  funelim (fill keys adjusted_n selected s); cbn [fst]; auto.
  intros Hin. destruct (H _ Hin) as [Hsel|Hkeys]; [|auto].
  apply in_app_or in Hsel. destruct Hsel as [Hsel|[<-|[]]]; [auto|].
  right. pose proof (choice_In (fst (next s)) k0 ks) as Hc.
  rewrite <- Hrem in Hc. unfold remaining in Hc.
  apply filter_In in Hc. tauto.
Qed.

Lemma insert_desc_In (x y : Z * R) (l : list (Z * R)) :
  In x (insert_desc y l) -> x = y \/ In x l.
Proof.
  induction l as [|z l IH]; simpl.
  - intros [<-|[]]. auto.
  - destruct (Rlt_dec (snd y) (snd z)); simpl.
    + intros [<-|Hin]; [auto|]. destruct (IH Hin); auto.
    + intros [<-|[<-|Hin]]; auto.
Qed.

Lemma sort_desc_In (x : Z * R) (l : list (Z * R)) :
  In x (sort_desc l) -> In x l.
Proof.
  induction l as [|y l IH]; simpl; [auto|].
  intros Hin. apply insert_desc_In in Hin. destruct Hin as [->|Hin]; auto.
Qed.

Lemma mapM_keys {A B} (f : A -> res (A * B)) (l : list A) (out : list (A * B)) :
  (forall a r, f a = Ok r -> fst r = a) ->
  mapM f l = Ok out -> map fst out = l.
Proof.
  intros Hf. revert out. induction l as [|a l IH]; simpl; intros out.
  - intros [= <-]. reflexivity.
  - destruct (f a) as [r|e] eqn:Hfa; simpl; [|discriminate].
    destruct (mapM f l) as [rs|e]; simpl; [|discriminate].
    intros [= <-]. simpl. rewrite (Hf _ _ Hfa), (IH rs eq_refl). reflexivity.
Qed.

Lemma question_scores_keys (b : QuestionBank) (now : datetime)
  (scores : list (Z * R)) (x : Z * R) :
  question_scores b now = Ok scores -> In x scores ->
  In (fst x) (dict_keys (questions b)).
Proof.
  unfold question_scores. intros Hs Hin.
  match type of Hs with res_bind (mapM ?f ?l) _ = _ =>
    destruct (mapM f l) as [raw|e] eqn:Hraw end; simpl in Hs; [|discriminate].
  injection Hs as <-. apply sort_desc_In in Hin.
  apply mapM_keys in Hraw.
  - rewrite <- Hraw. apply in_map. assumption.
  - intros a r. destruct (calculate_pattern_score b a now); simpl; [|discriminate].
    destruct (index (dict_get a (questions b))) as [q|]; simpl; [|discriminate].
    destruct (calculate_category_difficulty b (q_category q)); simpl;
      [|discriminate].
    intros [= <-]. reflexivity.
Qed.

Lemma untested_ids_keys (b : QuestionBank) (untested : list Z) (x : Z) :
  untested_ids b = Ok untested -> In x untested ->
  In x (dict_keys (questions b)).
Proof.
  unfold untested_ids. intros Hu Hin.
  match type of Hu with res_bind (mapM ?f ?l) _ = _ =>
    destruct (mapM f l) as [raw|e] eqn:Hraw end; simpl in Hu; [|discriminate].
  injection Hu as <-. apply in_map_iff in Hin.
  destruct Hin as (p & <- & Hp). apply filter_In in Hp. destruct Hp as [Hp _].
  apply mapM_keys in Hraw.
  - rewrite <- Hraw. apply in_map. assumption.
  - intros a r. destruct (index (dict_get a (states b))); simpl; [|discriminate].
    intros [= <-]. reflexivity.
Qed.

Lemma slice_to_incl {A} (k : Z) (l : list A) : incl (slice_to k l) l.
Proof.
  unfold slice_to. intros x Hin.
  destruct (0 <=? k)%Z; apply (firstn_In _ _ _ Hin).
Qed.

Lemma slice_to_length {A} (k : Z) (l : list A) :
  (0 <= k)%Z -> (len (slice_to k l) <= k)%Z.
Proof.
  intros Hk. unfold slice_to, len.
  destruct (Z.leb_spec 0 k); [|lia].
  rewrite length_firstn. lia.
Qed.

(** The adjusted count never exceeds a non-negative [n]. *)
Lemma adjusted_count_le (b : QuestionBank) (n adjusted_n : Z) :
  (0 <= n)%Z -> adjusted_count b n = Ok adjusted_n ->
  (0 <= adjusted_n <= n)%Z.
Proof.
  intros Hn. unfold adjusted_count, truediv.
  destruct (Z.eqb_spec (len (states b)) 0) as [|Hne]; simpl; [discriminate|].
  intros [= <-].
  set (hard := len (filter gt_3 (dict_values (states b)))).
  assert (Hhard : (0 <= hard <= len (states b))%Z).
  { unfold hard, len, dict_values.
    pose proof (filter_length_le gt_3 (map snd (states b))) as Hle.
    rewrite length_map in Hle. lia. }
  assert (Hlen : (0 < len (states b))%Z) by (unfold len in *; lia).
  set (f := (IZR hard / IZR (len (states b)))%R).
  assert (Hf : (0 <= f <= 1)%R).
  { unfold f. apply IZR_lt in Hlen.
    destruct Hhard as [H0 H1]. apply IZR_le in H0, H1.
    split.
    - apply Rmult_le_pos; [assumption|].
      left. apply Rinv_0_lt_compat. assumption.
    - apply Rmult_le_reg_r with (IZR (len (states b))); [assumption|].
      unfold Rdiv. rewrite Rmult_assoc, Rinv_l by lra. lra. }
  set (x := (IZR n * (1 - f * 0.3))%R).
  assert (Hx : (0 <= x <= IZR n)%R).
  { unfold x. apply IZR_le in Hn. split; nra. }
  unfold int_of_float. destruct (Rle_dec 0 x) as [_|Hneg]; [|lra].
  destruct (base_Int_part x) as [Hlo Hhi].
  split.
  - apply le_IZR. apply Rnot_lt_le. intros Hlt.
    assert (IZR (Int_part x) <= -1)%R.
    { apply IZR_le. apply lt_IZR in Hlt. lia. }
    lra.
  - apply le_IZR. lra.
Qed.

(** For [n >= 0], a selection that is returned holds at most [n] ids, and
    each of them is an id of the bank. *)
Lemma select_questions_bounds (b : QuestionBank) (n : Z) (now : datetime)
  (s s' : rng) (ids : list Z) :
  (0 <= n)%Z ->
  select_questions b n now s = (Ok ids, s') ->
  (len ids <= n)%Z /\ incl ids (dict_keys (questions b)).
Proof.
  intros Hn. unfold select_questions, bind, lift, ret.
  destruct (adjusted_count b n) as [adjusted_n|e] eqn:Hadj; [|discriminate].
  destruct (adjusted_count_le b n adjusted_n Hn Hadj) as [Hadj0 Hadjn].
  destruct (question_scores b now) as [scores|e] eqn:Hscores; [|discriminate].
  destruct (untested_ids b) as [untested|e] eqn:Hunt; [|discriminate].
  set (hp := map fst (slice_to (int_of_float (IZR adjusted_n * 0.6)) scores)).
  set (pool := filter _ (dict_keys (questions b))).
  destruct (sample hp _ s) as [[s1|e] r1] eqn:E1; [|discriminate].
  destruct (sample untested _ r1) as [[s2|e] r2] eqn:E2; [|discriminate].
  destruct (sample pool _ r2) as [[s3|e] r3] eqn:E3; [|discriminate].
  destruct (fill (dict_keys (questions b)) adjusted_n (s1 ++ s2 ++ s3) r3)
    as [filled r4] eqn:E4.
  destruct (shuffle filled r4) as [[shuffled|e] r5] eqn:E5; [|discriminate].
  intros [= <- _]. split.
  - pose proof (slice_to_length _ shuffled Hadj0). lia.
  - intros x Hx. apply slice_to_incl in Hx.
    unfold shuffle in E5.
    destruct (sample_aux_incl (List.length filled) filled r4)
      as (l5 & r5' & H5 & Hincl5).
    rewrite H5 in E5. injection E5 as <- _.
    apply Hincl5 in Hx.
    assert (Hfill : In x (fst (fill (dict_keys (questions b)) adjusted_n
                                 (s1 ++ s2 ++ s3) r3)))
      by (rewrite E4; exact Hx).
    apply fill_incl in Hfill. destruct Hfill as [Hsel|Hkeys]; [|assumption].
    apply in_app_or in Hsel. destruct Hsel as [H1|Hsel].
    + apply (sample_incl _ _ _ _ _ E1) in H1. unfold hp in H1.
      apply in_map_iff in H1. destruct H1 as (p & <- & Hp).
      apply slice_to_incl in Hp.
      eapply question_scores_keys; eassumption.
    + apply in_app_or in Hsel. destruct Hsel as [H2|H3].
      * apply (sample_incl _ _ _ _ _ E2) in H2.
        eapply untested_ids_keys; eassumption.
      * apply (sample_incl _ _ _ _ _ E3) in H3. unfold pool in H3.
        apply filter_In in H3. tauto.
Qed.

(* ================================================================== *)
(** * Further properties of the question bank *)

(** ** What every learning state keeps *)

(** The ranges and counts that [QuestionState()] starts with and that
    [update_question_state] maintains. *)
Definition state_ok (st : QuestionState) : Prop :=
  (1 <= difficulty st)%R /\
  (0 <= mastery_level st <= 1)%R /\
  (0 <= times_correct st)%Z /\
  (0 <= consecutive_wrong st)%Z /\
  (times_correct st + consecutive_wrong st <= times_shown st)%Z /\
  len (time_to_answer st) = times_shown st /\
  len (last_5_attempts st) = Z.min 5 (times_shown st).

Definition states_ok (b : QuestionBank) : Prop :=
  forall qid st, In (qid, st) (states b) -> state_ok st.

Lemma new_state_ok (c : string) : state_ok (new_state c).
Proof.
  unfold state_ok, new_state, len. simpl. repeat split; try lra; lia.
Qed.

Lemma record_attempt_ok (st : QuestionState) (correct : bool) (t : R)
  (now : datetime) :
  state_ok st -> state_ok (record_attempt st correct t now).
Proof.
  intros (Hd & Hm & Hc & Hw & Hs & Ht & Ha).
  unfold state_ok, record_attempt, len in *. cbn [difficulty mastery_level
    times_correct consecutive_wrong times_shown time_to_answer last_5_attempts].
  repeat split; try assumption; try lia; try (destruct Hm; assumption).
  - rewrite length_app. simpl. lia.
  - rewrite evict_oldest.
    destruct (Nat.ltb_spec (List.length (last_5_attempts st)) 5).
    + rewrite length_app. simpl. lia.
    + rewrite length_app. simpl.
      destruct (last_5_attempts st); simpl in *; lia.
Qed.

Lemma adjust_mastery_ok (st : QuestionState) (correct : bool) (t : R)
  (now : datetime) :
  state_ok st ->
  state_ok (adjust_mastery (record_attempt st correct t now) correct).
Proof.
  intros Hst. pose proof (record_attempt_ok st correct t now Hst) as Hrec.
  destruct Hst as (Hd & Hm & Hc & Hw & Hs & Ht & Ha).
  destruct Hrec as (Hd' & Hm' & Hc' & Hw' & Hs' & Ht' & Ha').
  unfold state_ok, adjust_mastery.
  destruct correct;
    cbn [difficulty mastery_level times_correct consecutive_wrong
         times_shown time_to_answer last_5_attempts] in *.
  - repeat split; try assumption; try (cbn [record_attempt times_correct
      times_shown consecutive_wrong] in *; lia).
    + apply Rmax_l.
    + apply Rmin_glb; lra.
    + apply Rmin_l.
  - repeat split; try assumption; try (cbn [record_attempt times_correct
      times_shown consecutive_wrong] in *; lia).
    + assert (0 <= IZR (consecutive_wrong (record_attempt st false t now) + 1))%R
        by (apply IZR_le; lia).
      lra.
    + apply Rmax_l.
    + apply Rmax_lub; lra.
Qed.

Lemma init_states_ok (data : list Question) : states_ok (__init__ data).
Proof.
  intros qid st Hin. unfold __init__ in Hin. cbn [states] in Hin.
  apply in_map_iff in Hin. destruct Hin as (kq & Heq & _).
  injection Heq as _ <-. apply new_state_ok.
Qed.

Lemma update_states_ok (b : QuestionBank) (qid : Z) (correct : bool) (t : R)
  (now : datetime) :
  states_ok b -> states_ok (snd (update_question_state qid correct t now b)).
Proof.
  intros Hb. run_update.
  destruct (dict_get qid (states b)) as [state|] eqn:Hs; simpl;
    [|assumption].
  destruct (dict_get qid (questions b)) as [q|]; simpl; [|assumption].
  assert (Hstate : state_ok state).
  { apply (Hb qid). apply dict_get_In_pair. assumption. }
  destruct (dict_get (q_category q) (category_stats b)); simpl.
  - intros k st Hin. rewrite dict_set_twice in Hin.
    apply In_dict_set in Hin. destruct Hin as [Hin|[_ ->]]; [eauto|].
    apply adjust_mastery_ok. assumption.
  - intros k st Hin. apply In_dict_set in Hin.
    destruct Hin as [Hin|[_ ->]]; [eauto|].
    apply record_attempt_ok. assumption.
Qed.

(** A call of [update_question_state], with the clock readings it takes. *)
Record update_call : Type := {
  u_qid : Z;
  u_correct : bool;
  u_time_taken : R;
  u_now : datetime
}.

(** The bank after the calls, each made on the bank as the previous one
    left it, whether that one returned or raised. *)
Definition after_updates (calls : list update_call) (b : QuestionBank)
  : QuestionBank :=
  fold_left
    (fun b c =>
       snd (update_question_state (u_qid c) (u_correct c) (u_time_taken c)
              (u_now c) b))
    calls b.

Lemma after_updates_states_ok (calls : list update_call) (b : QuestionBank) :
  states_ok b -> states_ok (after_updates calls b).
Proof.
  revert b. induction calls as [|c calls IH]; intros b Hb; [exact Hb|].
  apply IH, update_states_ok, Hb.
Qed.

(** X1. In a bank built by [__init__] and changed since only by calls of
    [update_question_state], whatever their arguments and whether they
    returned or raised, every state has a difficulty of at least 1, a
    mastery within [[0, 1]], non-negative counters with
    [times_correct + consecutive_wrong <= times_shown], one response time
    per showing and [min 5 times_shown] last attempts. (A bank that
    [import_state] built need not: a snapshot holds no response times.) *)
Theorem update_question_state_keeps_states_ok (data : list Question)
  (calls : list update_call) (qid : Z) (st : QuestionState) :
  In (qid, st) (states (after_updates calls (__init__ data))) ->
  (1 <= difficulty st)%R /\
  (0 <= mastery_level st <= 1)%R /\
  (0 <= times_correct st)%Z /\
  (0 <= consecutive_wrong st)%Z /\
  (times_correct st + consecutive_wrong st <= times_shown st)%Z /\
  len (time_to_answer st) = times_shown st /\
  len (last_5_attempts st) = Z.min 5 (times_shown st).
Proof.
  intros Hin.
  apply (after_updates_states_ok calls (__init__ data) (init_states_ok data)
           qid st Hin).
Qed.

Lemma update_question_state_keeps_states_ok_witness :
  exists st,
    dict_get 1%Z
      (states (after_updates
                 [{| u_qid := 1; u_correct := true; u_time_taken := 2;
                     u_now := noon |};
                  {| u_qid := 7; u_correct := false; u_time_taken := 3;
                     u_now := one_pm |}]
                 (__init__ [q1])))
    = Some st /\
    (1 <= difficulty st)%R /\ (0 <= mastery_level st <= 1)%R /\
    len (time_to_answer st) = 1%Z /\
    len (last_5_attempts st) = 1%Z.
Proof.
  eexists. split; [reflexivity|].
  destruct (update_question_state_keeps_states_ok [q1]
              [{| u_qid := 1; u_correct := true; u_time_taken := 2;
                  u_now := noon |};
               {| u_qid := 7; u_correct := false; u_time_taken := 3;
                  u_now := one_pm |}] 1%Z _ (or_introl eq_refl))
    as (Hd & Hm & _ & _ & _ & Ht & Ha).
  split; [exact Hd|]. split; [exact Hm|]. split; [exact Ht|exact Ha].
Defined.

(** ** Answering the same question again and again *)

(** [update_question_state qid correct t] called once per element of
    [inputs], each with its own elapsed time and clock reading. *)
Fixpoint update_repeatedly (qid : Z) (correct : bool)
  (inputs : list (R * datetime)) : M QuestionBank unit :=
  match inputs with
  | [] => ret tt
  | (t, now) :: rest =>
      bind (update_question_state qid correct t now)
           (fun _ => update_repeatedly qid correct rest)
  end.

Lemma len_cons {A} (x : A) (l : list A) : len (x :: l) = (1 + len l)%Z.
Proof. unfold len. cbn [List.length]. lia. Qed.

(** X2. [k] wrong answers in a row to a question whose lookups succeed
    all return normally; they add [k] to [consecutive_wrong],
    [times_shown] and the category's [total_attempts] and leave
    [times_correct] and [correct_attempts] alone. From a mastery that is
    not negative the mastery never rises and stays at or above 0; and
    with [c >= 0] wrong answers in a row before, the difficulty rises by
    at least [2 k + c k + k (k - 1) / 2]: every miss costs more than the
    one before. *)
Theorem misses_in_a_row (inputs : list (R * datetime)) :
  forall b qid state q cs,
    dict_get qid (states b) = Some state ->
    dict_get qid (questions b) = Some q ->
    dict_get (q_category q) (category_stats b) = Some cs ->
    (0 <= mastery_level state)%R ->
    (0 <= consecutive_wrong state)%Z ->
    exists b' state' cs',
      update_repeatedly qid false inputs b = (Ok tt, b') /\
      dict_get qid (states b') = Some state' /\
      dict_get qid (questions b') = Some q /\
      dict_get (q_category q) (category_stats b') = Some cs' /\
      consecutive_wrong state' = (consecutive_wrong state + len inputs)%Z /\
      times_shown state' = (times_shown state + len inputs)%Z /\
      times_correct state' = times_correct state /\
      total_attempts cs' = (total_attempts cs + len inputs)%Z /\
      correct_attempts cs' = correct_attempts cs /\
      (0 <= mastery_level state' <= mastery_level state)%R /\
      (difficulty state + 2 * IZR (len inputs)
       + IZR (consecutive_wrong state) * IZR (len inputs)
       + IZR (len inputs) * (IZR (len inputs) - 1) / 2
       <= difficulty state')%R.
Proof.
  induction inputs as [|[t now] inputs IH];
    intros b qid state q cs Hs Hq Hc Hm Hcw.
  - exists b, state, cs. cbn [update_repeatedly]. unfold ret, len. simpl.
    repeat split; try assumption; try lia; lra.
  - cbn [update_repeatedly]. unfold bind.
    rewrite (update_question_state_ok b qid false t now state q cs Hs Hq Hc).
    set (s1 := adjust_mastery (record_attempt state false t now) false).
    set (c1 := count_attempt cs false).
    destruct (IH (updated_bank b qid false t now state q cs) qid s1 q c1)
      as (b' & state' & cs' & Hrun & Hs' & Hq' & Hc' & Hw & Hshown & Hcorr
          & Htot & Hcat & Hmast & Hdiff).
    + apply dict_get_set_same.
    + exact Hq.
    + apply dict_get_set_same.
    + apply Rmax_l.
    + cbn. lia.
    + exists b', state', cs'. rewrite len_cons, plus_IZR.
      split; [exact Hrun|]. split; [exact Hs'|]. split; [exact Hq'|].
      split; [exact Hc'|].
      unfold s1, c1 in *.
      cbn [adjust_mastery record_attempt count_attempt consecutive_wrong
           times_shown times_correct total_attempts correct_attempts
           mastery_level difficulty] in *.
      assert (Hk : (0 <= IZR (len inputs))%R)
        by (apply IZR_le; unfold len; lia).
      assert (Hc0 : (0 <= IZR (consecutive_wrong state))%R)
        by (apply IZR_le; exact Hcw).
      repeat split; try lia.
      * lra.
      * destruct Hmast as [_ Hle].
        apply (Rle_trans _ _ _ Hle). apply Rmax_lub; lra.
      * rewrite plus_IZR in Hdiff. nra.
Qed.

Lemma misses_in_a_row_witness :
  exists b' state',
    update_repeatedly 1 false [(2%R, noon); (3%R, one_pm); (4%R, next_noon)]
      bank1 = (Ok tt, b') /\
    dict_get 1%Z (states b') = Some state' /\
    consecutive_wrong state' = 3%Z /\
    (10 <= difficulty state')%R.
Proof.
  destruct (misses_in_a_row
              [(2%R, noon); (3%R, one_pm); (4%R, next_noon)]
              bank1 1%Z (new_state "tones") q1
              {| total_attempts := 0; correct_attempts := 0 |}
              eq_refl eq_refl eq_refl (Rle_refl 0) (Z.le_refl 0))
    as (b' & state' & cs' & Hrun & Hs & _ & _ & Hw & _ & _ & _ & _ & _ & Hd).
  exists b', state'. split; [exact Hrun|]. split; [exact Hs|].
  split; [exact Hw|].
  unfold len in Hd. simpl in Hd. lra.
Defined.

(** X3. [k] correct answers in a row to a question whose lookups succeed
    all return normally. From a difficulty of at least 1 and a mastery of
    at most 1, the difficulty never rises and stays at or above 1, and
    the mastery never falls and stays at or below 1; the answers add [k]
    to [times_shown], [times_correct] and both counters of the category,
    and any of them ends the run of wrong answers. *)
Theorem hits_in_a_row (inputs : list (R * datetime)) :
  forall b qid state q cs,
    dict_get qid (states b) = Some state ->
    dict_get qid (questions b) = Some q ->
    dict_get (q_category q) (category_stats b) = Some cs ->
    (1 <= difficulty state)%R ->
    (mastery_level state <= 1)%R ->
    exists b' state' cs',
      update_repeatedly qid true inputs b = (Ok tt, b') /\
      dict_get qid (states b') = Some state' /\
      dict_get qid (questions b') = Some q /\
      dict_get (q_category q) (category_stats b') = Some cs' /\
      times_shown state' = (times_shown state + len inputs)%Z /\
      times_correct state' = (times_correct state + len inputs)%Z /\
      total_attempts cs' = (total_attempts cs + len inputs)%Z /\
      correct_attempts cs' = (correct_attempts cs + len inputs)%Z /\
      (inputs <> [] -> consecutive_wrong state' = 0%Z) /\
      (1 <= difficulty state' <= difficulty state)%R /\
      (mastery_level state <= mastery_level state' <= 1)%R.
Proof.
  induction inputs as [|[t now] inputs IH];
    intros b qid state q cs Hs Hq Hc Hd Hm.
  - exists b, state, cs. cbn [update_repeatedly]. unfold ret, len. simpl.
    repeat split; try assumption; try lia; try lra.
    intros H. contradiction.
  - cbn [update_repeatedly]. unfold bind.
    rewrite (update_question_state_ok b qid true t now state q cs Hs Hq Hc).
    set (s1 := adjust_mastery (record_attempt state true t now) true).
    set (c1 := count_attempt cs true).
    destruct (IH (updated_bank b qid true t now state q cs) qid s1 q c1)
      as (b' & state' & cs' & Hrun & Hs' & Hq' & Hc' & Hshown & Hcorr
          & Htot & Hcat & Hw & Hdiff & Hmast).
    + apply dict_get_set_same.
    + exact Hq.
    + apply dict_get_set_same.
    + apply Rmax_l.
    + apply Rmin_l.
    + exists b', state', cs'. rewrite len_cons.
      split; [exact Hrun|]. split; [exact Hs'|]. split; [exact Hq'|].
      split; [exact Hc'|].
      unfold s1, c1 in *.
      cbn [adjust_mastery record_attempt count_attempt consecutive_wrong
           times_shown times_correct total_attempts correct_attempts
           mastery_level difficulty] in *.
      split; [lia|]. split; [lia|]. split; [lia|]. split; [lia|].
      split.
      { intros _. destruct inputs as [|i inputs'].
        - cbn [update_repeatedly] in Hrun. unfold ret in Hrun.
          injection Hrun as <-. unfold updated_bank in Hs'.
          cbn [states] in Hs'.
          rewrite dict_get_set_same in Hs'. injection Hs' as <-. reflexivity.
        - apply Hw. discriminate. }
      split.
      * split; [apply Hdiff|].
        apply (Rle_trans _ _ _ (proj2 Hdiff)). apply Rmax_lub; lra.
      * split; [|apply Hmast].
        apply Rle_trans with (Rmin 1 (mastery_level state + 0.1));
          [apply Rmin_glb; lra|apply Hmast].
Qed.

Lemma hits_in_a_row_witness :
  exists b' state',
    update_repeatedly 1 true [(2%R, noon); (3%R, one_pm)] bank1 = (Ok tt, b') /\
    dict_get 1%Z (states b') = Some state' /\
    difficulty state' = 1%R /\
    times_correct state' = 2%Z.
Proof.
  destruct (hits_in_a_row [(2%R, noon); (3%R, one_pm)]
              bank1 1%Z (new_state "tones") q1
              {| total_attempts := 0; correct_attempts := 0 |}
              eq_refl eq_refl eq_refl (Rle_refl 1) Rle_0_1)
    as (b' & state' & cs' & Hrun & Hs & _ & _ & _ & Hcorr & _ & _ & _ & Hd & _).
  exists b', state'. split; [exact Hrun|]. split; [exact Hs|].
  split; [|exact Hcorr].
  simpl in Hd. lra.
Defined.

(** ** When [update_question_state] raises *)

(** X4. [update_question_state] returns normally exactly when the id has a
    state and a question and the question's category has statistics. With
    an unknown id it raises [KeyError] and leaves the bank as it was.
    With a known id whose category has no statistics it raises
    [KeyError] after the first half of the update: the showing, the
    response time, the attempt (appended to [last_5_attempts], the
    oldest of five dropped) and [last_seen] are recorded, while mastery,
    difficulty, [times_correct] and [consecutive_wrong] and all category
    statistics stay as they were. *)
Theorem update_question_state_errors (b : QuestionBank) (qid : Z)
  (correct : bool) (t : R) (now : datetime) :
  (fst (update_question_state qid correct t now b) = Ok tt <->
   exists state q cs,
     dict_get qid (states b) = Some state /\
     dict_get qid (questions b) = Some q /\
     dict_get (q_category q) (category_stats b) = Some cs) /\
  (dict_get qid (states b) = None \/ dict_get qid (questions b) = None ->
   update_question_state qid correct t now b = (Raise KeyError, b)) /\
  (forall state q,
      dict_get qid (states b) = Some state ->
      dict_get qid (questions b) = Some q ->
      dict_get (q_category q) (category_stats b) = None ->
      exists b' state',
        update_question_state qid correct t now b = (Raise KeyError, b') /\
        questions b' = questions b /\
        category_stats b' = category_stats b /\
        dict_get qid (states b') = Some state' /\
        times_shown state' = (times_shown state + 1)%Z /\
        last_seen state' = Some now /\
        time_to_answer state' = time_to_answer state ++ [t] /\
        last_5_attempts state'
        = (if (List.length (last_5_attempts state) <? 5)%nat
           then last_5_attempts state ++ [correct]
           else tl (last_5_attempts state) ++ [correct]) /\
        mastery_level state' = mastery_level state /\
        difficulty state' = difficulty state /\
        times_correct state' = times_correct state /\
        consecutive_wrong state' = consecutive_wrong state).
Proof.
  split; [|split].
  - run_update.
    destruct (dict_get qid (states b)) as [state|] eqn:Hs; simpl.
    + destruct (dict_get qid (questions b)) as [q|] eqn:Hq; simpl.
      * destruct (dict_get (q_category q) (category_stats b)) as [cs|] eqn:Hc;
          simpl.
        -- split; [intros _; eauto 7|reflexivity].
        -- split; [discriminate|].
           intros (s' & q' & cs' & [= <-] & [= <-] & Hcs). congruence.
      * split; [discriminate|].
        intros (s' & q' & cs' & _ & Hq' & _). discriminate.
    + split; [discriminate|].
      intros (s' & q' & cs' & Hs' & _). discriminate.
  - run_update. intros [Hnone|Hnone].
    + rewrite Hnone. reflexivity.
    + destruct (dict_get qid (states b)); simpl; [|reflexivity].
      rewrite Hnone. reflexivity.
  - intros state q Hs Hq Hc. run_update. rewrite Hs, Hq. simpl. rewrite Hc.
    eexists. eexists. split; [reflexivity|]. cbn [questions category_stats states].
    split; [reflexivity|]. split; [reflexivity|].
    split; [apply dict_get_set_same|].
    cbn [record_attempt times_shown last_seen time_to_answer last_5_attempts
         mastery_level difficulty times_correct consecutive_wrong].
    rewrite evict_oldest. repeat split; reflexivity.
Qed.

(** A bank whose statistics were replaced by an empty dictionary, as
    [import_state] does for a snapshot with [category_stats: {}]. *)
Definition bank1_without_stats : QuestionBank :=
  {| questions := questions bank1; states := states bank1;
     category_stats := [] |}.

Lemma update_question_state_errors_witness :
  update_question_state 7 true 2 noon bank1 = (Raise KeyError, bank1) /\
  exists b' state',
    update_question_state 1 true 2 noon bank1_without_stats
    = (Raise KeyError, b') /\
    dict_get 1%Z (states b') = Some state' /\
    times_shown state' = 1%Z /\
    last_5_attempts state' = [true] /\
    mastery_level state' = 0%R.
Proof.
  split.
  - apply (proj1 (proj2 (update_question_state_errors bank1 7 true 2 noon))).
    left. reflexivity.
  - destruct (proj2 (proj2 (update_question_state_errors
                              bank1_without_stats 1 true 2 noon))
                (new_state "tones") q1 eq_refl eq_refl eq_refl)
      as (b' & state' & Hrun & _ & _ & Hs & Hshown & _ & _ & Ha & Hm & _).
    exists b', state'. repeat split; assumption.
Defined.

(** ** What [__init__] builds *)

Lemma dict_get_map_gen {K V W} `{Key K} (f : V -> W) (k : K) (d : dict K V) :
  dict_get k (map (fun kv => (fst kv, f (snd kv))) d)
  = option_map f (dict_get k d).
Proof.
  induction d as [|[k' v'] d IH]; simpl; [reflexivity|].
  destruct (key_eqb k k'); [reflexivity|assumption].
Qed.

Lemma find_app {A} (f : A -> bool) (l1 l2 : list A) :
  find f (l1 ++ l2)
  = match find f l1 with Some x => Some x | None => find f l2 end.
Proof.
  induction l1 as [|a l1 IH]; simpl; [reflexivity|].
  destruct (f a); [reflexivity|assumption].
Qed.

Lemma build_questions_get_acc (data : list Question) (qid : Z) :
  forall d0 : dict Z Question,
    dict_get qid (fold_left (fun d q => dict_set (q_id q) q d) data d0)
    = match find (fun q => (q_id q =? qid)%Z) (rev data) with
      | Some q => Some q
      | None => dict_get qid d0
      end.
Proof.
  induction data as [|q data IH]; intros d0; simpl; [reflexivity|].
  rewrite IH, find_app. simpl.
  destruct (find (fun q0 => (q_id q0 =? qid)%Z) (rev data)); [reflexivity|].
  destruct (Z.eqb_spec (q_id q) qid) as [<-|Hne].
  - apply dict_get_set_same.
  - apply dict_get_set_other. congruence.
Qed.

Lemma initialize_category_stats_get_acc (qs : dict Z Question) (c : string) :
  forall acc : dict string CategoryStats,
    dict_get c
      (fold_left
         (fun d kq =>
            dict_set (q_category (snd kq))
              {| total_attempts := 0; correct_attempts := 0 |} d) qs acc)
    = if existsb (fun kq => String.eqb (q_category (snd kq)) c) qs
      then Some {| total_attempts := 0; correct_attempts := 0 |}
      else dict_get c acc.
Proof.
  induction qs as [|kq qs IH]; intros acc; simpl; [reflexivity|].
  rewrite IH.
  destruct (String.eqb_spec (q_category (snd kq)) c) as [<-|Hne]; simpl.
  - rewrite dict_get_set_same. destruct (existsb _ qs); reflexivity.
  - rewrite dict_get_set_other by congruence. reflexivity.
Qed.

(** X5. [__init__] keeps, for every id, the last question given with that
    id; ids are unique in the bank; every kept question has a state with
    the defaults and the category of the question; a category has
    statistics, all zero, exactly when a kept question belongs to it. *)
Theorem init_contents (data : list Question) (qid : Z) (c : string) :
  let b := __init__ data in
  let given := find (fun q => (q_id q =? qid)%Z) (rev data) in
  dict_get qid (questions b) = given /\
  dict_get qid (states b)
  = option_map (fun q => new_state (q_category q)) given /\
  NoDup (dict_keys (questions b)) /\
  dict_keys (states b) = dict_keys (questions b) /\
  dict_get c (category_stats b)
  = if existsb (fun kq => String.eqb (q_category (snd kq)) c) (questions b)
    then Some {| total_attempts := 0; correct_attempts := 0 |}
    else None.
Proof.
  cbv zeta. unfold __init__. cbn [questions states category_stats].
  assert (Hq : dict_get qid (build_questions data)
               = find (fun q => (q_id q =? qid)%Z) (rev data)).
  { unfold build_questions. rewrite build_questions_get_acc.
    destruct (find _ (rev data)); reflexivity. }
  split; [exact Hq|]. split.
  { rewrite <- Hq.
    rewrite (dict_get_map_gen (fun q => new_state (q_category q))).
    reflexivity. }
  split; [apply build_questions_NoDup|]. split.
  { unfold dict_keys. rewrite map_map. reflexivity. }
  unfold _initialize_category_stats.
  rewrite initialize_category_stats_get_acc. simpl.
  destruct (existsb _ (build_questions data)); reflexivity.
Qed.

(** ** Category statistics against the per-question counters *)

Definition sum_Z (l : list Z) : Z := fold_right Z.add 0%Z l.

(** The showings and the correct answers, summed over the questions, and
    the attempts and the correct attempts, summed over the categories. *)
Definition shown_total (b : QuestionBank) : Z :=
  sum_Z (map (fun ks => times_shown (snd ks)) (states b)).

Definition correct_total (b : QuestionBank) : Z :=
  sum_Z (map (fun ks => times_correct (snd ks)) (states b)).

Definition attempts_total (b : QuestionBank) : Z :=
  sum_Z (map (fun cs => total_attempts (snd cs)) (category_stats b)).

Definition correct_attempts_total (b : QuestionBank) : Z :=
  sum_Z (map (fun cs => correct_attempts (snd cs)) (category_stats b)).

Definition counters_ok (b : QuestionBank) : Prop :=
  forall c cs, In (c, cs) (category_stats b) ->
               (0 <= correct_attempts cs <= total_attempts cs)%Z.

Lemma sum_Z_dict_set {K V} `{Key K} (f : V -> Z) (k : K) (v v0 : V)
  (d : dict K V) :
  dict_get k d = Some v0 ->
  sum_Z (map (fun kv => f (snd kv)) (dict_set k v d))
  = (sum_Z (map (fun kv => f (snd kv)) d) - f v0 + f v)%Z.
Proof.
  induction d as [|[k' v'] d IH]; simpl; [discriminate|].
  destruct (key_eqb k k') eqn:E; simpl.
  - intros [= ->]. lia.
  - intros Hget. rewrite (IH Hget). lia.
Qed.

Lemma sum_Z_zero {A} (f : A -> Z) (l : list A) :
  (forall x, In x l -> f x = 0%Z) -> sum_Z (map f l) = 0%Z.
Proof.
  induction l as [|a l IH]; simpl; intros Hz; [reflexivity|].
  rewrite (Hz a) by auto. rewrite IH; auto.
Qed.

Lemma initialize_category_stats_zero (qs : dict Z Question) :
  forall acc c cs,
    (forall c' cs', In (c', cs') acc ->
                    cs' = {| total_attempts := 0; correct_attempts := 0 |}) ->
    In (c, cs)
       (fold_left
          (fun d kq =>
             dict_set (q_category (snd kq))
               {| total_attempts := 0; correct_attempts := 0 |} d) qs acc) ->
    cs = {| total_attempts := 0; correct_attempts := 0 |}.
Proof.
  induction qs as [|kq qs IH]; simpl; intros acc c cs Hacc Hin; [eauto|].
  apply (IH _ c cs) in Hin; [assumption|].
  intros c' cs' Hin'. apply In_dict_set in Hin'.
  destruct Hin' as [Hin'|[_ ->]]; [eauto|reflexivity].
Qed.

(** X6. In a fresh bank all four totals are 0 and every category has
    [0 <= correct_attempts <= total_attempts]. An update that returns adds
    one showing and one attempt, and one correct answer to both sides
    when the answer was correct, and keeps the counters of every category
    ordered. So on a bank that [__init__] built, the attempts of the
    categories add up to the showings of the questions after any number
    of updates that returned. *)
Theorem category_totals_follow_questions :
  (forall data,
      shown_total (__init__ data) = 0%Z /\
      correct_total (__init__ data) = 0%Z /\
      attempts_total (__init__ data) = 0%Z /\
      correct_attempts_total (__init__ data) = 0%Z /\
      counters_ok (__init__ data)) /\
  (forall b b' qid correct t now,
      update_question_state qid correct t now b = (Ok tt, b') ->
      shown_total b' = (shown_total b + 1)%Z /\
      attempts_total b' = (attempts_total b + 1)%Z /\
      correct_total b' = (correct_total b + if correct then 1 else 0)%Z /\
      correct_attempts_total b'
      = (correct_attempts_total b + if correct then 1 else 0)%Z /\
      (counters_ok b -> counters_ok b')).
Proof.
  split.
  - intros data.
    assert (Hstats : forall c cs,
               In (c, cs) (category_stats (__init__ data)) ->
               cs = {| total_attempts := 0; correct_attempts := 0 |}).
    { intros c cs Hin. unfold __init__, _initialize_category_stats in Hin.
      cbn [category_stats] in Hin.
      apply (initialize_category_stats_zero _ [] c cs) in Hin; [assumption|].
      intros c' cs' []. }
    unfold shown_total, correct_total, attempts_total, correct_attempts_total.
    repeat split.
    + apply sum_Z_zero. intros [k st] Hin. unfold __init__ in Hin.
      cbn [states] in Hin. apply in_map_iff in Hin.
      destruct Hin as (kq & [= _ <-] & _). reflexivity.
    + apply sum_Z_zero. intros [k st] Hin. unfold __init__ in Hin.
      cbn [states] in Hin. apply in_map_iff in Hin.
      destruct Hin as (kq & [= _ <-] & _). reflexivity.
    + apply sum_Z_zero. intros [c cs] Hin. rewrite (Hstats c cs Hin).
      reflexivity.
    + apply sum_Z_zero. intros [c cs] Hin. rewrite (Hstats c cs Hin).
      reflexivity.
    + rewrite (Hstats c cs H). simpl. lia.
    + rewrite (Hstats c cs H). simpl. lia.
  - intros b b' qid correct t now Hrun.
    destruct (dict_get qid (states b)) as [state|] eqn:Hs;
      [|revert Hrun; run_update; rewrite Hs; discriminate].
    destruct (dict_get qid (questions b)) as [q|] eqn:Hq;
      [|revert Hrun; run_update; rewrite Hs, Hq; discriminate].
    destruct (dict_get (q_category q) (category_stats b)) as [cs|] eqn:Hc;
      [|revert Hrun; run_update; rewrite Hs, Hq; simpl; rewrite Hc;
        discriminate].
    rewrite (update_question_state_ok b qid correct t now state q cs Hs Hq Hc)
      in Hrun.
    injection Hrun as <-.
    unfold shown_total, correct_total, attempts_total, correct_attempts_total,
      updated_bank. cbn [states category_stats].
    rewrite dict_set_twice.
    rewrite (sum_Z_dict_set times_shown _ _ state _ Hs).
    rewrite (sum_Z_dict_set times_correct _ _ state _ Hs).
    rewrite (sum_Z_dict_set total_attempts _ _ cs _ Hc).
    rewrite (sum_Z_dict_set correct_attempts _ _ cs _ Hc).
    repeat split.
    + destruct correct; simpl; lia.
    + simpl. lia.
    + destruct correct; simpl; lia.
    + destruct correct; simpl; lia.
    + apply In_dict_set in H0. destruct H0 as [Hin|[_ ->]].
      * apply (H c cs0 Hin).
      * apply dict_get_In_pair in Hc. specialize (H _ _ Hc).
        destruct correct; simpl; lia.
    + apply In_dict_set in H0. destruct H0 as [Hin|[_ ->]].
      * apply (H c cs0 Hin).
      * apply dict_get_In_pair in Hc. specialize (H _ _ Hc).
        destruct correct; simpl; lia.
Qed.

Lemma category_totals_follow_questions_witness :
  shown_total answered_at_one = 1%Z /\
  attempts_total answered_at_one = 1%Z /\
  counters_ok answered_at_one.
Proof.
  destruct (proj1 category_totals_follow_questions [q1])
    as (H0 & _ & A0 & _ & Hok).
  destruct (proj2 category_totals_follow_questions bank1 answered_at_one
              1%Z true 2%R one_pm answered_at_one_reached)
    as (Hs & Ha & _ & _ & Hk).
  fold bank1 in H0, A0, Hok.
  split; [lia|]. split; [lia|]. apply Hk. exact Hok.
Defined.

(** ** Category difficulty and the category report *)

Lemma mapM_ok {A B} (f : A -> res B) (g : A -> B) (l : list A) :
  (forall a, In a l -> f a = Ok (g a)) -> mapM f l = Ok (map g l).
Proof.
  induction l as [|a l IH]; simpl; intros Hf; [reflexivity|].
  rewrite (Hf a) by auto. simpl. rewrite IH by auto. reflexivity.
Qed.

Lemma fold_Rplus_shift (l : list R) (a : R) :
  fold_left Rplus l a = (a + fold_left Rplus l 0)%R.
Proof.
  revert a. induction l as [|x l IH]; simpl; intros a; [lra|].
  rewrite (IH (a + x)%R), (IH (0 + x)%R). lra.
Qed.

Lemma sum_R_at_least (l : list R) (lo : R) :
  Forall (fun x => lo <= x)%R l -> (IZR (len l) * lo <= sum_R l)%R.
Proof.
  unfold sum_R. induction l as [|x l IH]; intros Hall.
  - unfold len. simpl. lra.
  - inversion Hall as [|? ? Hx Hl]; subst. specialize (IH Hl).
    rewrite len_cons, plus_IZR. simpl. rewrite fold_Rplus_shift. lra.
Qed.

(** The ids of a category, as line 71 collects them. *)
Definition category_ids (b : QuestionBank) (c : string) : list Z :=
  map fst (filter (fun kq => String.eqb (q_category (snd kq)) c)
                  (questions b)).

Lemma category_ids_known (b : QuestionBank) (c : string) (qid : Z) :
  In qid (category_ids b c) -> In qid (dict_keys (questions b)).
Proof.
  unfold category_ids. intros Hin. apply in_map_iff in Hin.
  destruct Hin as (kq & <- & Hkq). apply filter_In in Hkq.
  apply in_map. tauto.
Qed.

(** The state an id of the bank is sure to have, for stating results. *)
Definition state_of (b : QuestionBank) (qid : Z) : QuestionState :=
  match dict_get qid (states b) with
  | Some st => st
  | None => new_state EmptyString
  end.

Lemma category_difficulty_value (b : QuestionBank) (c : string) :
  dict_keys (states b) = dict_keys (questions b) ->
  calculate_category_difficulty b c
  = Ok (match category_ids b c with
        | [] => 1%R
        | _ :: _ =>
            (sum_R (map (fun qid => difficulty (state_of b qid))
                        (category_ids b c))
             / IZR (len (category_ids b c)))%R
        end).
Proof.
  intros Hkeys. unfold calculate_category_difficulty.
  fold (category_ids b c).
  destruct (category_ids b c) as [|k ks] eqn:Hids; [reflexivity|].
  rewrite (mapM_ok _ (fun qid => difficulty (state_of b qid))).
  - reflexivity.
  - intros qid Hin. rewrite <- Hids in Hin.
    apply category_ids_known in Hin. rewrite <- Hkeys in Hin.
    destruct (In_dict_get _ _ Hin) as [st Hst].
    unfold state_of. rewrite Hst. reflexivity.
Qed.

(** X7. On a bank whose states follow its questions,
    [calculate_category_difficulty] never raises. It is 1 for a category
    without questions, unknown ones included; otherwise it is the sum of
    the difficulties of the category's questions divided by their
    number, which is at least 1 when every difficulty of the bank is, as
    on a bank that [__init__] built and updates changed. *)
Theorem calculate_category_difficulty_mean (b : QuestionBank) (c : string) :
  dict_keys (states b) = dict_keys (questions b) ->
  exists v,
    calculate_category_difficulty b c = Ok v /\
    (category_ids b c = [] -> v = 1%R) /\
    (category_ids b c <> [] ->
     v = (sum_R (map (fun qid => difficulty (state_of b qid))
                     (category_ids b c))
          / IZR (len (category_ids b c)))%R) /\
    ((forall qid st, In (qid, st) (states b) -> (1 <= difficulty st)%R) ->
     (1 <= v)%R).
Proof.
  intros Hkeys. rewrite (category_difficulty_value b c Hkeys).
  eexists. split; [reflexivity|].
  split; [intros ->; reflexivity|]. split.
  { intros Hne. destruct (category_ids b c); [contradiction|reflexivity]. }
  intros Hok. destruct (category_ids b c) as [|k ks] eqn:Hids; [lra|].
  rewrite <- Hids.
  pose (xs := map (fun qid => difficulty (state_of b qid)) (category_ids b c)).
  assert (Hlow : (IZR (len xs) * 1 <= sum_R xs)%R).
  { apply sum_R_at_least. apply Forall_forall. intros x Hx.
    apply in_map_iff in Hx. destruct Hx as (qid & <- & Hin).
    apply category_ids_known in Hin. rewrite <- Hkeys in Hin.
    destruct (In_dict_get _ _ Hin) as [st Hst].
    unfold state_of. rewrite Hst.
    apply (Hok qid st). apply dict_get_In_pair. assumption. }
  unfold xs, len in Hlow. rewrite length_map in Hlow.
  fold (len (category_ids b c)) in Hlow.
  assert (Hpos : (0 < IZR (len (category_ids b c)))%R).
  { apply IZR_lt. rewrite Hids, len_cons. unfold len. lia. }
  apply Rmult_le_reg_r with (IZR (len (category_ids b c))); [assumption|].
  unfold Rdiv. rewrite Rmult_assoc, Rinv_l by lra. lra.
Qed.

Lemma calculate_category_difficulty_mean_witness :
  exists v,
    calculate_category_difficulty answered_at_one "tones" = Ok v /\
    (1 <= v)%R.
Proof.
  destruct (calculate_category_difficulty_mean answered_at_one "tones" eq_refl)
    as (v & Hv & _ & _ & Hlow).
  exists v. split; [exact Hv|]. apply Hlow.
  intros qid st [[= <- <-]|[]]. cbn. apply Rmax_l.
Defined.

(** One line of the report of [get_category_stats], from the statistics
    of the category and its mean difficulty. *)
Definition report_line (base_stats : CategoryStats) (avg : R)
  : CategoryReport :=
  {| r_total_attempts := total_attempts base_stats;
     r_correct_attempts := correct_attempts base_stats;
     r_accuracy :=
       if (0 <? total_attempts base_stats)%Z
       then (IZR (correct_attempts base_stats)
             / IZR (total_attempts base_stats))%R
       else 0%R;
     r_avg_difficulty := avg |}.

Lemma accuracy_range (correct total : Z) :
  (0 <= correct <= total)%Z ->
  (0 <= (if (0 <? total)%Z then IZR correct / IZR total else 0) <= 1)%R.
Proof.
  intros [H0 H1]. destruct (Z.ltb_spec 0 total) as [Hpos|_]; [|lra].
  apply IZR_le in H0, H1. apply IZR_lt in Hpos. split.
  - apply Rmult_le_pos; [assumption|].
    left. apply Rinv_0_lt_compat. assumption.
  - apply Rmult_le_reg_r with (IZR total); [assumption|].
    unfold Rdiv. rewrite Rmult_assoc, Rinv_l by lra. lra.
Qed.

(** X8. On a bank whose states follow its questions [get_category_stats]
    never raises and reports the categories of [category_stats] in their
    order. A line copies the two counters; its accuracy is 0 for a
    category without attempts and [correct_attempts / total_attempts]
    otherwise, hence within [[0, 1]] when the counters are ordered; its
    average difficulty is what [calculate_category_difficulty] returns. *)
Theorem get_category_stats_report (b : QuestionBank) :
  dict_keys (states b) = dict_keys (questions b) ->
  exists report,
    get_category_stats b = Ok report /\
    dict_keys report = dict_keys (category_stats b) /\
    forall c r,
      In (c, r) report ->
      exists cs,
        In (c, cs) (category_stats b) /\
        r_total_attempts r = total_attempts cs /\
        r_correct_attempts r = correct_attempts cs /\
        calculate_category_difficulty b c = Ok (r_avg_difficulty r) /\
        ((total_attempts cs <= 0)%Z -> r_accuracy r = 0%R) /\
        ((0 < total_attempts cs)%Z ->
         r_accuracy r
         = (IZR (correct_attempts cs) / IZR (total_attempts cs))%R) /\
        ((0 <= correct_attempts cs <= total_attempts cs)%Z ->
         (0 <= r_accuracy r <= 1)%R).
Proof.
  intros Hkeys.
  pose (avg := fun c =>
          match category_ids b c with
          | [] => 1%R
          | _ :: _ =>
              (sum_R (map (fun qid => difficulty (state_of b qid))
                          (category_ids b c))
               / IZR (len (category_ids b c)))%R
          end).
  pose (line := fun ce : string * CategoryStats =>
          (fst ce, report_line (snd ce) (avg (fst ce)))).
  exists (map line (category_stats b)). split; [|split].
  - unfold get_category_stats. apply mapM_ok.
    intros [c cs] _. rewrite (category_difficulty_value b c Hkeys). reflexivity.
  - unfold dict_keys. rewrite map_map. reflexivity.
  - intros c r Hin. apply in_map_iff in Hin.
    destruct Hin as ([c' cs] & [= <- <-] & Hin). cbn [fst snd].
    exists cs. split; [exact Hin|]. split; [reflexivity|].
    split; [reflexivity|]. split.
    { rewrite (category_difficulty_value b c' Hkeys). reflexivity. }
    cbn [report_line r_accuracy]. split; [|split].
    + intros Hle. destruct (Z.ltb_spec 0 (total_attempts cs)); [lia|reflexivity].
    + intros Hlt. destruct (Z.ltb_spec 0 (total_attempts cs)); [reflexivity|lia].
    + apply accuracy_range.
Qed.

Lemma get_category_stats_report_witness :
  exists report,
    get_category_stats answered_at_one = Ok report /\
    dict_keys report = ["tones"%string].
Proof.
  destruct (get_category_stats_report answered_at_one eq_refl)
    as (report & Hr & Hk & _).
  exists report. split; [exact Hr|exact Hk].
Defined.

(** ** More on [select_questions] *)

Lemma int_of_float_nonneg (x : R) : (0 <= x)%R -> (0 <= int_of_float x)%Z.
Proof.
  intros Hx. unfold int_of_float. destruct (Rle_dec 0 x) as [_|Hn]; [|lra].
  destruct (base_Int_part x) as [Hlo Hhi].
  apply le_IZR. apply Rnot_lt_le. intros Hlt.
  assert (IZR (Int_part x) <= -1)%R.
  { apply IZR_le. apply lt_IZR in Hlt. lia. }
  lra.
Qed.

Lemma int_of_float_IZR (z : Z) : (0 <= z)%Z -> int_of_float (IZR z) = z.
Proof.
  intros Hz. apply int_of_float_floor.
  - apply IZR_le. assumption.
  - lra.
Qed.

(** X9. On a bank with at least one state [select_questions] computes
    its adjusted count without an exception. For [n >= 0] the count is
    at most [n] and at least [0.7 n - 1]: the round shrinks by at most 30
    percent, and by one more question for the truncation. It is [n]
    itself when no state has a difficulty above 3. *)
Theorem adjusted_count_range (b : QuestionBank) (n : Z) :
  states b <> [] ->
  exists adjusted_n,
    adjusted_count b n = Ok adjusted_n /\
    ((0 <= n)%Z ->
     (0 <= adjusted_n <= n)%Z /\ (7 * n - 10 <= 10 * adjusted_n)%Z) /\
    ((0 <= n)%Z ->
     (forall qid st, In (qid, st) (states b) -> (difficulty st <= 3)%R) ->
     adjusted_n = n).
Proof.
  intros Hne.
  assert (Hlen : (0 < len (states b))%Z).
  { unfold len. destruct (states b); [contradiction|]. simpl. lia. }
  unfold adjusted_count, truediv.
  destruct (Z.eqb_spec (len (states b)) 0) as [E|_]; [lia|]. cbn [res_bind].
  eexists. split; [reflexivity|].
  set (hard := len (filter gt_3 (dict_values (states b)))).
  assert (Hhard : (0 <= hard <= len (states b))%Z).
  { unfold hard, len, dict_values.
    pose proof (filter_length_le gt_3 (map snd (states b))) as Hle.
    rewrite length_map in Hle. lia. }
  set (f := (IZR hard / IZR (len (states b)))%R).
  assert (Hf : (0 <= f <= 1)%R).
  { unfold f. apply IZR_lt in Hlen.
    destruct Hhard as [H0 H1]. apply IZR_le in H0, H1. split.
    - apply Rmult_le_pos; [assumption|].
      left. apply Rinv_0_lt_compat. assumption.
    - apply Rmult_le_reg_r with (IZR (len (states b))); [assumption|].
      unfold Rdiv. rewrite Rmult_assoc, Rinv_l by lra. lra. }
  split.
  - intros Hn. set (x := (IZR n * (1 - f * 0.3))%R).
    assert (Hx : (0.7 * IZR n <= x <= IZR n)%R).
    { unfold x. apply IZR_le in Hn. split; nra. }
    assert (Hx0 : (0 <= x)%R) by (apply IZR_le in Hn; lra).
    pose proof (int_of_float_nonneg x Hx0) as Hge.
    unfold int_of_float in *. destruct (Rle_dec 0 x) as [_|Hneg]; [|lra].
    destruct (base_Int_part x) as [Hlo Hhi].
    split; [split; [assumption|apply le_IZR; lra]|].
    apply le_IZR. rewrite minus_IZR, !mult_IZR. lra.
  - intros Hn Heasy.
    assert (Hnone : filter gt_3 (dict_values (states b)) = []).
    { unfold dict_values.
      assert (Hall : forall l : list (Z * QuestionState),
                 (forall qid st, In (qid, st) l -> (difficulty st <= 3)%R) ->
                 filter gt_3 (map snd l) = []).
      { induction l as [|[k st] l IHl]; simpl; intros Hl; [reflexivity|].
        unfold gt_3 at 1. destruct (Rlt_dec 3 (difficulty st)) as [Hlt|_].
        - specialize (Hl k st (or_introl eq_refl)). lra.
        - apply IHl. intros qid st' Hin. apply (Hl qid). right. assumption. }
      apply Hall. assumption. }
    unfold f, hard. rewrite Hnone. unfold len at 1. simpl.
    replace (IZR n * (1 - 0 / IZR (len (states b)) * 0.3))%R with (IZR n).
    + apply int_of_float_IZR. assumption.
    + unfold Rdiv. rewrite Rmult_0_l. lra.
Qed.

Lemma adjusted_count_range_witness :
  exists adjusted_n,
    adjusted_count bank5 50 = Ok adjusted_n /\ adjusted_n = 50%Z.
Proof.
  destruct (adjusted_count_range bank5 50 ltac:(discriminate))
    as (a & Ha & _ & Heasy).
  exists a. split; [exact Ha|].
  apply Heasy; [lia|].
  intros qid st Hin. simpl in Hin.
  repeat (destruct Hin as [[= _ <-]|Hin]; [simpl; lra|]). contradiction.
Defined.

(** *** The pieces of a selection *)

From Stdlib Require Import Permutation.

Lemma insert_desc_perm (x : Z * R) (l : list (Z * R)) :
  Permutation (insert_desc x l) (x :: l).
Proof.
  induction l as [|y l IH]; simpl; [reflexivity|].
  destruct (Rlt_dec (snd x) (snd y)); [|reflexivity].
  rewrite IH. apply perm_swap.
Qed.

Lemma sort_desc_perm (l : list (Z * R)) : Permutation (sort_desc l) l.
Proof.
  induction l as [|x l IH]; simpl; [reflexivity|].
  rewrite insert_desc_perm. constructor. assumption.
Qed.

Lemma mapM_total {A B} (f : A -> res B) (l : list A) :
  (forall a, In a l -> exists r, f a = Ok r) -> exists out, mapM f l = Ok out.
Proof.
  induction l as [|a l IH]; simpl; intros Hf; [eauto|].
  destruct (Hf a (or_introl eq_refl)) as [r Hr]. rewrite Hr. simpl.
  destruct IH as [out Hout]; [auto|]. rewrite Hout. simpl. eauto.
Qed.

Lemma question_scores_total (b : QuestionBank) (now : datetime) :
  dict_keys (states b) = dict_keys (questions b) ->
  exists scores,
    question_scores b now = Ok scores /\
    Permutation (map fst scores) (dict_keys (questions b)).
Proof.
  intros Hkeys. unfold question_scores.
  match goal with |- context [mapM ?f ?l] =>
    destruct (mapM_total f l) as [raw Hraw] end.
  - intros qid Hin.
    destruct (In_dict_get _ _ Hin) as [q Hq].
    assert (Hin' := Hin). rewrite <- Hkeys in Hin'.
    destruct (In_dict_get _ _ Hin') as [st Hst].
    unfold calculate_pattern_score, calculate_decay. rewrite Hst, Hq.
    cbn [index res_bind].
    rewrite (category_difficulty_value b (q_category q) Hkeys).
    destruct (last_seen st); cbn [res_bind]; eauto.
  - rewrite Hraw. cbn [res_bind]. eexists. split; [reflexivity|].
    rewrite (Permutation_map fst (sort_desc_perm raw)).
    apply mapM_keys in Hraw.
    + rewrite Hraw. reflexivity.
    + intros a r. destruct (calculate_pattern_score b a now); simpl;
        [|discriminate].
      destruct (index (dict_get a (questions b))) as [q|]; simpl;
        [|discriminate].
      destruct (calculate_category_difficulty b (q_category q)); simpl;
        [|discriminate].
      intros [= <-]. reflexivity.
Qed.

Lemma untested_ids_value (b : QuestionBank) :
  dict_keys (states b) = dict_keys (questions b) ->
  untested_ids b
  = Ok (filter (fun qid => (times_shown (state_of b qid) =? 0)%Z)
               (dict_keys (questions b))).
Proof.
  intros Hkeys. unfold untested_ids.
  rewrite (mapM_ok _ (fun qid =>
                        (qid, (times_shown (state_of b qid) =? 0)%Z))).
  - cbn [res_bind]. f_equal. clear Hkeys.
    induction (dict_keys (questions b)) as [|k ks IH]; simpl; [reflexivity|].
    destruct (times_shown (state_of b k) =? 0)%Z; simpl; rewrite IH;
      reflexivity.
  - intros qid Hin. rewrite <- Hkeys in Hin.
    destruct (In_dict_get _ _ Hin) as [st Hst].
    unfold state_of. rewrite Hst. reflexivity.
Qed.

Lemma remove_nth_split {A} (i : nat) (l : list A) (d : A) :
  (i < List.length l)%nat ->
  l = firstn i l ++ nth i l d :: skipn (S i) l.
Proof.
  intros Hi. symmetry. apply firstn_skipn_middle.
  apply nth_error_nth'. assumption.
Qed.

Lemma remove_nth_length {A} (i : nat) (l : list A) :
  (i < List.length l)%nat ->
  List.length (remove_nth i l) = (List.length l - 1)%nat.
Proof.
  intros Hi. unfold remove_nth.
  rewrite length_app, length_firstn, length_skipn. lia.
Qed.

Lemma remove_nth_NoDup {A} (i : nat) (l : list A) (d : A) :
  NoDup l -> (i < List.length l)%nat ->
  NoDup (remove_nth i l) /\ ~ In (nth i l d) (remove_nth i l).
Proof.
  intros Hnd Hi. rewrite (remove_nth_split i l d Hi) in Hnd.
  unfold remove_nth. apply NoDup_remove in Hnd. exact Hnd.
Qed.

(** What [k] draws without replacement give: [min k (len pop)] elements
    of [pop], distinct when those of [pop] are. *)
Lemma sample_aux_spec {A} (k : nat) :
  forall (pop : list A) (s : rng),
  exists l s',
    sample_aux pop k s = (Ok l, s') /\
    incl l pop /\
    List.length l = Nat.min k (List.length pop) /\
    (NoDup pop -> NoDup l).
Proof.
  induction k as [|k IH]; intros pop s.
  - exists [], s. split; [destruct pop; reflexivity|].
    split; [intros x []|]. split; [reflexivity|]. intros _. constructor.
  - destruct pop as [|x0 pop].
    + exists [], s. split; [reflexivity|].
      split; [intros x []|]. split; [reflexivity|]. intros _. constructor.
    + cbn [sample_aux]. unfold bind, draw, ret.
      set (i := (fst (next s) mod List.length (x0 :: pop))%nat).
      assert (Hi : (i < List.length (x0 :: pop))%nat)
        by (apply Nat.mod_upper_bound; discriminate).
      destruct (IH (remove_nth i (x0 :: pop)) (snd (next s)))
        as (rest & s' & Hrest & Hincl & Hlen & Hnd).
      rewrite Hrest. eexists. eexists. split; [reflexivity|].
      split; [|split].
      * intros x [<-|Hin]; [apply nth_In; assumption|].
        apply (remove_nth_incl i). apply Hincl. assumption.
      * cbn [List.length]. rewrite Hlen, remove_nth_length by assumption.
        cbn [List.length]. lia.
      * intros Hpop.
        destruct (remove_nth_NoDup i (x0 :: pop) x0 Hpop Hi) as [Hnd' Hnin].
        constructor; [|auto]. intros Hin. apply Hnin. apply Hincl. assumption.
Qed.

Lemma sample_spec {A} (pop : list A) (k : Z) (s : rng) :
  (0 <= k <= len pop)%Z ->
  exists l s',
    sample pop k s = (Ok l, s') /\
    incl l pop /\ len l = k /\ (NoDup pop -> NoDup l).
Proof.
  intros Hk. unfold sample.
  replace ((k <? 0)%Z || (len pop <? k)%Z) with false.
  - destruct (sample_aux_spec (Z.to_nat k) pop s)
      as (l & s' & Hrun & Hincl & Hlen & Hnd).
    exists l, s'. split; [exact Hrun|]. split; [exact Hincl|].
    split; [|exact Hnd]. unfold len in *. lia.
  - symmetry. apply orb_false_iff. split; [apply Z.ltb_ge|apply Z.ltb_ge]; lia.
Qed.

(** The top-up loop stops with enough ids or with every id of the bank
    selected; it only appends ids that were not selected yet. *)
Lemma fill_spec (keys : list Z) (adjusted_n : Z) (selected : list Z)
  (s : rng) :
  ((adjusted_n <= len (fst (fill keys adjusted_n selected s)))%Z \/
   remaining keys (fst (fill keys adjusted_n selected s)) = []) /\
  (NoDup selected -> NoDup (fst (fill keys adjusted_n selected s))) /\
  (len selected <= len (fst (fill keys adjusted_n selected s)))%Z.
Proof.
  funelim (fill keys adjusted_n selected s); cbn [fst].
  - split; [left; apply Z.ltb_ge; assumption|]. split; [auto|lia].
  - split; [right; assumption|]. split; [auto|lia].
  - destruct H as (Hstop & Hnd & Hlen). split; [exact Hstop|]. split.
    + intros Hsel. apply Hnd.
      pose proof (choice_In (fst (next s)) k0 ks) as Hc.
      rewrite <- Hrem in Hc. unfold remaining in Hc.
      apply filter_In in Hc. destruct Hc as [_ Hc].
      apply NoDup_app; [assumption|repeat constructor; auto|].
      intros a Ha [Ha'|[]]. rewrite <- Ha' in Ha.
      apply negb_true_iff in Hc. apply mem_In in Ha. congruence.
    + unfold len in *. rewrite length_app in Hlen. simpl in Hlen. lia.
Qed.

Lemma adjusted_count_total (b : QuestionBank) (n : Z) :
  states b <> [] -> exists adjusted_n, adjusted_count b n = Ok adjusted_n.
Proof.
  intros Hne. unfold adjusted_count, truediv.
  destruct (Z.eqb_spec (len (states b)) 0) as [E|_].
  - unfold len in E. destruct (states b); [contradiction|]. simpl in E. lia.
  - cbn [res_bind]. eauto.
Qed.

(** The ids [select_questions] finds untested, and its three pools. *)
Definition untested_of (b : QuestionBank) : list Z :=
  filter (fun qid => (times_shown (state_of b qid) =? 0)%Z)
         (dict_keys (questions b)).

Definition high_priority_of (adjusted_n : Z) (scores : list (Z * R))
  : list Z :=
  map fst (slice_to (int_of_float (IZR adjusted_n * 0.6)) scores).

Definition random_pool_of (b : QuestionBank) (high_priority : list Z)
  : list Z :=
  filter (fun k => negb (mem k high_priority) && negb (mem k (untested_of b)))
         (dict_keys (questions b)).

(** A call of [select_questions] on a bank with questions, taken apart. *)
Lemma select_questions_run (b : QuestionBank) (n : Z) (now : datetime)
  (s : rng) :
  dict_keys (states b) = dict_keys (questions b) ->
  states b <> [] -> (0 <= n)%Z ->
  exists adjusted_n scores s1 s2 s3 r3 shuffled r5,
    adjusted_count b n = Ok adjusted_n /\
    (0 <= adjusted_n <= n)%Z /\
    question_scores b now = Ok scores /\
    Permutation (map fst scores) (dict_keys (questions b)) /\
    incl s1 (high_priority_of adjusted_n scores) /\
    (NoDup (high_priority_of adjusted_n scores) -> NoDup s1) /\
    incl s2 (untested_of b) /\
    incl s3 (random_pool_of b (high_priority_of adjusted_n scores)) /\
    (NoDup (random_pool_of b (high_priority_of adjusted_n scores)) ->
     NoDup s3) /\
    incl shuffled
         (fst (fill (dict_keys (questions b)) adjusted_n (s1 ++ s2 ++ s3) r3)) /\
    len shuffled
    = len (fst (fill (dict_keys (questions b)) adjusted_n (s1 ++ s2 ++ s3) r3)) /\
    (NoDup (fst (fill (dict_keys (questions b)) adjusted_n (s1 ++ s2 ++ s3) r3)) ->
     NoDup shuffled) /\
    select_questions b n now s = (Ok (slice_to adjusted_n shuffled), r5).
Proof.
  intros Hkeys Hne Hn.
  destruct (adjusted_count_total b n Hne) as [a Ha].
  destruct (adjusted_count_le b n a Hn Ha) as [Ha0 Han].
  destruct (question_scores_total b now Hkeys) as (scores & Hscores & Hperm).
  assert (Hquota : forall share, (0 <= share)%R ->
                                 (0 <= int_of_float (IZR a * share))%Z).
  { intros share Hshare. apply int_of_float_nonneg.
    apply Rmult_le_pos; [apply IZR_le; assumption|assumption]. }
  assert (Hk : forall (pop : list Z) share,
             (0 <= share)%R ->
             (0 <= Z.min (len pop) (int_of_float (IZR a * share)) <= len pop)%Z).
  { intros pop share Hshare. specialize (Hquota share Hshare).
    unfold len. lia. }
  set (hp := high_priority_of a scores).
  set (pool := random_pool_of b hp).
  destruct (sample_spec hp _ s (Hk hp 0.6%R ltac:(lra)))
    as (s1 & r1 & E1 & I1 & _ & N1).
  destruct (sample_spec (untested_of b) _ r1 (Hk (untested_of b) 0.3%R ltac:(lra)))
    as (s2 & r2 & E2 & I2 & _ & _).
  destruct (sample_spec pool _ r2 (Hk pool 0.1%R ltac:(lra)))
    as (s3 & r3 & E3 & I3 & _ & N3).
  destruct (fill (dict_keys (questions b)) a (s1 ++ s2 ++ s3) r3)
    as [filled r4] eqn:E4.
  destruct (sample_aux_spec (List.length filled) filled r4)
    as (shuffled & r5 & E5 & I5 & L5 & N5).
  exists a, scores, s1, s2, s3, r3, shuffled, r5.
  rewrite E4. cbn [fst].
  split; [exact Ha|]. split; [split; assumption|].
  split; [exact Hscores|]. split; [exact Hperm|].
  split; [exact I1|]. split; [exact N1|]. split; [exact I2|].
  split; [exact I3|]. split; [exact N3|]. split; [exact I5|].
  split; [unfold len; lia|]. split; [exact N5|].
  unfold select_questions, bind, lift, ret.
  rewrite Ha, Hscores, (untested_ids_value b Hkeys).
  fold (untested_of b). fold (high_priority_of a scores). fold hp.
  fold (random_pool_of b hp). fold pool.
  rewrite E1, E2, E3, E4. unfold shuffle. rewrite E5. reflexivity.
Qed.

Lemma slice_to_firstn {A} (k : Z) (l : list A) :
  (0 <= k)%Z -> slice_to k l = firstn (Z.to_nat k) l.
Proof.
  intros Hk. unfold slice_to. destruct (Z.leb_spec 0 k); [reflexivity|lia].
Qed.

Lemma NoDup_firstn {A} (k : nat) (l : list A) : NoDup l -> NoDup (firstn k l).
Proof.
  intros Hnd. rewrite <- (firstn_skipn k l) in Hnd.
  apply NoDup_app_remove_r in Hnd. assumption.
Qed.




(** X11. On a bank with at least one question, distinct ids and states
    that have the ids of the questions, and for [n >= 0], a selection
    that [select_questions] returns is as long as the adjusted count
    allows: it
    has exactly [adjusted_n] ids when the bank has that many questions,
    and otherwise at least as many ids as the bank has questions. The
    top-up loop never leaves a round short. *)
Theorem select_questions_fills_round (b : QuestionBank) (n : Z)
  (now : datetime) (s : rng) :
  dict_keys (states b) = dict_keys (questions b) ->
  NoDup (dict_keys (questions b)) ->
  states b <> [] -> (0 <= n)%Z ->
  exists adjusted_n ids s',
    adjusted_count b n = Ok adjusted_n /\
    select_questions b n now s = (Ok ids, s') /\
    (Z.min adjusted_n (len (questions b)) <= len ids <= adjusted_n)%Z /\
    ((adjusted_n <= len (questions b))%Z -> len ids = adjusted_n).
Proof.
  intros Hkeys Hnd Hne Hn.
  destruct (select_questions_run b n now s Hkeys Hne Hn)
    as (a & scores & s1 & s2 & s3 & r3 & shuffled & r5 & Ha & [Ha0 Han] & _
        & _ & _ & _ & _ & _ & _ & _ & Hlen & _ & Hrun).
  exists a, (slice_to a shuffled), r5.
  split; [exact Ha|]. split; [exact Hrun|].
  destruct (fill_spec (dict_keys (questions b)) a (s1 ++ s2 ++ s3) r3)
    as (Hstop & _ & _).
  set (filled := fst (fill (dict_keys (questions b)) a (s1 ++ s2 ++ s3) r3))
    in *.
  assert (Hfilled : (Z.min a (len (questions b)) <= len filled)%Z).
  { destruct Hstop as [Hge|Hrem]; [lia|].
    assert (Hincl : incl (dict_keys (questions b)) filled).
    { intros x Hx. destruct (mem x filled) eqn:E; [apply mem_In; assumption|].
      assert (Hin : In x (remaining (dict_keys (questions b)) filled)).
      { unfold remaining. apply filter_In. split; [assumption|].
        rewrite E. reflexivity. }
      rewrite Hrem in Hin. contradiction. }
    pose proof (NoDup_incl_length Hnd Hincl) as Hle.
    unfold len, dict_keys in *. rewrite length_map in Hle. lia. }
  assert (Hslice : len (slice_to a shuffled) = Z.min a (len shuffled)).
  { rewrite slice_to_firstn by assumption. unfold len.
    rewrite length_firstn. lia. }
  rewrite Hslice, Hlen. split; lia.
Qed.

Lemma select_questions_fills_round_witness :
  exists adjusted_n ids s',
    adjusted_count bank5 3 = Ok adjusted_n /\
    select_questions bank5 3 noon [7; 0; 2]%nat = (Ok ids, s') /\
    ((adjusted_n <= len (questions bank5))%Z -> len ids = adjusted_n).
Proof.
  destruct (select_questions_fills_round bank5 3 noon [7; 0; 2]%nat)
    as (a & ids & s' & Ha & Hrun & _ & Hfull).
  - reflexivity.
  - apply build_questions_NoDup.
  - discriminate.
  - lia.
  - exists a, ids, s'. split; [exact Ha|]. split; [exact Hrun|exact Hfull].
Defined.

(** X12. Under the conditions of X11, once every question of the bank
    has been shown at least once, a selection never holds an id twice. *)
Theorem select_questions_distinct_when_all_shown (b : QuestionBank) (n : Z)
  (now : datetime) (s : rng) :
  dict_keys (states b) = dict_keys (questions b) ->
  NoDup (dict_keys (questions b)) ->
  states b <> [] -> (0 <= n)%Z ->
  (forall qid st, In (qid, st) (states b) -> times_shown st <> 0%Z) ->
  exists ids s',
    select_questions b n now s = (Ok ids, s') /\ NoDup ids.
Proof.
  intros Hkeys Hnd Hne Hn Hshown.
  destruct (select_questions_run b n now s Hkeys Hne Hn)
    as (a & scores & s1 & s2 & s3 & r3 & shuffled & r5 & Ha & [Ha0 Han] & _
        & Hperm & I1 & N1 & I2 & I3 & N3 & _ & _ & N5 & Hrun).
  exists (slice_to a shuffled), r5. split; [exact Hrun|].
  assert (Hunt : untested_of b = []).
  { unfold untested_of.
    assert (Hall : forall l, incl l (dict_keys (questions b)) ->
               filter (fun qid => (times_shown (state_of b qid) =? 0)%Z) l = []).
    { induction l as [|k l IHl]; intros Hl; [reflexivity|]. simpl.
      assert (Hk : In k (dict_keys (states b))).
      { rewrite Hkeys. apply Hl. left. reflexivity. }
      destruct (In_dict_get _ _ Hk) as [st Hst].
      unfold state_of at 1. rewrite Hst.
      apply dict_get_In_pair in Hst. specialize (Hshown k st Hst).
      destruct (Z.eqb_spec (times_shown st) 0); [contradiction|].
      apply IHl. intros x Hx. apply Hl. right. assumption. }
    apply Hall. apply incl_refl. }
  assert (Hs2 : s2 = []).
  { rewrite Hunt in I2. destruct s2 as [|x s2]; [reflexivity|].
    destruct (I2 x (or_introl eq_refl)). }
  subst s2. cbn [app] in *.
  assert (Hhp : NoDup (high_priority_of a scores)).
  { unfold high_priority_of.
    rewrite slice_to_firstn
      by (apply int_of_float_nonneg;
          apply Rmult_le_pos; [apply IZR_le; assumption|lra]).
    rewrite <- firstn_map. apply NoDup_firstn.
    apply (Permutation_NoDup (Permutation_sym Hperm)). assumption. }
  assert (Hpool : NoDup (random_pool_of b (high_priority_of a scores))).
  { unfold random_pool_of. apply NoDup_filter. assumption. }
  assert (Hsel : NoDup (s1 ++ s3)).
  { apply NoDup_app; [auto|auto|].
    intros x H1 H3. apply I1 in H1. apply I3 in H3.
    unfold random_pool_of in H3. apply filter_In in H3.
    destruct H3 as [_ H3]. apply andb_prop in H3. destruct H3 as [H3 _].
    apply negb_true_iff in H3. apply mem_In in H1. congruence. }
  destruct (fill_spec (dict_keys (questions b)) a (s1 ++ s3) r3)
    as (_ & Hfill & _).
  rewrite slice_to_firstn by assumption.
  apply NoDup_firstn. apply N5. apply Hfill. assumption.
Qed.

Lemma select_questions_distinct_when_all_shown_witness :
  exists ids s',
    select_questions answered_at_one 4 next_month [5; 2]%nat = (Ok ids, s') /\
    NoDup ids.
Proof.
  apply (select_questions_distinct_when_all_shown answered_at_one 4
           next_month [5; 2]%nat).
  - reflexivity.
  - apply build_questions_NoDup.
  - discriminate.
  - lia.
  - intros qid st [[= _ <-]|[]]. discriminate.
Defined.

(* ================================================================== *)
(** * Further properties of the session *)

(** ** Answering the pending question *)

Ltac run_session :=
  unfold handle_answer, handle_skip, bind, get, ret, subscript, raise,
    set_current_round, set_skipped, set_stats, on_bank; simpl.

(** X13. With a question pending whose lookups in the bank succeed,
    [handle_answer] returns normally: it takes the head off
    [current_round], updates the bank by [update_question_state] with the
    time elapsed since the question timer, appends that time to the
    session's list for the category, restarts the timer and leaves
    [skipped], the skip counter and the start time alone. A correct
    answer adds one to the correct counter and to the streak and raises
    the best streak to the streak if needed; a wrong one adds one to the
    wrong counter and ends the streak. When the id of the pending
    question is unknown to the bank, [handle_answer] raises [KeyError];
    the question is removed from the round all the same and nothing else
    changes. *)
Theorem handle_answer_effect (session : QuizSession) (correct : bool)
  (t1 t2 : R) (now : datetime) (qid : Z) (rest : list Z) :
  current_round session = qid :: rest ->
  let time_taken := (t1 - question_start_time (stats session))%R in
  (forall state q cs,
      dict_get qid (states (bank session)) = Some state ->
      dict_get qid (questions (bank session)) = Some q ->
      dict_get (q_category q) (category_stats (bank session)) = Some cs ->
      exists session',
        handle_answer correct t1 t2 now session = (Ok tt, session') /\
        current_round session' = rest /\
        skipped session' = skipped session /\
        update_question_state qid correct time_taken now (bank session)
        = (Ok tt, bank session') /\
        dict_get (q_category q) (times_per_category (stats session'))
        = Some (match dict_get (q_category q)
                        (times_per_category (stats session)) with
                | Some times => times
                | None => []
                end ++ [time_taken]) /\
        question_start_time (stats session') = t2 /\
        start_time (stats session') = start_time (stats session) /\
        n_skipped (stats session') = n_skipped (stats session) /\
        if correct then
          n_correct (stats session') = (n_correct (stats session) + 1)%Z /\
          n_wrong (stats session') = n_wrong (stats session) /\
          streak (stats session') = (streak (stats session) + 1)%Z /\
          best_streak (stats session')
          = Z.max (best_streak (stats session)) (streak (stats session) + 1)
        else
          n_correct (stats session') = n_correct (stats session) /\
          n_wrong (stats session') = (n_wrong (stats session) + 1)%Z /\
          streak (stats session') = 0%Z /\
          best_streak (stats session') = best_streak (stats session)) /\
  (dict_get qid (states (bank session)) = None ->
   handle_answer correct t1 t2 now session
   = (Raise KeyError,
      {| bank := bank session; current_round := rest;
         skipped := skipped session; stats := stats session |})).
Proof.
  intros Hcur. cbv zeta. split.
  - intros state q cs Hs Hq Hc. run_session. rewrite Hcur.
    unfold bind. cbn [bank current_round skipped stats].
    rewrite (update_question_state_ok _ qid correct _ now state q cs Hs Hq Hc).
    cbn [bank updated_bank questions]. rewrite Hq.
    eexists. split; [reflexivity|].
    cbn [current_round skipped bank stats]. split; [reflexivity|].
    split; [reflexivity|]. split; [reflexivity|]. split.
    { destruct correct; cbn [tally record_time with_question_start_time
                               times_per_category];
        apply dict_get_set_same. }
    destruct correct; cbn; repeat split; reflexivity.
  - intros Hs. run_session. rewrite Hcur. unfold bind.
    cbn [bank current_round skipped stats].
    unfold update_question_state, bind, get, subscript, raise.
    rewrite Hs. reflexivity.
Qed.

Lemma handle_answer_effect_witness :
  exists session',
    handle_answer true 9 10 noon session5 = (Ok tt, session') /\
    current_round session' = [1; 5; 2; 4]%Z /\
    n_correct (stats session') = 1%Z /\
    best_streak (stats session') = 1%Z.
Proof.
  destruct (proj1 (handle_answer_effect session5 true 9 10 noon 3%Z
                     [1; 5; 2; 4]%Z eq_refl)
              (new_state "tones") q3
              {| total_attempts := 0; correct_attempts := 0 |}
              eq_refl eq_refl eq_refl)
    as (session' & Hrun & Hcur & _ & _ & _ & _ & _ & _ & Hc & _ & _ & Hb).
  exists session'. split; [exact Hrun|]. split; [exact Hcur|].
  split; [exact Hc|exact Hb].
Defined.

(** ** Sequences of calls on a session *)

(** The two methods the buttons of the quiz call, with the clock readings
    each of them takes. *)
Inductive call : Type :=
| Answer (correct : bool) (t1 t2 : R) (now : datetime)
| Skip (t : R).

Definition run_call (c : call) : M QuizSession unit :=
  match c with
  | Answer correct t1 t2 now => handle_answer correct t1 t2 now
  | Skip t => handle_skip t
  end.

(** The calls one after the other, as a script would make them: the first
    exception ends the sequence. *)
Fixpoint run_calls (calls : list call) : M QuizSession unit :=
  match calls with
  | [] => ret tt
  | c :: calls => (run_call c ;;; run_calls calls)%monad
  end.

(** The session object after the calls, when each call is made on the
    object as the previous one left it, whether the previous one returned
    or raised: the object outlives an exception. *)
Definition after (calls : list call) (session : QuizSession) : QuizSession :=
  fold_left (fun session c => snd (run_call c session)) calls session.

Lemma handle_answer_pending (session : QuizSession) (correct : bool)
  (t1 t2 : R) (now : datetime) (qid : Z) (rest : list Z) :
  current_round session = qid :: rest ->
  let r := handle_answer correct t1 t2 now session in
  current_round (snd r) = rest /\
  skipped (snd r) = skipped session /\
  bank (snd r)
  = snd (update_question_state qid correct
           (t1 - question_start_time (stats session)) now (bank session)) /\
  ((fst r = Ok tt /\
    fst (update_question_state qid correct
           (t1 - question_start_time (stats session)) now (bank session))
    = Ok tt /\
    exists c,
      stats (snd r)
      = with_question_start_time
          (tally correct
             (record_time c (t1 - question_start_time (stats session))
                (stats session))) t2) \/
   (exists e,
      fst r = Raise e /\
      fst (update_question_state qid correct
             (t1 - question_start_time (stats session)) now (bank session))
      = Raise e /\
      stats (snd r) = stats session)).
Proof.
  intros Hcur. cbv zeta. run_session. rewrite Hcur. unfold bind.
  cbn [bank current_round skipped stats]. run_update.
  destruct (dict_get qid (states (bank session))) as [state|] eqn:Hs;
    [|cbn; repeat split; right; eexists; repeat split].
  destruct (dict_get qid (questions (bank session))) as [q|] eqn:Hq;
    [|cbn; repeat split; right; eexists; repeat split].
  destruct (dict_get (q_category q) (category_stats (bank session)))
    as [cs|] eqn:Hc;
    [|cbn; repeat split; right; eexists; repeat split].
  cbn. rewrite Hq. cbn. repeat split. left. repeat split.
  exists (q_category q). reflexivity.
Qed.

Lemma handle_answer_idle (session : QuizSession) (correct : bool)
  (t1 t2 : R) (now : datetime) :
  current_round session = [] ->
  handle_answer correct t1 t2 now session = (Ok tt, session).
Proof. intros Hcur. run_session. rewrite Hcur. reflexivity. Qed.

Lemma handle_skip_idle (session : QuizSession) (t : R) :
  current_round session = [] -> handle_skip t session = (Ok tt, session).
Proof. intros Hcur. run_session. rewrite Hcur. reflexivity. Qed.

Lemma handle_skip_pending (session : QuizSession) (t : R) (qid : Z)
  (rest : list Z) :
  current_round session = qid :: rest ->
  handle_skip t session
  = (Ok tt,
     {| bank := bank session; current_round := rest;
        skipped := skipped session ++ [qid];
        stats :=
          {| n_correct := n_correct (stats session);
             n_wrong := n_wrong (stats session);
             n_skipped := n_skipped (stats session) + 1;
             streak := streak (stats session);
             best_streak := best_streak (stats session);
             start_time := start_time (stats session);
             question_start_time := t;
             times_per_category := times_per_category (stats session) |} |}).
Proof. intros Hcur. run_session. rewrite Hcur. reflexivity. Qed.

Lemma len_app {A} (l l' : list A) : len (l ++ l') = (len l + len l')%Z.
Proof. unfold len. rewrite length_app. lia. Qed.

(** What the counters of a round satisfy, [drawn] being the number of
    questions the round started with. *)
Definition counters_in_step (drawn : Z) (session : QuizSession) : Prop :=
  n_skipped (stats session) = len (skipped session) /\
  (0 <= streak (stats session) <= best_streak (stats session))%Z /\
  (best_streak (stats session) <= n_correct (stats session))%Z /\
  (0 <= n_wrong (stats session))%Z /\
  (n_correct (stats session) + n_wrong (stats session)
   + n_skipped (stats session) + len (current_round session) <= drawn)%Z.

Lemma run_call_counters (drawn : Z) (c : call) (session : QuizSession) :
  counters_in_step drawn session ->
  counters_in_step drawn (snd (run_call c session)).
Proof.
  intros (Hsk & Hst & Hbest & Hw & Hsum).
  destruct (current_round session) as [|qid rest] eqn:Hcur.
  - destruct c as [correct t1 t2 now|t]; cbn [run_call].
    + rewrite handle_answer_idle by assumption. cbn [snd].
      unfold counters_in_step. rewrite Hcur. auto.
    + rewrite handle_skip_idle by assumption. cbn [snd].
      unfold counters_in_step. rewrite Hcur. auto.
  - rewrite len_cons in Hsum.
    destruct c as [correct t1 t2 now|t]; cbn [run_call].
    + destruct (handle_answer_pending session correct t1 t2 now qid rest Hcur)
        as (Hc' & Hs' & _ & [(_ & _ & c & Hstats)|(e & _ & _ & Hstats)]);
        unfold counters_in_step; rewrite Hc', Hs', Hstats.
      * assert (0 <= len rest)%Z by (unfold len; lia).
        destruct correct; cbn; lia.
      * assert (0 <= len rest)%Z by (unfold len; lia). lia.
    + rewrite (handle_skip_pending session t qid rest Hcur). cbn [snd].
      unfold counters_in_step. cbn. rewrite len_app.
      change (len [qid]) with 1%Z. lia.
Qed.

Lemma after_counters (drawn : Z) (calls : list call) (session : QuizSession) :
  counters_in_step drawn session ->
  counters_in_step drawn (after calls session).
Proof.
  revert session. induction calls as [|c calls IH]; intros session H;
    [exact H|].
  apply IH, run_call_counters, H.
Qed.

Lemma start_round_fresh (n : Z) (now : datetime) (t0 tq : R) (s s' : rng)
  (session started : QuizSession) :
  start_round n now t0 tq s session = (Ok s', started) ->
  exists ids,
    select_questions (bank session) n now s = (Ok ids, s') /\
    started = {| bank := bank session; current_round := ids;
                 skipped := []; stats := new_stats t0 tq |}.
Proof.
  unfold start_round.
  destruct (select_questions (bank session) n now s) as [[ids|e] s1];
    intros H; inversion H; subst. exists ids. auto.
Qed.

(** X14. After [start_round] and any sequence of answers and skips, each
    made on the session as the previous call left it, the skip counter is
    the length of [skipped], the streak lies between zero and the best
    streak, the best streak is at most the number of correct answers, the
    wrong counter is not negative, and the three counters together with
    the questions still pending never exceed the number of questions
    drawn for the round. *)
Theorem round_counters (n : Z) (now : datetime) (t0 tq : R) (s s' : rng)
  (session started : QuizSession) (calls : list call) :
  start_round n now t0 tq s session = (Ok s', started) ->
  let final := after calls started in
  n_skipped (stats final) = len (skipped final) /\
  (0 <= streak (stats final) <= best_streak (stats final))%Z /\
  (best_streak (stats final) <= n_correct (stats final))%Z /\
  (0 <= n_wrong (stats final))%Z /\
  (n_correct (stats final) + n_wrong (stats final) + n_skipped (stats final)
   + len (current_round final) <= len (current_round started))%Z.
Proof.
  intros Hstart. cbv zeta.
  destruct (start_round_fresh n now t0 tq s s' session started Hstart)
    as (ids & _ & ->).
  apply (after_counters (len ids)). unfold counters_in_step. cbn.
  repeat split; lia.
Qed.

Lemma start_round_total (n : Z) (now : datetime) (t0 tq : R) (s : rng)
  (session : QuizSession) :
  dict_keys (states (bank session)) = dict_keys (questions (bank session)) ->
  states (bank session) <> [] -> (0 <= n)%Z ->
  exists ids s',
    start_round n now t0 tq s session
    = (Ok s', {| bank := bank session; current_round := ids;
                 skipped := []; stats := new_stats t0 tq |}) /\
    select_questions (bank session) n now s = (Ok ids, s').
Proof.
  intros Hkeys Hne Hn.
  destruct (select_questions_run (bank session) n now s Hkeys Hne Hn)
    as (a & scores & s1 & s2 & s3 & r3 & shuffled & r5 & _ & _ & _ & _ & _ & _
        & _ & _ & _ & _ & _ & _ & Hrun).
  exists (slice_to a shuffled), r5. unfold start_round. rewrite Hrun. auto.
Qed.

Lemma round_counters_witness :
  exists s' started,
    start_round 5 noon 0 0 [3; 1; 4; 1; 5; 9; 2; 6]%nat session5
    = (Ok s', started) /\
    let final := after [Answer true 9 10 noon; Skip 11;
                        Answer false 12 13 noon] started in
    n_skipped (stats final) = len (skipped final) /\
    (0 <= streak (stats final) <= best_streak (stats final))%Z /\
    (best_streak (stats final) <= n_correct (stats final))%Z /\
    (0 <= n_wrong (stats final))%Z /\
    (n_correct (stats final) + n_wrong (stats final) + n_skipped (stats final)
     + len (current_round final) <= len (current_round started))%Z.
Proof.
  destruct (start_round_total 5 noon 0 0 [3; 1; 4; 1; 5; 9; 2; 6]%nat session5
              eq_refl) as (ids & s' & Hstart & _); [discriminate|lia|].
  exists s'. eexists. split; [exact Hstart|].
  exact (round_counters 5 noon 0 0 _ s' session5 _ _ Hstart).
Defined.

(** ** A round on a bank whose lookups succeed *)

Lemma update_question_state_keys (b : QuestionBank) (qid : Z) (correct : bool)
  (t : R) (now : datetime) :
  dict_keys (states b) = dict_keys (questions b) ->
  stats_complete b ->
  In qid (dict_keys (questions b)) ->
  exists b',
    update_question_state qid correct t now b = (Ok tt, b') /\
    questions b' = questions b /\
    dict_keys (states b') = dict_keys (states b) /\
    stats_complete b'.
Proof.
  intros Hkeys Hstats Hin.
  destruct (In_dict_get _ _ Hin) as [q Hq].
  rewrite <- Hkeys in Hin. destruct (In_dict_get _ _ Hin) as [state Hs].
  destruct (Hstats qid q Hq) as [cs Hcs].
  pose proof (update_question_state_ok b qid correct t now state q cs Hs Hq Hcs)
    as Hrun.
  pose proof (update_stats_complete b qid correct t now Hstats) as Hstats'.
  rewrite Hrun in Hstats'. cbn [snd] in Hstats'.
  eexists. split; [exact Hrun|]. split; [reflexivity|]. split; [|exact Hstats'].
  cbn [updated_bank states].
  rewrite (dict_keys_set_present qid _ (record_attempt state correct t now)).
  - apply (dict_keys_set_present qid _ state). exact Hs.
  - apply dict_get_set_same.
Qed.

(** A session whose bank answers every lookup of its pending questions,
    [drawn] being the number of questions the round started with. *)
Definition round_in_order (qs : dict Z Question) (drawn : Z)
  (session : QuizSession) : Prop :=
  questions (bank session) = qs /\
  dict_keys (states (bank session)) = dict_keys qs /\
  stats_complete (bank session) /\
  incl (current_round session) (dict_keys qs) /\
  (n_correct (stats session) + n_wrong (stats session)
   + n_skipped (stats session) + len (current_round session) = drawn)%Z.

Lemma run_call_in_order (qs : dict Z Question) (drawn : Z) (c : call)
  (session : QuizSession) :
  round_in_order qs drawn session ->
  fst (run_call c session) = Ok tt /\
  round_in_order qs drawn (snd (run_call c session)).
Proof.
  intros (Hq & Hkeys & Hstats & Hincl & Hsum).
  destruct (current_round session) as [|qid rest] eqn:Hcur.
  - destruct c as [correct t1 t2 now|t]; cbn [run_call].
    + rewrite handle_answer_idle by assumption. split; [reflexivity|].
      cbn [snd]. unfold round_in_order. rewrite Hcur. auto.
    + rewrite handle_skip_idle by assumption. split; [reflexivity|].
      cbn [snd]. unfold round_in_order. rewrite Hcur. auto.
  - rewrite len_cons in Hsum.
    assert (Hrest : incl rest (dict_keys qs))
      by (intros x Hx; apply Hincl; right; exact Hx).
    destruct c as [correct t1 t2 now|t]; cbn [run_call].
    + assert (Hin : In qid (dict_keys (questions (bank session))))
        by (rewrite Hq; apply Hincl; left; reflexivity).
      rewrite <- Hq in Hkeys.
      destruct (update_question_state_keys (bank session) qid correct
                  (t1 - question_start_time (stats session)) now
                  Hkeys Hstats Hin) as (b' & Hrun & Hq' & Hkeys' & Hstats').
      destruct (handle_answer_pending session correct t1 t2 now qid rest Hcur)
        as (Hc' & Hs' & Hb' & [(Hok & _ & c & Hst)|(e & _ & Hraise & _)]).
      * split; [exact Hok|]. unfold round_in_order.
        rewrite Hb', Hrun, Hc', Hst. cbn [snd].
        rewrite Hq', Hkeys', Hkeys, Hq.
        repeat split; try assumption. destruct correct; cbn; lia.
      * rewrite Hrun in Hraise. discriminate.
    + rewrite (handle_skip_pending session t qid rest Hcur).
      split; [reflexivity|]. cbn [snd]. unfold round_in_order. cbn.
      repeat split; try assumption. lia.
Qed.

Lemma run_calls_in_order (qs : dict Z Question) (drawn : Z)
  (calls : list call) (session : QuizSession) :
  round_in_order qs drawn session ->
  run_calls calls session = (Ok tt, after calls session) /\
  round_in_order qs drawn (after calls session).
Proof.
  revert session. induction calls as [|c calls IH]; intros session H.
  - split; [reflexivity|exact H].
  - destruct (run_call_in_order qs drawn c session H) as [Hok H'].
    destruct (IH _ H') as [Hrun Hfinal].
    split; [|exact Hfinal].
    cbn [run_calls after fold_left]. unfold bind.
    destruct (run_call c session) as [r session'].
    cbn [fst snd] in *. subst r. exact Hrun.
Qed.

(** X15. When every question of the bank has a state and every category
    its statistics, a round goes through without an exception: after
    [start_round], any sequence of answers and skips returns normally,
    the set of questions of the bank is the same at the end, and every
    question drawn for the round is accounted for, as answered
    correctly, answered wrongly, skipped, or still pending. *)
Theorem round_accounts_for_every_question (n : Z) (now : datetime)
  (t0 tq : R) (s s' : rng) (session started : QuizSession)
  (calls : list call) :
  dict_keys (states (bank session)) = dict_keys (questions (bank session)) ->
  stats_complete (bank session) ->
  (0 <= n)%Z ->
  start_round n now t0 tq s session = (Ok s', started) ->
  let final := after calls started in
  run_calls calls started = (Ok tt, final) /\
  questions (bank final) = questions (bank session) /\
  (n_correct (stats final) + n_wrong (stats final) + n_skipped (stats final)
   + len (current_round final) = len (current_round started))%Z.
Proof.
  intros Hkeys Hstats Hn Hstart. cbv zeta.
  destruct (start_round_fresh n now t0 tq s s' session started Hstart)
    as (ids & Hsel & ->).
  destruct (select_questions_bounds _ n now s s' ids Hn Hsel) as [_ Hincl].
  destruct (run_calls_in_order (questions (bank session)) (len ids) calls
              {| bank := bank session; current_round := ids; skipped := [];
                 stats := new_stats t0 tq |})
    as (Hrun & Hq & _ & _ & _ & Hsum).
  - unfold round_in_order. cbn. repeat split; try assumption; lia.
  - split; [exact Hrun|]. split; [exact Hq|exact Hsum].
Qed.

Lemma round_accounts_for_every_question_witness :
  exists s' started,
    start_round 5 noon 0 0 [3; 1; 4; 1; 5; 9; 2; 6]%nat session5
    = (Ok s', started) /\
    let final := after [Answer true 9 10 noon; Skip 11;
                        Answer false 12 13 noon] started in
    run_calls [Answer true 9 10 noon; Skip 11; Answer false 12 13 noon] started
    = (Ok tt, final) /\
    questions (bank final) = questions bank5 /\
    (n_correct (stats final) + n_wrong (stats final) + n_skipped (stats final)
     + len (current_round final) = len (current_round started))%Z.
Proof.
  destruct (start_round_total 5 noon 0 0 [3; 1; 4; 1; 5; 9; 2; 6]%nat session5
              eq_refl) as (ids & s' & Hstart & _); [discriminate|lia|].
  exists s'. eexists. split; [exact Hstart|].
  apply (round_accounts_for_every_question 5 noon 0 0
           [3; 1; 4; 1; 5; 9; 2; 6]%nat s' session5 _ _ eq_refl).
  - apply init_stats_complete.
  - lia.
  - exact Hstart.
Defined.

(** ** Skipped questions *)

Lemma run_call_progress (c : call) (session : QuizSession) :
  exists done extra,
    current_round session = done ++ current_round (snd (run_call c session)) /\
    skipped (snd (run_call c session)) = skipped session ++ extra /\
    incl extra done.
Proof.
  destruct (current_round session) as [|qid rest] eqn:Hcur.
  - exists [], [].
    assert (Hsame : snd (run_call c session) = session).
    { destruct c as [correct t1 t2 now|t]; cbn [run_call];
        [rewrite handle_answer_idle by assumption
        |rewrite handle_skip_idle by assumption]; reflexivity. }
    rewrite Hsame, Hcur, !app_nil_r. split; [reflexivity|].
    split; [reflexivity|]. intros x [].
  - destruct c as [correct t1 t2 now|t]; cbn [run_call].
    + destruct (handle_answer_pending session correct t1 t2 now qid rest Hcur)
        as (Hc' & Hs' & _).
      exists [qid], []. rewrite Hc', Hs', app_nil_r.
      repeat split. intros x [].
    + rewrite (handle_skip_pending session t qid rest Hcur). cbn [snd].
      exists [qid], [qid]. cbn. repeat split. apply incl_refl.
Qed.

Lemma after_progress (calls : list call) (session : QuizSession) :
  exists done extra,
    current_round session = done ++ current_round (after calls session) /\
    skipped (after calls session) = skipped session ++ extra /\
    incl extra done.
Proof.
  revert session. induction calls as [|c calls IH]; intros session.
  - exists [], []. cbn. rewrite app_nil_r. repeat split. apply incl_refl.
  - destruct (run_call_progress c session) as (d1 & e1 & Hc1 & Hs1 & Hi1).
    destruct (IH (snd (run_call c session))) as (d2 & e2 & Hc2 & Hs2 & Hi2).
    exists (d1 ++ d2), (e1 ++ e2). cbn [after fold_left].
    fold (after calls (snd (run_call c session))).
    rewrite Hs2, Hs1, <- !app_assoc, Hc1. rewrite Hc2 at 1.
    repeat split. apply incl_app.
    + apply incl_appl, Hi1.
    + apply incl_appr, Hi2.
Qed.

(** X16. Answers and skips only consume the front of [current_round] and
    only append to [skipped]: after any sequence of them the pending
    questions are a tail of the earlier ones, [skipped] is the earlier
    list followed by ids taken from the consumed front, and no call takes
    an id out of [skipped]. So once a question has been skipped the
    round is never reported complete, whatever calls follow. *)
Theorem skipped_is_never_drained (session : QuizSession) (calls : list call) :
  let final := after calls session in
  (exists done extra,
      current_round session = done ++ current_round final /\
      skipped final = skipped session ++ extra /\
      incl extra done) /\
  (skipped session <> [] -> is_round_complete final = false).
Proof.
  cbv zeta.
  destruct (after_progress calls session) as (done & extra & Hc & Hs & Hi).
  split; [exists done, extra; auto|].
  intros Hne. unfold is_round_complete. rewrite Hs.
  destruct (skipped session) as [|x l]; [contradiction|].
  destruct (current_round (after calls session)); reflexivity.
Qed.

(** ** Starting a round *)



(** ** The advanced statistics of a session *)

(** One line of ['category_performance']: the line of
    [get_category_stats], and the key ['avg_time'] when the loop of
    lines 70-72 has set it. *)
Record CategoryPerformance : Type := {
  line : CategoryReport;
  avg_time : option R
}.

Record SessionReport : Type := {
  duration : R;
  questions_per_minute : R;
  accuracy : R;
  r_streak : Z;
  r_best_streak : Z
}.

Record DifficultyDistribution : Type := {
  easy : Z;
  medium : Z;
  hard : Z
}.

Record AdvancedStats : Type := {
  category_performance : dict string CategoryPerformance;
  session_stats : SessionReport;
  difficulty_distribution : DifficultyDistribution
}.

(** [sum(times) / len(times) if times else 0] *)
Definition mean_time (times : list R) : R :=
  match times with
  | [] => 0%R
  | _ :: _ => (sum_R times / IZR (len times))%R
  end.

(** The body of the loop of lines 70-72 of session.py *)
Definition add_avg_time (category_stats : dict string CategoryPerformance)
  (ct : string * list R) : dict string CategoryPerformance :=
  let (category, times) := ct in
  match dict_get category category_stats with
  | Some p =>
      dict_set category
        {| line := line p; avg_time := Some (mean_time times) |}
        category_stats
  | None => category_stats
  end.

Definition is_easy (s : QuestionState) : bool :=
  if Rle_dec (difficulty s) 2 then true else false.

Definition is_medium (s : QuestionState) : bool :=
  if Rlt_dec 2 (difficulty s) then
    if Rle_dec (difficulty s) 4 then true else false
  else false.

Definition is_hard (s : QuestionState) : bool :=
  if Rlt_dec 4 (difficulty s) then true else false.

(** [get_advanced_stats]: [t] is the reading of [time.time()]. *)
Definition get_advanced_stats (t : R) (session : QuizSession)
  : res AdvancedStats :=
  res_bind (get_category_stats (bank session)) (fun category_stats =>
  let category_stats :=
    fold_left add_avg_time (times_per_category (stats session))
      (map (fun cr : string * CategoryReport =>
              (fst cr, {| line := snd cr; avg_time := None |}))
           category_stats) in
  let session_duration := (t - start_time (stats session))%R in
  let answered := (n_correct (stats session) + n_wrong (stats session))%Z in
  Ok {| category_performance := category_stats;
        session_stats :=
          {| duration := session_duration;
             questions_per_minute :=
               if Rlt_dec 0 session_duration
               then (IZR answered / (session_duration / 60))%R
               else 0%R;
             accuracy :=
               if (0 <? answered)%Z
               then (IZR (n_correct (stats session)) / IZR answered)%R
               else 0%R;
             r_streak := streak (stats session);
             r_best_streak := best_streak (stats session) |};
        difficulty_distribution :=
          {| easy := len (filter is_easy (dict_values (states (bank session))));
             medium :=
               len (filter is_medium (dict_values (states (bank session))));
             hard :=
               len (filter is_hard (dict_values (states (bank session)))) |}
     |}).

Lemma get_category_stats_total (b : QuestionBank) :
  dict_keys (states b) = dict_keys (questions b) ->
  exists report,
    get_category_stats b = Ok report /\
    dict_keys report = dict_keys (category_stats b).
Proof.
  intros Hkeys.
  pose (avg := fun c =>
          match category_ids b c with
          | [] => 1%R
          | _ :: _ =>
              (sum_R (map (fun qid => difficulty (state_of b qid))
                          (category_ids b c))
               / IZR (len (category_ids b c)))%R
          end).
  exists (map (fun ce : string * CategoryStats =>
                 (fst ce, report_line (snd ce) (avg (fst ce))))
              (category_stats b)).
  split.
  - unfold get_category_stats. apply mapM_ok.
    intros [c cs] _. rewrite (category_difficulty_value b c Hkeys). reflexivity.
  - unfold dict_keys. rewrite map_map. reflexivity.
Qed.

Lemma add_avg_time_get (perf : dict string CategoryPerformance)
  (c c1 : string) (times : list R) :
  dict_get c (add_avg_time perf (c1, times))
  = if String.eqb c c1
    then match dict_get c perf with
         | Some p => Some {| line := line p;
                             avg_time := Some (mean_time times) |}
         | None => None
         end
    else dict_get c perf.
Proof.
  unfold add_avg_time.
  destruct (String.eqb_spec c c1) as [->|Hne].
  - destruct (dict_get c1 perf) as [p|] eqn:Hp; [|exact Hp].
    apply dict_get_set_same.
  - destruct (dict_get c1 perf) as [p|]; [|reflexivity].
    apply dict_get_set_other. exact Hne.
Qed.

Lemma fold_add_avg_time_get (times : dict string (list R)) :
  NoDup (dict_keys times) ->
  forall (perf : dict string CategoryPerformance) (c : string),
    dict_get c (fold_left add_avg_time times perf)
    = match dict_get c perf with
      | Some p =>
          Some match dict_get c times with
               | Some ts => {| line := line p;
                               avg_time := Some (mean_time ts) |}
               | None => p
               end
      | None => None
      end.
Proof.
  induction times as [|[c1 ts1] times IH]; intros Hnd perf c.
  - cbn. destruct (dict_get c perf); reflexivity.
  - inversion Hnd as [|? ? Hnin Hnd']; subst.
    cbn [fold_left]. rewrite (IH Hnd'), add_avg_time_get.
    cbn [dict_get]. change (key_eqb c c1) with (String.eqb c c1).
    destruct (String.eqb_spec c c1) as [->|Hne].
    + rewrite (dict_get_None c1 times Hnin).
      destruct (dict_get c1 perf); reflexivity.
    + reflexivity.
Qed.

Lemma fold_add_avg_time_keys (times : dict string (list R))
  (perf : dict string CategoryPerformance) :
  dict_keys (fold_left add_avg_time times perf) = dict_keys perf.
Proof.
  revert perf. induction times as [|[c1 ts1] times IH]; intros perf;
    [reflexivity|].
  cbn [fold_left]. rewrite IH. unfold add_avg_time.
  destruct (dict_get c1 perf) as [p|] eqn:Hp; [|reflexivity].
  apply (dict_keys_set_present c1 _ p). exact Hp.
Qed.

Lemma difficulty_buckets (l : list QuestionState) :
  (len (filter is_easy l) + len (filter is_medium l) + len (filter is_hard l)
   = len l)%Z.
Proof.
  induction l as [|s l IH]; [reflexivity|].
  cbn [filter]. unfold is_easy at 1, is_medium at 1, is_hard at 1.
  destruct (Rle_dec (difficulty s) 2), (Rlt_dec 2 (difficulty s)),
    (Rle_dec (difficulty s) 4), (Rlt_dec 4 (difficulty s));
    try lra; rewrite ?len_cons; lia.
Qed.

(** X18. On a bank whose states follow its questions [get_advanced_stats]
    never raises, and never divides by zero. Its category performance has
    the categories of the bank's statistics, each with the line of
    [get_category_stats], and with the mean of the times recorded in this
    session when the session has recorded times for the category, no
    ['avg_time'] otherwise. The three difficulty classes count every
    state exactly once. The duration is the time since the session
    started; the rate of questions per minute is 0 when the duration is
    not positive and [answered / (duration / 60)] otherwise; the accuracy
    is 0 when nothing was answered, and lies in [[0, 1]] when the two
    counters are not negative. *)
Theorem get_advanced_stats_report (t : R) (session : QuizSession) :
  dict_keys (states (bank session)) = dict_keys (questions (bank session)) ->
  exists cats report,
    get_category_stats (bank session) = Ok cats /\
    get_advanced_stats t session = Ok report /\
    dict_keys (category_performance report)
    = dict_keys (category_stats (bank session)) /\
    (NoDup (dict_keys (times_per_category (stats session))) ->
     forall c,
       dict_get c (category_performance report)
       = match dict_get c cats with
         | Some r =>
             Some {| line := r;
                     avg_time :=
                       option_map mean_time
                         (dict_get c (times_per_category (stats session))) |}
         | None => None
         end) /\
    (easy (difficulty_distribution report)
     + medium (difficulty_distribution report)
     + hard (difficulty_distribution report)
     = len (states (bank session)))%Z /\
    duration (session_stats report) = (t - start_time (stats session))%R /\
    ((t - start_time (stats session) <= 0)%R ->
     questions_per_minute (session_stats report) = 0%R) /\
    ((0 < t - start_time (stats session))%R ->
     questions_per_minute (session_stats report)
     = (IZR (n_correct (stats session) + n_wrong (stats session))
        / ((t - start_time (stats session)) / 60))%R) /\
    ((n_correct (stats session) + n_wrong (stats session) <= 0)%Z ->
     accuracy (session_stats report) = 0%R) /\
    ((0 <= n_correct (stats session))%Z -> (0 <= n_wrong (stats session))%Z ->
     (0 <= accuracy (session_stats report) <= 1)%R).
Proof.
  intros Hkeys.
  destruct (get_category_stats_total (bank session) Hkeys)
    as (cats & Hcats & Hcatkeys).
  exists cats. unfold get_advanced_stats. rewrite Hcats. cbn [res_bind].
  eexists. split; [reflexivity|]. split; [reflexivity|].
  cbn [category_performance session_stats difficulty_distribution easy medium
         hard duration questions_per_minute accuracy].
  split; [|split; [|split; [|split; [|split; [|split; [|split]]]]]].
  - rewrite fold_add_avg_time_keys. unfold dict_keys. rewrite map_map.
    cbn [fst]. exact Hcatkeys.
  - intros Hnd c. rewrite (fold_add_avg_time_get _ Hnd).
    rewrite (dict_get_map_gen (fun r => {| line := r; avg_time := None |})).
    destruct (dict_get c cats) as [r|]; [|reflexivity]. cbn [option_map line].
    destruct (dict_get c (times_per_category (stats session)));
      reflexivity.
  - rewrite difficulty_buckets. unfold len, dict_values.
    rewrite length_map. reflexivity.
  - reflexivity.
  - intros Hle. destruct (Rlt_dec 0 (t - start_time (stats session))); [lra|].
    reflexivity.
  - intros Hpos.
    destruct (Rlt_dec 0 (t - start_time (stats session))); [|lra].
    reflexivity.
  - intros Hle.
    destruct (Z.ltb_spec 0 (n_correct (stats session) + n_wrong (stats session)));
      [lia|reflexivity].
  - intros Hc Hw. apply accuracy_range. lia.
Qed.

Lemma get_advanced_stats_report_witness :
  exists cats report,
    get_category_stats bank5 = Ok cats /\
    get_advanced_stats 60 session5 = Ok report /\
    (easy (difficulty_distribution report)
     + medium (difficulty_distribution report)
     + hard (difficulty_distribution report)
     = 5)%Z /\
    questions_per_minute (session_stats report) = (0 / ((60 - 0) / 60))%R /\
    accuracy (session_stats report) = 0%R.
Proof.
  destruct (get_advanced_stats_report 60 session5 eq_refl)
    as (cats & report & Hcats & Hrun & _ & _ & Hd & _ & _ & Hq & Ha & _).
  exists cats, report. split; [exact Hcats|]. split; [exact Hrun|].
  split; [exact Hd|]. split; [apply Hq; cbn; lra|apply Ha; cbn; lia].
Defined.

(* ================================================================== *)
(** * Further properties of a snapshot *)

Lemma build_questions_keys (data : list Question) (qid : Z) :
  In qid (dict_keys (build_questions data)) -> In qid (map q_id data).
Proof.
  intros Hin. destruct (In_dict_get _ _ Hin) as [q Hq].
  unfold build_questions in Hq. rewrite build_questions_get_acc in Hq.
  destruct (find (fun q0 => (q_id q0 =? qid)%Z) (rev data)) as [q0|] eqn:Hf;
    [|discriminate].
  apply find_some in Hf. destruct Hf as [Hin0 Heq].
  apply Z.eqb_eq in Heq. subst qid. apply in_map, in_rev. exact Hin0.
Qed.

Section ImportFurther.

Variable int_of_str : string -> option Z.
Variable fromisoformat : string -> option datetime.

Lemma import_entry_keeps (bank bank' : QuestionBank)
  (key : pykey) (state_dict : StateDict) :
  import_entry int_of_str fromisoformat bank (key, state_dict) = Ok bank' ->
  exists qid state state',
    py_int int_of_str key = Ok qid /\
    dict_get qid (states bank) = Some state /\
    states bank' = dict_set qid state' (states bank) /\
    questions bank' = questions bank /\
    category_stats bank' = category_stats bank /\
    difficulty state' = sd_difficulty state_dict /\
    times_shown state' = sd_times_shown state_dict /\
    times_correct state' = sd_times_correct state_dict /\
    consecutive_wrong state' = sd_consecutive_wrong state_dict /\
    last_5_attempts state' = sd_last_5_attempts state_dict /\
    mastery_level state' = sd_mastery_level state_dict /\
    time_to_answer state' = time_to_answer state /\
    category state' = category state.
Proof.
  unfold import_entry.
  destruct (py_int int_of_str key) as [qid|e]; cbn [res_bind]; [|discriminate].
  destruct (dict_get qid (states bank)) as [state|] eqn:Hs;
    cbn [index res_bind]; [|discriminate].
  destruct (match sd_last_seen state_dict with
            | Some s =>
                if String.eqb s EmptyString then Ok (last_seen state)
                else match fromisoformat s with
                     | Some d => Ok (Some d)
                     | None => Raise ValueError
                     end
            | None => Ok (last_seen state)
            end) as [seen|e]; cbn [res_bind]; [|discriminate].
  intros [= <-]. exists qid, state. eexists.
  split; [reflexivity|]. split; [exact Hs|].
  cbn. repeat split; reflexivity.
Qed.

Lemma import_entries_keep (entries : list (pykey * StateDict)) :
  forall bank bank',
    foldM (import_entry int_of_str fromisoformat) entries bank = Ok bank' ->
    questions bank' = questions bank /\
    category_stats bank' = category_stats bank /\
    dict_keys (states bank') = dict_keys (states bank) /\
    (forall key state_dict,
        In (key, state_dict) entries ->
        exists qid,
          py_int int_of_str key = Ok qid /\
          In qid (dict_keys (states bank))) /\
    (forall qid,
        (forall key state_dict,
            In (key, state_dict) entries ->
            py_int int_of_str key <> Ok qid) ->
        dict_get qid (states bank') = dict_get qid (states bank)).
Proof.
  induction entries as [|[key state_dict] entries IH]; cbn [foldM];
    intros bank bank'.
  - intros [= <-]. repeat split; try reflexivity. intros key sd [].
  - destruct (import_entry int_of_str fromisoformat bank (key, state_dict))
      as [bank1|e] eqn:Hentry; cbn [res_bind]; [|discriminate].
    intros Hfold.
    destruct (import_entry_keeps bank bank1 key state_dict Hentry)
      as (qid & state & state' & Hkey & Hs & HS & HQ & HC & _).
    destruct (IH bank1 bank' Hfold) as (HQ' & HC' & HK' & Hin' & Hout').
    assert (Hkeys1 : dict_keys (states bank1) = dict_keys (states bank)).
    { rewrite HS. apply (dict_keys_set_present qid _ state). exact Hs. }
    split; [congruence|]. split; [congruence|]. split; [congruence|].
    split.
    + intros key0 sd0 [[= <- <-]|Hin].
      * exists qid. split; [exact Hkey|].
        apply (dict_get_In qid state). exact Hs.
      * destruct (Hin' key0 sd0 Hin) as (qid0 & Hk0 & Hin0).
        exists qid0. split; [exact Hk0|]. rewrite <- Hkeys1. exact Hin0.
    + intros qid0 Hfree. rewrite Hout'.
      * rewrite HS. apply dict_get_set_other.
        intros <-. apply (Hfree key state_dict); [left; reflexivity|exact Hkey].
      * intros key0 sd0 Hin. apply (Hfree key0 sd0). right. exact Hin.
Qed.

Lemma foldM_raises_from {A B} (P : A -> Prop) (f : A -> B -> res A)
  (l : list B) (x : B) (a : A) :
  P a ->
  (forall a y a', P a -> f a y = Ok a' -> P a') ->
  (forall a, P a -> exists e, f a x = Raise e) ->
  In x l ->
  exists e, foldM f l a = Raise e.
Proof.
  intros Ha Hstep Hx Hin. revert a Ha.
  induction l as [|y l IH]; intros a Ha; [contradiction|].
  cbn [foldM]. destruct Hin as [->|Hin].
  - destruct (Hx a Ha) as [e He]. rewrite He. exists e. reflexivity.
  - destruct (f a y) as [a'|e] eqn:Hf; cbn [res_bind]; [|eauto].
    apply (IH Hin). apply (Hstep a y a' Ha Hf).
Qed.

(** X19. A snapshot that mentions a question which the question set does
    not have cannot be imported: when the id of an entry of [states] is
    not the id of a question, [import_state] raises, and it raises
    [KeyError] when that entry is the first one. Progress saved before a
    question was removed from the data no longer loads. *)
Theorem import_state_unknown_question (data : list Question)
  (snapshot : Snapshot) (entries : list (pykey * StateDict))
  (key : pykey) (state_dict : StateDict) (qid : Z) :
  snap_states snapshot = Some entries ->
  py_int int_of_str key = Ok qid ->
  ~ In qid (map q_id data) ->
  (In (key, state_dict) entries ->
   exists e, import_state int_of_str fromisoformat data snapshot = Raise e) /\
  (forall rest,
      entries = (key, state_dict) :: rest ->
      import_state int_of_str fromisoformat data snapshot = Raise KeyError).
Proof.
  intros Hsnap Hkey Hnot.
  assert (Hnone : forall bank,
             dict_keys (states bank) = dict_keys (build_questions data) ->
             import_entry int_of_str fromisoformat bank (key, state_dict)
             = Raise KeyError).
  { intros bank Hk. unfold import_entry. rewrite Hkey. cbn [res_bind].
    rewrite dict_get_None; [reflexivity|].
    rewrite Hk. intros Hin. apply Hnot.
    apply build_questions_keys. exact Hin. }
  assert (Hinit : dict_keys (states (__init__ data))
                  = dict_keys (build_questions data)).
  { unfold __init__, dict_keys. cbn [states]. rewrite map_map. reflexivity. }
  unfold import_state. rewrite Hsnap. cbn [index res_bind]. split.
  - intros Hin.
    destruct (foldM_raises_from
                (fun bank => dict_keys (states bank)
                             = dict_keys (build_questions data))
                (import_entry int_of_str fromisoformat) entries
                (key, state_dict) (__init__ data) Hinit) as [e He].
    + intros bank [key0 sd0] bank' Hk Hentry.
      destruct (import_entry_keeps bank bank' key0 sd0 Hentry)
        as (qid0 & state & state' & _ & Hs & HS & _).
      rewrite HS, <- Hk. apply (dict_keys_set_present qid0 _ state). exact Hs.
    + intros bank Hk. exists KeyError. apply Hnone. exact Hk.
    + exact Hin.
    + rewrite He. exists e. reflexivity.
  - intros rest ->. cbn [foldM]. rewrite (Hnone _ Hinit). reflexivity.
Qed.

Lemma foldM_app {A B} (f : A -> B -> res A) (l1 l2 : list B) (a : A) :
  foldM f (l1 ++ l2) a = res_bind (foldM f l1 a) (foldM f l2).
Proof.
  revert a. induction l1 as [|x l1 IH]; intros a; [reflexivity|].
  cbn [app foldM]. destruct (f a x) as [a'|e]; cbn [res_bind]; [apply IH|].
  reflexivity.
Qed.

Lemma init_state_get (data : list Question) (qid : Z) :
  dict_get qid (states (__init__ data))
  = option_map (fun q => new_state (q_category q))
      (dict_get qid (build_questions data)).
Proof.
  unfold __init__. cbn [states].
  apply (dict_get_map_gen (fun q => new_state (q_category q))).
Qed.

(** The state [import_state] builds for a question from the entry of the
    snapshot: the response times are empty, the category is the
    question's, and [last_seen] is absent unless the entry has a
    non-empty string, which is then parsed. *)
Definition imported_state (q : Question) (state_dict : StateDict)
  (seen : option datetime) : QuestionState :=
  {| difficulty := sd_difficulty state_dict;
     times_shown := sd_times_shown state_dict;
     times_correct := sd_times_correct state_dict;
     consecutive_wrong := sd_consecutive_wrong state_dict;
     last_5_attempts := sd_last_5_attempts state_dict;
     time_to_answer := [];
     last_seen := seen;
     mastery_level := sd_mastery_level state_dict;
     category := q_category q |}.

Definition parsed_last_seen (state_dict : StateDict) : option datetime :=
  match sd_last_seen state_dict with
  | None => None
  | Some s => if String.eqb s EmptyString then None else fromisoformat s
  end.

(** X20. A snapshot imports into any question set that has its
    questions. When [import_state] returns a bank, that bank has the
    questions of the data and a state for each of them; its category
    statistics are the snapshot's, or the fresh ones when the snapshot
    has none; every id of the snapshot is the id of a question; a
    question the snapshot does not mention is in its initial state; and a
    question the snapshot mentions once has the fields of its entry,
    empty response times, the category of the question and the parsed
    [last_seen]. Questions added to the data after the snapshot was
    taken start fresh, and the progress of the others is kept. *)
Theorem import_state_merges (data : list Question) (snapshot : Snapshot)
  (b : QuestionBank) :
  import_state int_of_str fromisoformat data snapshot = Ok b ->
  exists entries,
    snap_states snapshot = Some entries /\
    questions b = build_questions data /\
    dict_keys (states b) = dict_keys (questions b) /\
    category_stats b
    = match snap_category_stats snapshot with
      | Some stats => stats
      | None => _initialize_category_stats (build_questions data)
      end /\
    (forall key state_dict,
        In (key, state_dict) entries ->
        exists qid,
          py_int int_of_str key = Ok qid /\ In qid (map q_id data)) /\
    (forall qid q,
        dict_get qid (build_questions data) = Some q ->
        (forall key state_dict,
            In (key, state_dict) entries ->
            py_int int_of_str key <> Ok qid) ->
        dict_get qid (states b) = Some (new_state (q_category q))) /\
    (forall qid q key state_dict before later,
        dict_get qid (build_questions data) = Some q ->
        entries = before ++ (key, state_dict) :: later ->
        py_int int_of_str key = Ok qid ->
        (forall key' state_dict',
            In (key', state_dict') (before ++ later) ->
            py_int int_of_str key' <> Ok qid) ->
        dict_get qid (states b)
        = Some (imported_state q state_dict (parsed_last_seen state_dict))).
Proof.
  unfold import_state.
  destruct (snap_states snapshot) as [entries|]; cbn [index res_bind];
    [|discriminate].
  destruct (foldM (import_entry int_of_str fromisoformat) entries
              (__init__ data)) as [bank|e] eqn:Hfold; cbn [res_bind];
    [|discriminate].
  intros [= <-]. exists entries. cbn [questions states category_stats].
  destruct (import_entries_keep entries _ _ Hfold)
    as (HQ & HC & HK & Hin & Hout).
  assert (Hinit : dict_keys (states (__init__ data))
                  = dict_keys (build_questions data)).
  { unfold __init__, dict_keys. cbn [states]. rewrite map_map. reflexivity. }
  split; [reflexivity|]. split; [exact HQ|].
  split; [rewrite HK, HQ; exact Hinit|].
  split; [rewrite HQ; reflexivity|]. split; [|split].
  - intros key sd Hentry. destruct (Hin key sd Hentry) as (qid & Hkey & Hq).
    exists qid. split; [exact Hkey|].
    apply build_questions_keys. rewrite <- Hinit. exact Hq.
  - intros qid q Hq Hfree. rewrite (Hout qid Hfree), init_state_get, Hq.
    reflexivity.
  - intros qid q key sd before later Hq -> Hkey Hfree.
    rewrite foldM_app in Hfold.
    destruct (foldM (import_entry int_of_str fromisoformat) before
                (__init__ data)) as [bank1|e] eqn:Hbefore;
      cbn [res_bind foldM] in Hfold; [|discriminate].
    destruct (import_entry int_of_str fromisoformat bank1 (key, sd))
      as [bank2|e] eqn:Hentry; cbn [res_bind] in Hfold; [|discriminate].
    destruct (import_entries_keep before _ _ Hbefore) as (_ & _ & _ & _ & Hout1).
    destruct (import_entries_keep later _ _ Hfold) as (_ & _ & _ & _ & Hout2).
    rewrite Hout2
      by (intros k d Hi; apply (Hfree k d), in_or_app; right; exact Hi).
    assert (Hs1 : dict_get qid (states bank1)
                  = Some (new_state (q_category q))).
    { rewrite Hout1
        by (intros k d Hi; apply (Hfree k d), in_or_app; left; exact Hi).
      rewrite init_state_get, Hq. reflexivity. }
    unfold import_entry in Hentry. rewrite Hkey in Hentry.
    cbn [res_bind] in Hentry. rewrite Hs1 in Hentry.
    cbn [index res_bind] in Hentry.
    unfold imported_state, parsed_last_seen.
    destruct (sd_last_seen sd) as [str|].
    + destruct (String.eqb str EmptyString).
      * cbn in Hentry. injection Hentry as <-. cbn [states].
        rewrite dict_get_set_same. reflexivity.
      * destruct (fromisoformat str) as [d|]; cbn in Hentry; [|discriminate].
        injection Hentry as <-. cbn [states].
        rewrite dict_get_set_same. reflexivity.
    + cbn in Hentry. injection Hentry as <-. cbn [states].
      rewrite dict_get_set_same. reflexivity.
Qed.

(** ** Malformed snapshots *)

Lemma import_entry_exception (bank : QuestionBank)
  (entry : pykey * StateDict) (e : exn) :
  import_entry int_of_str fromisoformat bank entry = Raise e ->
  e = ValueError \/ e = KeyError.
Proof.
  destruct entry as [key state_dict]. unfold import_entry, py_int.
  destruct key as [z|s]; cbn [res_bind].
  - destruct (dict_get z (states bank)) as [state|]; cbn [index res_bind];
      [|intros [= <-]; auto].
    destruct (sd_last_seen state_dict) as [str|]; cbn [res_bind];
      [|discriminate].
    destruct (String.eqb str EmptyString); cbn [res_bind]; [discriminate|].
    destruct (fromisoformat str); cbn [res_bind]; [discriminate|].
    intros [= <-]. auto.
  - destruct (int_of_str s) as [z|]; cbn [res_bind]; [|intros [= <-]; auto].
    destruct (dict_get z (states bank)) as [state|]; cbn [index res_bind];
      [|intros [= <-]; auto].
    destruct (sd_last_seen state_dict) as [str|]; cbn [res_bind];
      [|discriminate].
    destruct (String.eqb str EmptyString); cbn [res_bind]; [discriminate|].
    destruct (fromisoformat str); cbn [res_bind]; [discriminate|].
    intros [= <-]. auto.
Qed.

Lemma import_entries_exception (entries : list (pykey * StateDict)) :
  forall bank e,
    foldM (import_entry int_of_str fromisoformat) entries bank = Raise e ->
    e = ValueError \/ e = KeyError.
Proof.
  induction entries as [|entry entries IH]; cbn [foldM]; intros bank e;
    [discriminate|].
  destruct (import_entry int_of_str fromisoformat bank entry) as [bank'|e']
    eqn:Hentry; cbn [res_bind].
  - apply IH.
  - intros [= <-]. apply (import_entry_exception bank entry e' Hentry).
Qed.

(** An entry that [import_state] cannot take in: its id is a string that
    [int] rejects, or its [last_seen] is a non-empty string that
    [fromisoformat] rejects. *)
Definition malformed_entry (entry : pykey * StateDict) : Prop :=
  (exists s, fst entry = KStr s /\ int_of_str s = None) \/
  (exists s, sd_last_seen (snd entry) = Some s /\ s <> EmptyString /\
             fromisoformat s = None).

(** C9, amended. [import_state] raises [KeyError] when the snapshot has
    no [states] key. It takes the entries of [states] in order, and at
    the first one it cannot take it raises: [ValueError] when the id is a
    string that [int] rejects, [KeyError] when the id is not the id of a
    question, and [ValueError] when the id is the id of a question and
    [last_seen] is a non-empty string that [fromisoformat] rejects. So a
    snapshot with a malformed entry is never imported: the call raises
    [ValueError] or [KeyError]. A missing [category_stats] key is not an
    error: the statistics are the freshly initialised ones. *)
Theorem import_state_malformed (data : list Question) (snapshot : Snapshot) :
  (snap_states snapshot = None ->
   import_state int_of_str fromisoformat data snapshot = Raise KeyError) /\
  (forall entries before key state_dict later bank,
      snap_states snapshot = Some entries ->
      entries = before ++ (key, state_dict) :: later ->
      foldM (import_entry int_of_str fromisoformat) before (__init__ data)
      = Ok bank ->
      (forall s,
          key = KStr s -> int_of_str s = None ->
          import_state int_of_str fromisoformat data snapshot
          = Raise ValueError) /\
      (forall qid,
          py_int int_of_str key = Ok qid ->
          dict_get qid (build_questions data) = None ->
          import_state int_of_str fromisoformat data snapshot
          = Raise KeyError) /\
      (forall qid q s,
          py_int int_of_str key = Ok qid ->
          dict_get qid (build_questions data) = Some q ->
          sd_last_seen state_dict = Some s -> s <> EmptyString ->
          fromisoformat s = None ->
          import_state int_of_str fromisoformat data snapshot
          = Raise ValueError)) /\
  (forall entries entry,
      snap_states snapshot = Some entries ->
      In entry entries -> malformed_entry entry ->
      import_state int_of_str fromisoformat data snapshot = Raise ValueError \/
      import_state int_of_str fromisoformat data snapshot = Raise KeyError) /\
  (forall entries b,
      snap_states snapshot = Some entries ->
      snap_category_stats snapshot = None ->
      foldM (import_entry int_of_str fromisoformat) entries (__init__ data) = Ok b ->
      import_state int_of_str fromisoformat data snapshot
      = Ok {| questions := questions b; states := states b;
              category_stats := _initialize_category_stats (questions b) |}).
Proof.
  unfold import_state. split; [|split; [|split]].
  - intros ->. reflexivity.
  - intros entries before key sd later bank -> -> Hbefore.
    cbn [index res_bind]. rewrite foldM_app, Hbefore. cbn [res_bind foldM].
    destruct (import_entries_keep before _ _ Hbefore) as (_ & _ & HK & _ & _).
    assert (Hstate : forall qid,
               (dict_get qid (build_questions data) = None ->
                dict_get qid (states bank) = None) /\
               (forall q, dict_get qid (build_questions data) = Some q ->
                          exists st, dict_get qid (states bank) = Some st)).
    { intros qid. pose proof (init_state_get data qid) as Hinit. split.
      - intros Hq. rewrite Hq in Hinit. cbn [option_map] in Hinit.
        apply dict_get_None. rewrite HK. intros Hin.
        destruct (In_dict_get _ _ Hin) as [st Hst]. congruence.
      - intros q Hq. rewrite Hq in Hinit. cbn [option_map] in Hinit.
        apply dict_get_In in Hinit. rewrite <- HK in Hinit.
        apply (In_dict_get _ _ Hinit). }
    split; [|split].
    + intros s -> Hint. unfold import_entry, py_int. rewrite Hint.
      reflexivity.
    + intros qid Hkey Hq. unfold import_entry. rewrite Hkey.
      cbn [res_bind]. rewrite (proj1 (Hstate qid) Hq). reflexivity.
    + intros qid q s Hkey Hq Hseen Hne Hparse. unfold import_entry.
      rewrite Hkey. cbn [res_bind].
      destruct (proj2 (Hstate qid) q Hq) as [st Hst]. rewrite Hst.
      cbn [index res_bind]. rewrite Hseen, Hparse.
      destruct (String.eqb_spec s EmptyString) as [->|_]; [contradiction|].
      reflexivity.
  - intros entries entry -> Hin Hbad. cbn [index res_bind].
    destruct (@foldM_raises _ _ (import_entry int_of_str fromisoformat)
                entries entry (__init__ data) Hin) as [e He].
    + intros bank. destruct entry as [key sd]. unfold import_entry.
      destruct Hbad as [(s & Hkey & Hint)|(s & Hseen & Hne & Hparse)];
        cbn [fst snd] in *.
      * subst key. unfold py_int. rewrite Hint. eexists. reflexivity.
      * destruct (py_int int_of_str key) as [qid|e]; cbn [res_bind]; [|eauto].
        destruct (index (dict_get qid (states bank))) as [state|e];
          cbn [res_bind]; [|eauto].
        rewrite Hseen, Hparse.
        destruct (String.eqb_spec s EmptyString) as [->|_]; [contradiction|].
        cbn [res_bind]. eauto.
    + rewrite He. cbn [res_bind].
      destruct (import_entries_exception entries _ e He) as [->| ->]; auto.
  - intros entries b -> Hstats Hfold. cbn [index res_bind].
    rewrite Hfold, Hstats. reflexivity.
Qed.

End ImportFurther.

Lemma import_state_unknown_question_witness :
  import_state parse_int parse_isoformat [q2] (export_state bank5 noon)
  = Raise KeyError.
Proof.
  eapply (proj2 (import_state_unknown_question parse_int parse_isoformat [q2]
                   (export_state bank5 noon) _ (KInt 1) _ 1%Z
                   eq_refl eq_refl _)).
  reflexivity.
  Unshelve. cbn. intros [H|[]]. discriminate H.
Defined.

Lemma import_state_merges_witness :
  exists entries,
    snap_states no_category_stats = Some entries /\
    questions bank1 = build_questions [q1] /\
    category_stats bank1 = _initialize_category_stats (build_questions [q1]) /\
    dict_get 1%Z (states bank1) = Some (new_state (q_category q1)).
Proof.
  destruct (import_state_merges parse_int parse_isoformat [q1]
              no_category_stats bank1 eq_refl)
    as (entries & Hsnap & HQ & _ & HC & _ & Hfresh & _).
  exists entries. split; [exact Hsnap|]. split; [exact HQ|].
  split; [exact HC|].
  apply (Hfresh 1%Z q1 eq_refl).
  injection Hsnap as <-. intros key sd [].
Defined.

(** A snapshot whose second entry has the id of no question and, besides,
    a [last_seen] that is no timestamp. *)
Definition unknown_id_bad_timestamp : Snapshot :=
  {| snap_states :=
       Some [(KStr "1", export_entry (new_state "tones"));
             (KStr "7",
              {| sd_difficulty := 1; sd_times_shown := 1;
                 sd_times_correct := 0; sd_consecutive_wrong := 1;
                 sd_last_5_attempts := [false]; sd_mastery_level := 0;
                 sd_last_seen := Some "yesterday"%string |})];
     snap_category_stats := Some [];
     snap_timestamp := Some (isoformat noon) |}.

Lemma import_state_malformed_witness :
  import_state parse_int parse_isoformat [q1] no_states = Raise KeyError /\
  import_state parse_int parse_isoformat [q1] bad_id = Raise ValueError /\
  import_state parse_int parse_isoformat [q1] bad_timestamp
  = Raise ValueError /\
  import_state parse_int parse_isoformat [q1] unknown_id_bad_timestamp
  = Raise KeyError.
Proof.
  split; [|split; [|split]].
  - apply (proj1 (import_state_malformed parse_int parse_isoformat [q1]
                    no_states)).
    reflexivity.
  - eapply (proj1 (proj1 (proj2 (import_state_malformed parse_int
                                   parse_isoformat [q1] bad_id))
                     _ [] _ _ [] _ eq_refl eq_refl eq_refl)).
    + reflexivity.
    + reflexivity.
  - eapply (proj2 (proj2 (proj1 (proj2 (import_state_malformed parse_int
                                          parse_isoformat [q1] bad_timestamp))
                            _ [] _ _ [] _ eq_refl eq_refl eq_refl))).
    + reflexivity.
    + reflexivity.
    + reflexivity.
    + discriminate.
    + reflexivity.
  - eapply (proj1 (proj2 (proj1 (proj2 (import_state_malformed parse_int
                                          parse_isoformat [q1]
                                          unknown_id_bad_timestamp))
                            _ [(KStr "1", export_entry (new_state "tones"))]
                            _ _ [] _ eq_refl eq_refl eq_refl))).
    + reflexivity.
    + reflexivity.
Defined.

(* ================================================================== *)
(** * Further properties of the scores *)

Lemma exp_monotone (x y : R) : (x <= y)%R -> (exp x <= exp y)%R.
Proof.
  intros [Hlt| ->]; [|lra]. left. apply exp_increasing. exact Hlt.
Qed.

(** X21. For a question that has been seen, with a mastery that is not
    negative and a [last_seen] less than 21294 days ahead of the clock,
    the decay never grows with time: of two readings of the clock, the
    one with more whole days since [last_seen] gives the smaller or equal
    decay. The decay never falls below [1 - mastery], however long ago
    the question was seen. Since the pattern score is multiplied by the
    decay, a mastered question loses priority as it ages. *)
Theorem calculate_decay_monotone (b : QuestionBank) (qid : Z)
  (now1 now2 seen : datetime) (state : QuestionState) :
  dict_get qid (states b) = Some state ->
  last_seen state = Some seen ->
  (0 <= mastery_level state)%R ->
  (-21294 < sub_days now1 seen)%Z ->
  (sub_days now1 seen <= sub_days now2 seen)%Z ->
  exists d1 d2,
    calculate_decay b qid now1 = Ok d1 /\
    calculate_decay b qid now2 = Ok d2 /\
    (d2 <= d1)%R /\
    (1 - mastery_level state <= d2)%R.
Proof.
  intros Hs Hseen Hm _ Hdays. unfold calculate_decay. rewrite Hs.
  cbn [index res_bind]. rewrite Hseen.
  eexists. eexists. split; [reflexivity|]. split; [reflexivity|].
  assert (Hexp : (exp (IZR (- sub_days now2 seen) / 30)
                  <= exp (IZR (- sub_days now1 seen) / 30))%R).
  { apply exp_monotone.
    assert (IZR (- sub_days now2 seen) <= IZR (- sub_days now1 seen))%R
      by (apply IZR_le; lia).
    lra. }
  pose proof (exp_pos (IZR (- sub_days now2 seen) / 30)) as Hpos.
  split; nra.
Qed.

Lemma calculate_decay_monotone_witness :
  exists d1 d2,
    calculate_decay answered_at_one 1 one_pm = Ok d1 /\
    calculate_decay answered_at_one 1 next_month = Ok d2 /\
    (d2 <= d1)%R.
Proof.
  destruct (calculate_decay_monotone answered_at_one 1%Z one_pm next_month
              one_pm
              (adjust_mastery (record_attempt (new_state "tones") true 2 one_pm)
                 true) eq_refl eq_refl)
    as (d1 & d2 & H1 & H2 & Hle & _).
  - simpl. unfold Rmin. destruct (Rle_dec 1 (0 + 0.1)); lra.
  - vm_compute. reflexivity.
  - vm_compute. discriminate.
  - exists d1, d2. auto.
Defined.

(** X22. For a state with a difficulty that is not negative, response
    times that are not negative, a mastery within [[0, 1]] and a
    [last_seen] that is not later than the clock, the pattern score lies
    between 0 and three times the difficulty: the trend contributes a
    factor of at most 1.5, the speed a factor of at most 2 and the decay
    a factor of at most 1. A question that was never answered scores
    exactly its difficulty. *)
Theorem calculate_pattern_score_bounded (b : QuestionBank) (qid : Z)
  (now : datetime) (state : QuestionState) :
  dict_get qid (states b) = Some state ->
  (0 <= difficulty state)%R ->
  Forall (fun t => 0 <= t)%R (time_to_answer state) ->
  (0 <= mastery_level state <= 1)%R ->
  (forall seen, last_seen state = Some seen -> (0 <= sub_days now seen)%Z) ->
  exists score,
    calculate_pattern_score b qid now = Ok score /\
    (0 <= score <= 3 * difficulty state)%R /\
    (last_5_attempts state = [] -> time_to_answer state = [] ->
     last_seen state = None -> score = difficulty state).
Proof.
  intros Hs Hd Ht Hm Hclock.
  assert (Hdecay : exists decay, calculate_decay b qid now = Ok decay /\
                                 (0 < decay <= 1)%R /\
                                 (last_seen state = None -> decay = 1%R)).
  { unfold calculate_decay. rewrite Hs. cbn [index res_bind].
    destruct (last_seen state) as [seen|] eqn:Hseen.
    - eexists. split; [reflexivity|]. split; [|discriminate]. split.
      + apply decay_formula_pos. exact Hm.
      + apply decay_formula_le_1; [lra|].
        specialize (Hclock seen eq_refl).
        assert (IZR (- sub_days now seen) <= 0)%R by (apply IZR_le; lia).
        lra.
    - exists 1%R. split; [reflexivity|]. split; [lra|reflexivity]. }
  destruct Hdecay as (decay & Hdecay & Hrange & Hone).
  unfold calculate_pattern_score. rewrite Hs. cbn [index res_bind].
  rewrite Hdecay. cbn [res_bind]. eexists. split; [reflexivity|].
  set (early := count_true (firstn 3 (last_n 5 (last_5_attempts state)))).
  set (late := count_true (skipn 3 (last_n 5 (last_5_attempts state)))).
  set (trended :=
         if (5 <=? List.length (last_5_attempts state))%nat
         then if (late <? early)%Z then (difficulty state * 1.5)%R
              else if (early <? late)%Z then (difficulty state * 0.8)%R
                   else difficulty state
         else difficulty state).
  assert (Htrend : (0 <= trended <= 1.5 * difficulty state)%R).
  { unfold trended.
    destruct (5 <=? List.length (last_5_attempts state))%nat; [|lra].
    destruct (late <? early)%Z; [lra|].
    destruct (early <? late)%Z; lra. }
  split.
  - destruct (time_to_answer state) as [|t0 ts] eqn:Htimes.
    + split; [apply Rmult_le_pos; lra|]. nra.
    + rewrite <- Htimes in *.
      assert (Hne : time_to_answer state <> [])
        by (rewrite Htimes; discriminate).
      pose proof (speed_factor_nonneg _ Ht Hne) as Hspeed.
      pose proof (Rmin_l 2 (sum_R (last_n 5 (time_to_answer state))
                            / IZR (len (last_n 5 (time_to_answer state))) / 5))
        as Hcap.
      set (speed := Rmin 2 _) in *.
      assert (Hts : (0 <= trended * speed <= 3 * difficulty state)%R)
        by (split; nra).
      split; [apply Rmult_le_pos; lra|]. nra.
  - intros Hatt Htimes Hseen. rewrite (Hone Hseen).
    unfold trended. rewrite Hatt, Htimes. cbn. lra.
Qed.

Lemma calculate_pattern_score_bounded_witness :
  exists score,
    calculate_pattern_score answered_at_one 1 next_month = Ok score /\
    (0 <= score <= 3 * Rmax 1 (1 * 0.8))%R.
Proof.
  destruct (calculate_pattern_score_bounded answered_at_one 1%Z next_month
              (adjust_mastery (record_attempt (new_state "tones") true 2 one_pm)
                 true) eq_refl)
    as (score & Hscore & Hrange & _).
  - simpl. unfold Rmax. destruct (Rle_dec 1 (1 * 0.8)); lra.
  - simpl. repeat constructor. lra.
  - simpl. unfold Rmin. destruct (Rle_dec 1 (0 + 0.1)); lra.
  - intros seen [= <-]. vm_compute. discriminate.
  - exists score. split; [exact Hscore|exact Hrange].
Defined.
